(** * Order lifecycle and inventory consistency of the storefront backend

    A shallow embedding of the order routes ([server/routes/orders.js]),
    the payment routes (mounted at [/api/payment]) and the order model
    ([server/models/Order.js]), with the properties of the order lifecycle
    stated and proved over it. Around them: the routes that read orders,
    the cart routes ([server/routes/cart.js]), the address book of a user
    with the hook that keeps one default, the tags and reviews of a
    product with the rating hook ([server/models/Product.js]), and the
    error middleware.

    Modelling conventions:
    - the document store is explicit state: products and users are finite
      maps keyed by [_id], orders a list in insertion order (the order in
      which [findOne] meets them);
    - a request handler is a function from the state before the request to
      a response and the state after it; an [await]ed write is applied to
      the state at the point where the handler performs it, so that an early
      [return] keeps the writes made before it;
    - amounts are whole numbers (rupees, as in the seed data) below 2^53,
      which JavaScript adds and multiplies exactly; the two roundings of the
      pricing are treated each on its merits: [subtotal * 0.18] rounds as the
      exact product does (lemma [tax_in_binary64] checks it against IEEE
      double precision for every subtotal up to 10000),
      [subtotal * (discount / 100)] does not (example [percentage_tie]), and
      is computed in double precision as the handler computes it;
    - the clock, the random suffix and fresh ids come with each request in
      an [Env]. *)

From stdpp Require Import gmap strings list fin_maps.
From Stdlib Require Import ZArith Ascii OrderedTypeEx Floats.SpecFloat.

Local Open Scope Z_scope.

(** ** JavaScript primitives used by the handlers *)

Module Js.

(** [Math.round (num / den)] for a positive denominator: the nearest
    integer, ties towards plus infinity. *)
Definition Math_round (num den : Z) : Z := (2 * num + den) / (2 * den).

(** One digit of [Number.prototype.toString (radix)]. *)
Definition digit_char (d : N) : ascii :=
  if (d <? 10)%N then ascii_of_N (48 + d) else ascii_of_N (87 + d).

Fixpoint toString_go (radix : N) (fuel : nat) (n : N) (acc : string) : string :=
  match fuel with
  | O => acc
  | S fuel' =>
      let acc' := String (digit_char (n mod radix)) acc in
      if (n / radix =? 0)%N then acc' else toString_go radix fuel' (n / radix) acc'
  end.

(** [n.toString (radix)] for a non-negative integer. *)
Definition toString (radix n : N) : string :=
  toString_go radix (S (N.to_nat (N.log2 n))) n "".

(** [s.padStart (width, '0')]. *)
Definition padStart0 (width : nat) (s : string) : string :=
  String.concat "" (replicate (width - String.length s) "0") +:+ s.

(** [s.slice (-n)]: the last [n] characters (all of [s] when shorter). *)
Definition slice_last (n : nat) (s : string) : string :=
  String.substring (String.length s - n) n s.

Definition upper_char (c : ascii) : ascii :=
  let k := N_of_ascii c in
  if ((97 <=? k) && (k <=? 122))%N then ascii_of_N (k - 32) else c.

Fixpoint toUpperCase (s : string) : string :=
  match s with
  | EmptyString => EmptyString
  | String c s' => String (upper_char c) (toUpperCase s')
  end.

Definition is_digit (c : ascii) : bool :=
  let k := N_of_ascii c in ((48 <=? k) && (k <=? 57))%N.

Fixpoint parse_digits (s : string) (acc : N) : N :=
  match s with
  | String c s' =>
      if is_digit c then parse_digits s' (10 * acc + (N_of_ascii c - 48))%N else acc
  | EmptyString => acc
  end.

(** [parseInt (s)] on a string without sign or leading blanks: the
    leading decimal digits, [None] (NaN) when there are none. *)
Definition parseInt (s : string) : option N :=
  match s with
  | String c _ => if is_digit c then Some (parse_digits s 0%N) else None
  | EmptyString => None
  end.

(** A string is truthy when it is not empty. *)
Definition truthy (s : string) : bool := negb (String.eqb s "").

(** [x || d] for a string [x] that may be undefined. *)
Definition or_else (x : option string) (d : string) : string :=
  match x with
  | Some s => if truthy s then s else d
  | None => d
  end.

End Js.

(** ** IEEE 754 double precision, where the handlers round a product *)

Module Binary64.

Definition of_Z (z : Z) : spec_float := binary_normalize 53 1024 z 0 false.
Definition mul : spec_float -> spec_float -> spec_float := SFmul 53 1024.
Definition div : spec_float -> spec_float -> spec_float := SFdiv 53 1024.

(** [Math.round (x)]: the integer nearest to [x], a tie going up; [None]
    for NaN and the infinities, which [Math.round] gives back. *)
Definition Math_round (x : spec_float) : option Z :=
  match x with
  | S754_zero _ => Some 0
  | S754_finite s m e =>
      let v := if s then Z.neg m else Z.pos m in
      Some (if 0 <=? e then v * 2 ^ e else (2 * v + 2 ^ (- e)) / 2 ^ (- e + 1))
  | _ => None
  end.

(** [Math.round (a * (num / den))] on whole numbers. *)
Definition round_product (a num den : Z) : option Z :=
  Math_round (mul (of_Z a) (div (of_Z num) (of_Z den))).

End Binary64.

(** ** Documents *)

Abbreviation ObjectId := N (only parsing).

(** [server/models/Product.js]: the fields the order routes read or write. *)
Record Product := mkProduct {
  name : string;
  price : Z;
  stock : Z;
  isActive : bool;
  sku : string;
  images : list string
}.

Definition set_stock (s : Z) (p : Product) : Product :=
  mkProduct (name p) (price p) s (isActive p) (sku p) (images p).

Inductive PaymentMethod := razorpay | stripe | cod | upi.
Inductive PaymentStatus := pay_pending | pay_completed | pay_failed | pay_refunded.
Inductive OrderStatus :=
  pending | confirmed | processing | shipped | delivered | cancelled | returned.
Inductive CouponType := percentage | fixed.
Inductive RefundStatus := refund_pending | refund_processed | refund_failed.

Global Instance PaymentMethod_eq_dec : EqDecision PaymentMethod.
Proof. solve_decision. Defined.
Global Instance PaymentStatus_eq_dec : EqDecision PaymentStatus.
Proof. solve_decision. Defined.
Global Instance OrderStatus_eq_dec : EqDecision OrderStatus.
Proof. solve_decision. Defined.
Global Instance CouponType_eq_dec : EqDecision CouponType.
Proof. solve_decision. Defined.

Definition status_string (s : OrderStatus) : string :=
  match s with
  | pending => "pending" | confirmed => "confirmed" | processing => "processing"
  | shipped => "shipped" | delivered => "delivered" | cancelled => "cancelled"
  | returned => "returned"
  end.

Record OrderItem := mkOrderItem {
  item_product : ObjectId;
  item_name : string;
  item_price : Z;
  quantity : Z;
  item_size : option string;
  image : string;
  item_sku : string
}.

Record Address := mkAddress {
  firstName : string;
  lastName : string;
  addressLine1 : string;
  addressLine2 : option string;
  city : string;
  state : string;
  pincode : string;
  country : option string;
  phone : string;
  sameAsShipping : option bool
}.

Record PaymentInfo := mkPaymentInfo {
  method : PaymentMethod;
  transactionId : option string;
  paymentId : option string;
  orderId : option string;
  signature : option string;
  pay_status : PaymentStatus;
  paidAt : option N;
  failureReason : option string
}.

Record Pricing := mkPricing {
  subtotal : Z;
  tax : Z;
  shippingCost : Z;
  discount : Z;
  total : Z
}.

(** The coupon of a request. The schema's enum admits the two types only;
    a missing or empty [code] is falsy. *)
Record Coupon := mkCoupon {
  code : option string;
  coupon_discount : Z;
  coupon_type : option CouponType
}.

Record Tracking := mkTracking {
  trackingNumber : option string;
  courier : option string;
  estimatedDelivery : option string
}.

Record Cancellation := mkCancellation {
  reason : option string;
  cancelledAt : option N;
  refundStatus : RefundStatus;
  refundAmount : option Z
}.

Record TimelineEntry := mkTimelineEntry {
  entry_status : OrderStatus;
  message : string;
  timestamp : N
}.

Record Order := mkOrder {
  _id : ObjectId;
  orderNumber : string;
  user : ObjectId;
  items : list OrderItem;
  shippingAddress : Address;
  billingAddress : Address;
  paymentInfo : PaymentInfo;
  pricing : Pricing;
  coupon : option Coupon;
  status : OrderStatus;
  tracking : Tracking;
  cancellation : Cancellation;
  timeline : list TimelineEntry
}.

Definition set_orderNumber (n : string) (o : Order) : Order :=
  mkOrder (_id o) n (user o) (items o) (shippingAddress o) (billingAddress o)
    (paymentInfo o) (pricing o) (coupon o) (status o) (tracking o)
    (cancellation o) (timeline o).

Definition set_paymentInfo (p : PaymentInfo) (o : Order) : Order :=
  mkOrder (_id o) (orderNumber o) (user o) (items o) (shippingAddress o)
    (billingAddress o) p (pricing o) (coupon o) (status o) (tracking o)
    (cancellation o) (timeline o).

Definition set_status (s : OrderStatus) (o : Order) : Order :=
  mkOrder (_id o) (orderNumber o) (user o) (items o) (shippingAddress o)
    (billingAddress o) (paymentInfo o) (pricing o) (coupon o) s (tracking o)
    (cancellation o) (timeline o).

Definition set_tracking (t : Tracking) (o : Order) : Order :=
  mkOrder (_id o) (orderNumber o) (user o) (items o) (shippingAddress o)
    (billingAddress o) (paymentInfo o) (pricing o) (coupon o) (status o) t
    (cancellation o) (timeline o).

Definition set_cancellation (c : Cancellation) (o : Order) : Order :=
  mkOrder (_id o) (orderNumber o) (user o) (items o) (shippingAddress o)
    (billingAddress o) (paymentInfo o) (pricing o) (coupon o) (status o)
    (tracking o) c (timeline o).

Definition set_timeline (t : list TimelineEntry) (o : Order) : Order :=
  mkOrder (_id o) (orderNumber o) (user o) (items o) (shippingAddress o)
    (billingAddress o) (paymentInfo o) (pricing o) (coupon o) (status o)
    (tracking o) (cancellation o) t.

(** [server/models/User.js]: the cart is all the order routes touch. *)
Record CartItem := mkCartItem {
  cart_product : ObjectId;
  cart_quantity : Z;
  cart_size : option string
}.

Record User := mkUser {
  email : string;
  cart : list CartItem
}.

Definition set_cart (c : list CartItem) (u : User) : User := mkUser (email u) c.

(** The document store. *)
Record Store := mkStore {
  products : gmap N Product;
  users : gmap N User;
  orders : list Order
}.

(** What a request takes from its environment: [Date.now ()], the local
    calendar date of [new Date ()], the five characters of
    [Math.random ().toString (36).substr (2, 5)] and the [_id] of a document
    made by [new Order]. *)
Record Env := mkEnv {
  now : N;
  fullYear : N;
  month : N;
  date : N;
  random : string;
  new_id : ObjectId
}.

(** ** The order model: [server/models/Order.js] *)

Module OrderModel.
Import Js.

(** [new Order ({ .. })] with the fields the route passes: the schema's
    defaults fill the shipping country, [billingAddress.sameAsShipping] and
    [cancellation.refundStatus]; the shipping address has no
    [sameAsShipping] path; the tracking is empty and the timeline has no
    entry yet. *)
Definition new_Order (id : ObjectId) (number : string) (uid : ObjectId)
    (its : list OrderItem) (shipping billing : Address) (payment : PaymentInfo)
    (prices : Pricing) (c : option Coupon) (s : OrderStatus) : Order :=
  mkOrder id number uid its
    (mkAddress (firstName shipping) (lastName shipping) (addressLine1 shipping)
       (addressLine2 shipping) (city shipping) (state shipping) (pincode shipping)
       (Some (default "India" (country shipping))) (phone shipping) None)
    (mkAddress (firstName billing) (lastName billing) (addressLine1 billing)
       (addressLine2 billing) (city billing) (state billing) (pincode billing)
       (country billing) (phone billing)
       (Some (default true (sameAsShipping billing))))
    payment prices c s (mkTracking None None None)
    (mkCancellation None None refund_pending None) [].

(** The prefix [SS${year}${month}${day}] of the pre-save hook;
    [month e] is [getMonth ()], counted from 0. *)
Definition day_prefix (e : Env) : string :=
  "SS" +:+ slice_last 2 (toString 10 (fullYear e))
       +:+ padStart0 2 (toString 10 (month e + 1))
       +:+ padStart0 2 (toString 10 (date e)).

(** [findOne ({ orderNumber: /^prefix/ }).sort ({ orderNumber: -1 })]:
    the stored order with the greatest number among those that start
    with the prefix. *)
Definition later_number (best : option Order) (o : Order) : option Order :=
  match best with
  | None => Some o
  | Some b => if String.ltb (orderNumber b) (orderNumber o) then Some o else Some b
  end.

Definition day_step (pfx : string) (best : option Order) (o : Order)
    : option Order :=
  if String.prefix pfx (orderNumber o) then later_number best o else best.

Definition findLastOfDay (pfx : string) (db : list Order) : option Order :=
  foldl (day_step pfx) None db.

(** [sequence.toString ().padStart (4, '0')], where [sequence] is [NaN]
    when [parseInt] found no digit. *)
Definition sequence_string (sequence : option N) : string :=
  padStart0 4 (match sequence with
               | Some n => toString 10 n
               | None => "NaN"
               end).

Definition next_sequence (lastOrder : option Order) : option N :=
  match lastOrder with
  | None => Some 1%N
  | Some o => (fun lastSequence => (lastSequence + 1)%N)
                <$> parseInt (slice_last 4 (orderNumber o))
  end.

(** First half of the hook: lines 188-206. *)
Definition generate_number (e : Env) (db : list Order) (o : Order) : Order :=
  if truthy (orderNumber o) then o
  else
    let pfx := day_prefix e in
    set_orderNumber
      (pfx +:+ sequence_string (next_sequence (findLastOfDay pfx db))) o.

(** [this.isModified ('status')] for a document loaded as [stored]
    ([None]: a new document, whose constructor set the status). *)
Definition isModified_status (stored : option Order) (o : Order) : bool :=
  match stored with
  | None => true
  | Some s => bool_decide (status s ≠ status o)
  end.

(** Second half of the hook: lines 208-215. *)
Definition push_timeline (e : Env) (stored : option Order) (o : Order) : Order :=
  if isModified_status stored o then
    set_timeline
      (timeline o ++
         [mkTimelineEntry (status o) ("Order " +:+ status_string (status o)) (now e)])
      o
  else o.

Definition pre_save (e : Env) (db : list Order) (stored : option Order)
    (o : Order) : Order :=
  push_timeline e stored (generate_number e db o).

(** The unique indexes on [_id] and [orderNumber]. *)
Definition duplicate_key (o : Order) (db : list Order) : bool :=
  existsb (fun x => negb (_id x =? _id o)%N
                    && String.eqb (orderNumber x) (orderNumber o)) db.

Definition replace_order (o : Order) (db : list Order) : list Order :=
  map (fun x => if (_id x =? _id o)%N then o else x) db.

(** [order.save ()]: the hook runs, then the document is inserted (new)
    or written back over the stored one; [None] is a rejected write
    (duplicate key), which the handlers see as a thrown error. The
    schema's validators are left out: the handlers build documents that
    pass them. *)
Definition save (e : Env) (stored : option Order) (o : Order)
    (db : list Order) : option (Order * list Order) :=
  let o' := pre_save e db stored o in
  if duplicate_key o' db then None
  else
    match stored with
    | None =>
        if existsb (fun x => (_id x =? _id o')%N) db then None
        else Some (o', db ++ [o'])
    | Some _ => Some (o', replace_order o' db)
    end.

Definition findById (id : ObjectId) (db : list Order) : option Order :=
  List.find (fun o => (_id o =? id)%N) db.

End OrderModel.

(** ** Responses *)

(** One constructor per [res.status (..).json (..)] of the handlers, named
    after its message. *)
Inductive response :=
| ValidationFailed                                   (* 400 'Validation failed' *)
| NotAuthenticated                                   (* 401 'User not authenticated' *)
| ProductsUnavailable                                (* 400 'Some products are not available' *)
| ProductNotFound                                    (* 400 'Product not found' *)
| InsufficientStock (product_name : string) (available : Z)
                                                     (* 400 'Insufficient stock for ..' *)
| OrderCreated (data : Order)                        (* 201 'Order created successfully' *)
| OrderNotFound                                      (* 404 'Order not found' *)
| NotAuthorized                                      (* 403 'Not authorized ..' *)
| CannotCancel                                       (* 400 'Order cannot be cancelled at this stage' *)
| OrderCancelled (data : Order)                      (* 200 'Order cancelled successfully' *)
| StatusUpdated (data : Order)                       (* 200 'Order status updated successfully' *)
| PaymentVerificationFailed                          (* 400 'Payment verification failed' *)
| PaymentVerified (data : Order)                     (* 200 'Payment verified successfully' *)
| WebhookSignatureFailed                             (* 400 'Webhook signature verification failed' *)
| WebhookOk                                          (* 200 { success: true } *)
| InvalidPaymentMethod                               (* 400 'Invalid payment method for this order' *)
| CodProcessed (data : Order)                        (* 200 'COD order processed successfully' *)
| ServerError.                                       (* 500, from the catch block *)

Definition http_status (r : response) : Z :=
  match r with
  | OrderCreated _ => 201
  | OrderCancelled _ | StatusUpdated _ | PaymentVerified _ | WebhookOk
  | CodProcessed _ => 200
  | NotAuthenticated => 401
  | NotAuthorized => 403
  | OrderNotFound => 404
  | ServerError => 500
  | _ => 400
  end.

(** The domain errors of the interface: a 4xx answer of the handler, as
    opposed to the 500 of its catch block. *)
Definition domain_error (r : response) : bool :=
  (400 <=? http_status r) && (http_status r <? 500).

(** ** The order routes: [server/routes/orders.js] *)

Module Orders.
Import Js OrderModel.

Record Item := mkItem {
  product : ObjectId;
  req_quantity : Z;
  req_size : option string
}.

Record Body := mkBody {
  body_items : list Item;
  body_shippingAddress : Address;
  body_billingAddress : option Address;
  body_paymentInfo : PaymentInfo;
  body_coupon : option Coupon
}.

(** [generateOrderNumber], lines 11-15. *)
Definition generateOrderNumber (e : Env) : string :=
  toUpperCase ("ORD-" +:+ toString 36 (now e) +:+ "-" +:+ random e).

Definition notEmpty (s : string) : bool := negb (String.eqb s "").

(** [matches (/^\d{n}$/)]. *)
Definition digits_exactly (n : nat) (s : string) : bool :=
  (String.length s =? n)%nat && forallb is_digit (String.list_ascii_of_string s).

(** The validation chain of [POST /]; ids and the payment method are
    typed, so their checks hold by construction. *)
Definition validate_create (b : Body) : bool :=
  (1 <=? length (body_items b))%nat
  && forallb (fun it => 1 <=? req_quantity it) (body_items b)
  && notEmpty (firstName (body_shippingAddress b))
  && notEmpty (lastName (body_shippingAddress b))
  && notEmpty (addressLine1 (body_shippingAddress b))
  && notEmpty (city (body_shippingAddress b))
  && notEmpty (state (body_shippingAddress b))
  && digits_exactly 6 (pincode (body_shippingAddress b))
  && digits_exactly 10 (phone (body_shippingAddress b)).

(** [Product.find ({ _id: { $in: productIds }, isActive: true })]. *)
Definition findActive (productIds : list ObjectId) (db : gmap N Product)
    : gmap N Product :=
  filter (fun kp : N * Product => kp.1 ∈ productIds ∧ isActive kp.2 = true) db.

(** The loop of lines 78-111. [found] holds the documents returned by
    [findActive], which the loop mutates in place; [db] is the products
    collection, written by each [product.save ()]. A [return] inside the
    loop leaves with the collection as written so far. *)
Fixpoint order_loop (its : list Item) (found db : gmap N Product)
    (orderItems : list OrderItem) (subtotal : Z)
    : (response + list OrderItem * Z) * gmap N Product :=
  match its with
  | [] => (inr (orderItems, subtotal), db)
  | item :: rest =>
      match found !! product item with
      | None => (inl ProductNotFound, db)
      | Some p =>
          if stock p <? req_quantity item then
            (inl (InsufficientStock (name p) (stock p)), db)
          else
            let itemTotal := price p * req_quantity item in
            let pushed :=
              orderItems ++
                [mkOrderItem (product item) (name p) (price p) (req_quantity item)
                   (req_size item) (default "" (head (images p))) (sku p)] in
            let p' := set_stock (stock p - req_quantity item) p in
            order_loop rest (<[product item := p']> found)
              (<[product item := p']> db) pushed (subtotal + itemTotal)
      end
  end.

(** Lines 119-125. The product of a percentage coupon is finite for the
    amounts of the model (below 2^53), so that the [default] is not taken. *)
Definition coupon_discount_of (subtotal : Z) (coupon : option Coupon) : Z :=
  match coupon with
  | Some c =>
      if truthy (default "" (code c)) then
        match coupon_type c with
        | Some percentage =>
            default 0 (Binary64.round_product subtotal (coupon_discount c) 100)
        | Some fixed => coupon_discount c
        | None => 0
        end
      else 0
  | None => 0
  end.

(** Lines 113-127. *)
Definition price_order (subtotal : Z) (coupon : option Coupon) : Pricing :=
  let tax := Math_round (subtotal * 18) 100 in
  let shippingCost := if 1000 <? subtotal then 0 else 100 in
  let discount := coupon_discount_of subtotal coupon in
  mkPricing subtotal tax shippingCost discount
    (subtotal + tax + shippingCost - discount).

(** Lines 130-141. *)
Definition finalBillingAddress (b : Body) : Address :=
  match body_billingAddress b with
  | Some a => a
  | None =>
      let s := body_shippingAddress b in
      mkAddress (firstName s) (lastName s) (addressLine1 s)
        (Some (or_else (addressLine2 s) "")) (city s) (state s) (pincode s)
        (Some (or_else (country s) "India")) (phone s) (Some true)
  end.

Definition with_products (db : gmap N Product) (st : Store) : Store :=
  mkStore db (users st) (orders st).

(** [POST /api/orders]. [req_user] is [req.user._id] as left by the
    authentication middleware. *)
Definition createOrder (e : Env) (req_user : option ObjectId) (b : Body)
    (st : Store) : response * Store :=
  if negb (validate_create b) then (ValidationFailed, st)
  else
    match req_user with
    | None => (NotAuthenticated, st)
    | Some uid =>
        let productIds := map product (body_items b) in
        let found := findActive productIds (products st) in
        if negb (size found =? length productIds)%nat then (ProductsUnavailable, st)
        else
          match order_loop (body_items b) found (products st) [] 0 with
          | (inl resp, db) => (resp, with_products db st)
          | (inr (orderItems, subtotal), db) =>
              let order :=
                new_Order (new_id e) (generateOrderNumber e) uid orderItems
                  (body_shippingAddress b) (finalBillingAddress b)
                  (body_paymentInfo b) (price_order subtotal (body_coupon b))
                  (body_coupon b)
                  (if decide (method (body_paymentInfo b) = cod)
                   then confirmed else pending) in
              match save e None order (orders st) with
              | None => (ServerError, with_products db st)
              | Some (savedOrder, odb) =>
                  match users st !! uid with
                  | None => (ServerError, mkStore db (users st) odb)
                  | Some u =>
                      (OrderCreated savedOrder,
                       mkStore db (<[uid := set_cart [] u]> (users st)) odb)
                  end
              end
          end
    end.

Definition cancellable (s : OrderStatus) : bool :=
  match s with
  | pending | confirmed | processing => true
  | _ => false
  end.

(** [Product.findByIdAndUpdate (id, { $inc: { stock: n } })]: nothing
    happens when no product has the id. *)
Definition incStock (id : ObjectId) (n : Z) (db : gmap N Product)
    : gmap N Product :=
  alter (fun p => set_stock (stock p + n) p) id db.

(** The loop of lines 356-361. *)
Definition restore_stock (its : list OrderItem) (db : gmap N Product)
    : gmap N Product :=
  foldl (fun db item => incStock (item_product item) (quantity item) db) db its.

(** [PUT /api/orders/:id/cancel]. *)
Definition cancelOrder (e : Env) (req_user : ObjectId) (id : ObjectId)
    (body_reason : option string) (st : Store) : response * Store :=
  if negb (from_option notEmpty true body_reason) then (ValidationFailed, st)
  else
    match findById id (orders st) with
    | None => (OrderNotFound, st)
    | Some order =>
        if negb (user order =? req_user)%N then (NotAuthorized, st)
        else if negb (cancellable (status order)) then (CannotCancel, st)
        else
          let completed := bool_decide (pay_status (paymentInfo order) = pay_completed) in
          let cancelled_order :=
            set_cancellation
              (mkCancellation
                 (Some (or_else body_reason "Cancelled by customer"))
                 (Some (now e))
                 (if completed then refund_pending else refund_processed)
                 (Some (if completed then total (pricing order) else 0)))
              (set_status cancelled order) in
          match save e (Some order) cancelled_order (orders st) with
          | None => (ServerError, st)
          | Some (saved, odb) =>
              (OrderCancelled saved,
               mkStore (restore_stock (items saved) (products st)) (users st) odb)
          end
    end.

(** [PUT /api/orders/:id/status], behind the admin middleware. *)
Definition updateOrderStatus (e : Env) (id : ObjectId) (new_status : OrderStatus)
    (body_trackingNumber body_courier body_estimatedDelivery : option string)
    (st : Store) : response * Store :=
  if negb (from_option notEmpty true body_trackingNumber
           && from_option notEmpty true body_courier)
  then (ValidationFailed, st)
  else
    match findById id (orders st) with
    | None => (OrderNotFound, st)
    | Some order =>
        let t := tracking order in
        let t' :=
          mkTracking
            (if from_option truthy false body_trackingNumber
             then body_trackingNumber else trackingNumber t)
            (if from_option truthy false body_courier
             then body_courier else courier t)
            (if from_option truthy false body_estimatedDelivery
             then body_estimatedDelivery else estimatedDelivery t) in
        match save e (Some order) (set_tracking t' (set_status new_status order))
                (orders st) with
        | None => (ServerError, st)
        | Some (saved, odb) =>
            (StatusUpdated saved, mkStore (products st) (users st) odb)
        end
    end.

End Orders.

(** ** The payment routes, mounted at [/api/payment] *)

Module Payment.
Import Js OrderModel.

(** [process.env]: a variable may be unset. *)
Record ProcessEnv := mkProcessEnv {
  RAZORPAY_KEY_SECRET : option string;
  RAZORPAY_WEBHOOK_SECRET : option string
}.

Record VerifyBody := mkVerifyBody {
  razorpay_order_id : string;
  razorpay_payment_id : string;
  razorpay_signature : string;
  verify_orderId : ObjectId
}.

(** [req.body.payload.payment.entity] of a webhook delivery. *)
Record PaymentEntity := mkPaymentEntity {
  entity_id : string;
  order_id : string;
  error_description : option string
}.

Record WebhookBody := mkWebhookBody {
  event : string;
  entity : PaymentEntity
}.

Definition set_pay_status (s : PaymentStatus) (p : PaymentInfo) : PaymentInfo :=
  mkPaymentInfo (method p) (transactionId p) (paymentId p) (orderId p)
    (signature p) s (paidAt p) (failureReason p).

Definition set_failureReason (r : option string) (p : PaymentInfo) : PaymentInfo :=
  mkPaymentInfo (method p) (transactionId p) (paymentId p) (orderId p)
    (signature p) (pay_status p) (paidAt p) r.

Definition with_orders (odb : list Order) (st : Store) : Store :=
  mkStore (products st) (users st) odb.

Section Handlers.

(** [crypto.createHmac ('sha256', key).update (data).digest ('hex')] and
    [JSON.stringify] belong to the runtime; the handlers are
    parametric in them and in the process environment. *)
Context (hmac_sha256_hex : string -> string -> string)
        (JSON_stringify : WebhookBody -> string)
        (process_env : ProcessEnv).

(** [POST /razorpay/verify]. *)
Definition verifyPayment (e : Env) (req_user : ObjectId) (b : VerifyBody)
    (st : Store) : response * Store :=
  if negb (Orders.notEmpty (razorpay_order_id b)
           && Orders.notEmpty (razorpay_payment_id b)
           && Orders.notEmpty (razorpay_signature b))
  then (ValidationFailed, st)
  else
    match RAZORPAY_KEY_SECRET process_env with
    | None => (ServerError, st)
    | Some key =>
        let generated_signature :=
          hmac_sha256_hex key
            (razorpay_order_id b +:+ "|" +:+ razorpay_payment_id b) in
        if negb (String.eqb generated_signature (razorpay_signature b))
        then (PaymentVerificationFailed, st)
        else
          match findById (verify_orderId b) (orders st) with
          | None => (OrderNotFound, st)
          | Some order =>
              if negb (user order =? req_user)%N then (NotAuthorized, st)
              else
                let p := paymentInfo order in
                let paid :=
                  mkPaymentInfo (method p) (transactionId p)
                    (Some (razorpay_payment_id b))
                    (Some (razorpay_order_id b)) (Some (razorpay_signature b))
                    pay_completed (Some (now e)) (failureReason p) in
                match save e (Some order)
                        (set_status confirmed (set_paymentInfo paid order))
                        (orders st) with
                | None => (ServerError, st)
                | Some (saved, odb) => (PaymentVerified saved, with_orders odb st)
                end
          end
    end.

(** The guard of lines 769-780: the signature is compared only when
    the webhook secret is set and not empty. *)
Definition webhook_rejected (webhookSignature : option string)
    (body : WebhookBody) : bool :=
  match RAZORPAY_WEBHOOK_SECRET process_env with
  | Some webhookSecret =>
      truthy webhookSecret
      && negb (bool_decide
                 (Some (hmac_sha256_hex webhookSecret (JSON_stringify body))
                  = webhookSignature))
  | None => false
  end.

(** [Order.findOne ({ 'paymentInfo.orderId': id })]. *)
Definition findByPaymentOrderId (id : string) (db : list Order) : option Order :=
  List.find (fun o => bool_decide (orderId (paymentInfo o) = Some id)) db.

(** [POST /razorpay/webhook]. *)
Definition handlePaymentWebhook (e : Env) (webhookSignature : option string)
    (body : WebhookBody) (st : Store) : response * Store :=
  if webhook_rejected webhookSignature body then (WebhookSignatureFailed, st)
  else if String.eqb (event body) "payment.failed" then
    match findByPaymentOrderId (order_id (entity body)) (orders st) with
    | Some failedOrder =>
        let failed :=
          set_failureReason (error_description (entity body))
            (set_pay_status pay_failed (paymentInfo failedOrder)) in
        match save e (Some failedOrder) (set_paymentInfo failed failedOrder)
                (orders st) with
        | None => (ServerError, st)
        | Some (_, odb) => (WebhookOk, with_orders odb st)
        end
    | None => (WebhookOk, st)
    end
  else (WebhookOk, st).

(** [POST /cod/process]. *)
Definition processCod (e : Env) (req_user : ObjectId) (id : ObjectId)
    (st : Store) : response * Store :=
  match findById id (orders st) with
  | None => (OrderNotFound, st)
  | Some order =>
      if negb (user order =? req_user)%N then (NotAuthorized, st)
      else if negb (bool_decide (method (paymentInfo order) = cod))
      then (InvalidPaymentMethod, st)
      else
        match save e (Some order)
                (set_paymentInfo (set_pay_status pay_pending (paymentInfo order))
                   (set_status confirmed order))
                (orders st) with
        | None => (ServerError, st)
        | Some (saved, odb) => (CodProcessed saved, with_orders odb st)
        end
  end.

End Handlers.

End Payment.

(** ** The handlers as one step function *)

Module Api.
Import Orders Payment.

Inductive request :=
| CreateOrder (req_user : option ObjectId) (b : Body)
| CancelOrder (req_user id : ObjectId) (body_reason : option string)
| UpdateOrderStatus (id : ObjectId) (new_status : OrderStatus)
    (body_trackingNumber body_courier body_estimatedDelivery : option string)
| VerifyPayment (req_user : ObjectId) (b : VerifyBody)
| PaymentWebhook (webhookSignature : option string) (body : WebhookBody)
| ProcessCod (req_user id : ObjectId).

Section Dispatch.
Context (hmac_sha256_hex : string -> string -> string)
        (JSON_stringify : WebhookBody -> string)
        (process_env : ProcessEnv).

(** One request, served at the moment described by [e]. *)
Definition handle (e : Env) (r : request) (st : Store) : response * Store :=
  match r with
  | CreateOrder req_user b => createOrder e req_user b st
  | CancelOrder req_user id body_reason => cancelOrder e req_user id body_reason st
  | UpdateOrderStatus id s tn c ed => updateOrderStatus e id s tn c ed st
  | VerifyPayment req_user b =>
      verifyPayment hmac_sha256_hex process_env e req_user b st
  | PaymentWebhook sig body =>
      handlePaymentWebhook hmac_sha256_hex JSON_stringify process_env e sig body st
  | ProcessCod req_user id => processCod e req_user id st
  end.

End Dispatch.

End Api.

(** ** Vocabulary of the specification *)

Module Spec.

(** The (unitPrice, quantity) pairs of an order, in line order. *)
Definition lines_of (its : list OrderItem) : list (Z * Z) :=
  map (fun it => (item_price it, quantity it)) its.

(** Sum of unitPrice * quantity over the lines. *)
Definition lines_total (ls : list (Z * Z)) : Z :=
  foldr (fun l acc => l.1 * l.2 + acc) 0 ls.

(** [t] is [num / den] rounded to the nearest integer, a tie going up. *)
Definition rounds_to (num den t : Z) : Prop :=
  2 * den * t - den <= 2 * num < 2 * den * t + den.


(** A coupon counts when it carries a code that is not empty. *)
Definition has_code (c : Coupon) : Prop :=
  exists s, code c = Some s /\ s <> "".

Global Instance has_code_dec c : Decision (has_code c).
Proof.
  unfold has_code. destruct (code c) as [s|].
  - destruct (decide (s = "")) as [->|Hne].
    + right. intros (s & [= <-] & Hs). by apply Hs.
    + left. by exists s.
  - right. by intros (s & [=] & _).
Defined.



(** The quantity an order holds of one product, over all its lines. *)
Definition ordered_quantity (pid : ObjectId) (its : list OrderItem) : Z :=
  foldr (fun it acc =>
           (if decide (item_product it = pid) then quantity it else 0) + acc)
        0 its.

(** The status changed in a save: the document is new, or its status
    differs from the stored one. *)
Definition status_changed (stored : option Order) (o : Order) : Prop :=
  match stored with
  | None => True
  | Some s => status s <> status o
  end.

(** The timeline entry of a status, written at [e]. *)
Definition entry_for (e : Env) (s : OrderStatus) : TimelineEntry :=
  mkTimelineEntry s ("Order " +:+ status_string s) (now e).

(** The unique indexes of the orders collection, and its required
    order number. *)
Definition indexes_hold (db : list Order) : Prop :=
  NoDup (map _id db)
  /\ NoDup (map orderNumber db)
  /\ Forall (fun o => orderNumber o <> "") db.

(** What a request may have written into a stored order [stored] to
    obtain the document [o1] that it saves. *)
Definition update_of (req : Api.request) (stored o1 : Order) : Prop :=
  match req with
  | Api.CreateOrder _ _ => False
  | Api.CancelOrder _ _ _ =>
      paymentInfo o1 = paymentInfo stored /\ status o1 = cancelled
  | Api.UpdateOrderStatus _ s _ _ _ =>
      paymentInfo o1 = paymentInfo stored /\ status o1 = s
  | Api.VerifyPayment _ _ =>
      pay_status (paymentInfo o1) = pay_completed /\ status o1 = confirmed
  | Api.PaymentWebhook _ body =>
      Payment.event body = "payment.failed"
      /\ orderId (paymentInfo stored)
         = Some (Payment.order_id (Payment.entity body))
      /\ pay_status (paymentInfo o1) = pay_failed
      /\ failureReason (paymentInfo o1)
         = Payment.error_description (Payment.entity body)
      /\ status o1 = status stored
  | Api.ProcessCod _ _ =>
      method (paymentInfo stored) = cod
      /\ pay_status (paymentInfo o1) = pay_pending
      /\ status o1 = confirmed
  end.

(** The payment status of the stored order [id], if there is one. *)
Definition payment_status_of (id : ObjectId) (st : Store) : option PaymentStatus :=
  (fun o => pay_status (paymentInfo o)) <$> OrderModel.findById id (orders st).

(** The webhook secret is not configured: unset, or set to nothing. *)
Definition no_secret (env : Payment.ProcessEnv) : Prop :=
  Payment.RAZORPAY_WEBHOOK_SECRET env = None
  \/ Payment.RAZORPAY_WEBHOOK_SECRET env = Some "".

(** The dated form of section 4.3, whatever the prefix: the string ends
    in ten digits, YYMMDD and a four-digit sequence. *)
Definition dated_form (s : string) : bool :=
  (10 <=? String.length s)%nat
  && forallb Js.is_digit (String.list_ascii_of_string (Js.slice_last 10 s)).

(** A sequence number survives being padded to four digits and parsed
    back. *)
Definition sequence_roundtrips (k : N) : bool :=
  let s := Js.padStart0 4 (Js.toString 10 k) in
  (String.length s =? 4)%nat
  && bool_decide (Js.parseInt s = Some k).

(** [t] is an integer nearest to [num / den]. *)
Definition nearest_to (num den t : Z) : Prop :=
  2 * den * t - den <= 2 * num <= 2 * den * t + den.

(** [P] holds of [fuel] numbers in a row, from [k] on. *)
Fixpoint holds_from (fuel : nat) (k : N) (P : N -> bool) : bool :=
  match fuel with
  | O => true
  | S fuel' => P k && holds_from fuel' (N.succ k) P
  end.

(** Double precision rounds [s * c] as the exact [s * num / den] rounds. *)
Definition rounds_exactly_at (c : spec_float) (num den : Z) (s : N) : bool :=
  match Binary64.Math_round (Binary64.mul (Binary64.of_Z (Z.of_N s)) c) with
  | Some t => t =? Js.Math_round (Z.of_N s * num) den
  | None => false
  end.

(** Double precision rounds [s * c] to an integer nearest to the exact
    [s * num / den]. *)
Definition rounds_nearest_at (c : spec_float) (num den : Z) (s : N) : bool :=
  match Binary64.Math_round (Binary64.mul (Binary64.of_Z (Z.of_N s)) c) with
  | Some t =>
      (2 * den * t - den <=? 2 * (Z.of_N s * num))
      && (2 * (Z.of_N s * num) <=? 2 * den * t + den)
  | None => false
  end.

(** [P] holds of every number below [n]. *)
Definition holds_below (n : N) (P : N -> bool) : bool :=
  holds_from (N.to_nat n) 0 P.

(** The quantity a request asks of one product, over a run of its items. *)
Definition requested_quantity (pid : ObjectId) (its : list Orders.Item) : Z :=
  foldr (fun it acc =>
           (if decide (Orders.product it = pid) then Orders.req_quantity it else 0)
           + acc)
        0 its.

(** The upper-cased base-36 digit of [a] comes before that of every
    greater [b] below 36. *)
Definition digit_before (a : N) : bool :=
  holds_below 36
    (fun b =>
       implb (a <? b)%N
         (match Ascii.compare (Js.upper_char (Js.digit_char a))
                  (Js.upper_char (Js.digit_char b)) with
          | Lt => true
          | _ => false
          end)).

(** An order line is a snapshot of an active product of the catalog: its
    id, and its name and price as they are there. *)
Definition snapshot_of (catalog : gmap N Product) (line : OrderItem) : Prop :=
  exists p,
    catalog !! item_product line = Some p
    /\ isActive p = true
    /\ item_name line = name p
    /\ item_price line = price p.

(** What a response reports as created. *)
Definition created (r : response) : option Order :=
  match r with
  | OrderCreated o => Some o
  | _ => None
  end.

End Spec.

(** ** A small shop, for the worked examples *)

Module Shop.
Import Orders Payment.

Definition address : Address :=
  mkAddress "Asha" "Rao" "12 MG Road" None "Pune" "Maharashtra" "411001" None
    "9876543210" None.

Definition silk : Product := mkProduct "Silk saree" 500 5 true "SS-SILK" [].
Definition cotton : Product := mkProduct "Cotton saree" 1000 2 true "SS-COTTON" [].
Definition retired : Product := mkProduct "Retired saree" 300 9 false "SS-OLD" [].

Definition catalog : gmap N Product :=
  <[1%N := silk]> (<[2%N := cotton]> (<[3%N := retired]> ∅)).

Definition asha : User := mkUser "asha@example.com" [mkCartItem 1%N 1 None].

Definition store : Store := mkStore catalog (<[10%N := asha]> ∅) [].

(** 2 November 2025. *)
Definition env : Env := mkEnv 1762041600000%N 2025%N 10%N 2%N "k3x9q" 100%N.
Definition later : Env := mkEnv 1762041660000%N 2025%N 10%N 2%N "p07zd" 101%N.

Definition online : PaymentInfo :=
  mkPaymentInfo razorpay None None None None pay_pending None None.

Definition body_of (its : list Item) (c : option Coupon) : Body :=
  mkBody its address None online c.

(** One silk saree, no coupon. *)
Definition one_silk : Body := body_of [mkItem 1%N 1 None] None.

(** One silk saree, then three cotton sarees of which two are in stock. *)
Definition silk_then_cotton : Body :=
  body_of [mkItem 1%N 1 None; mkItem 2%N 3 None] None.



(** The shop after Asha's order of one silk saree (order 100), and after
    that order has been shipped. *)
Definition placed : Store := (createOrder env (Some 10%N) one_silk store).2.

Definition dispatched : Store :=
  (updateOrderStatus later 100%N shipped (Some "TRK1") None None placed).2.

(** An order document that has no number yet, and the seventh dated
    order of 2 November 2025. *)
Definition unnumbered : Order :=
  OrderModel.new_Order 102%N "" 10%N [] address address online
    (mkPricing 0 0 0 0 0) None pending.

Definition seventh : Order :=
  OrderModel.new_Order 7%N "SS2511020007" 10%N [] address address online
    (mkPricing 0 0 0 0 0) None pending.

(** Stand-ins for the runtime's HMAC and JSON printer: the handlers use
    them as black boxes, so any two functions serve for an example. *)
Definition hmac (key data : string) : string := key +:+ "#" +:+ data.

Definition json (body : WebhookBody) : string :=
  event body +:+ ":" +:+ order_id (entity body).

Definition secrets : ProcessEnv := mkProcessEnv (Some "key") (Some "hook").
Definition no_webhook_secret : ProcessEnv := mkProcessEnv (Some "key") None.

(** The gateway's confirmation of Asha's payment, with its signature. *)
Definition confirmation : VerifyBody :=
  mkVerifyBody "order_1" "pay_1" (hmac "key" "order_1|pay_1") 100%N.

Definition tampered : VerifyBody :=
  mkVerifyBody "order_1" "pay_1" "0000" 100%N.

Definition paid : Store :=
  (verifyPayment hmac secrets later 10%N confirmation placed).2.

(** A [payment.failed] event for the same gateway order. *)
Definition failure : WebhookBody :=
  mkWebhookBody "payment.failed"
    (mkPaymentEntity "pay_1" "order_1" (Some "Card declined")).

End Shop.

(** ** The order routes that read: [GET /api/orders], [GET /api/orders/:id] *)

Module OrderQueries.
Import Js OrderModel.

Inductive Role := customer | admin.

Global Instance Role_eq_dec : EqDecision Role.
Proof. solve_decision. Defined.

(** A query parameter that the route hands to [isInt] and [parseInt]:
    not sent, a decimal numeral (given by its value), or anything else. *)
Inductive QueryInt := Absent | Numeral (n : Z) | NotNumeral.

(** [query (..).optional ().isInt ({ min, max })]. *)
Definition optional_isInt (min : Z) (max : option Z) (q : QueryInt) : bool :=
  match q with
  | Absent => true
  | Numeral n => (min <=? n) && from_option (fun m => n <=? m) true max
  | NotNumeral => false
  end.

(** [parseInt (q) || d]: [d] when the parameter is missing ([NaN]) or 0.
    A parameter that is no numeral does not get here: [isInt] refuses it. *)
Definition parseInt_or (q : QueryInt) (d : Z) : Z :=
  match q with
  | Numeral n => if n =? 0 then d else n
  | _ => d
  end.

(** [Math.ceil (a / b)] for whole [a >= 0] and [b > 0] below 2^53, where
    the quotient of the two is not rounded across a whole number. *)
Definition Math_ceil_div (a b : Z) : Z := (a + b - 1) / b.

Record Pagination := mkPagination {
  currentPage : Z;
  totalPages : Z;
  totalOrders : Z;
  hasNextPage : bool;
  hasPrevPage : bool;
  limit : Z
}.

Inductive response :=
| ValidationFailed                                   (* 400 'Validation failed' *)
| OrderList (orders : list Order) (pagination : Pagination)
                                                     (* 200, lines 231-244 *)
| OrderFound (data : Order)                          (* 200, lines 289-292 *)
| OrderNotFound                                      (* 404 'Order not found' *)
| NotAuthorized                                      (* 403 'Not authorized to view this order' *)
| ServerError.                                       (* 500, from the catch block *)

(** The filter of lines 216-221: the orders of the user, with the given
    status when [req.query.status] is truthy. *)
Definition in_filter (req_user : ObjectId) (query_status : option string)
    (o : Order) : bool :=
  (user o =? req_user)%N
  && match query_status with
     | Some s => if truthy s then String.eqb (status_string (status o)) s else true
     | None => true
     end.

(** [Order.find (filter).sort ({ createdAt: -1 })]: [createdAt] is the time
    of the insert, so that newest first is the collection, which is in
    insertion order, read backwards. *)
Definition find_sorted (req_user : ObjectId) (query_status : option string)
    (db : list Order) : list Order :=
  List.filter (in_filter req_user query_status) (rev db).

(** [GET /api/orders]. The answer carries the orders as stored; the
    [populate] of their products adds nothing to the store. *)
Definition listOrders (req_user : ObjectId) (query_page query_limit : QueryInt)
    (query_status : option string) (st : Store) : response :=
  if negb (optional_isInt 1 None query_page
           && optional_isInt 1 (Some 50) query_limit)
  then ValidationFailed
  else
    let page := parseInt_or query_page 1 in
    let limit := parseInt_or query_limit 10 in
    let skip := (page - 1) * limit in
    let found := find_sorted req_user query_status (orders st) in
    let orders := take (Z.to_nat limit) (drop (Z.to_nat skip) found) in
    let total := Z.of_nat (length found) in
    OrderList orders
      (mkPagination page (Math_ceil_div total limit) total
         (page <? Math_ceil_div total limit) (1 <? page) limit).

(** [GET /api/orders/:id]. [populate ('user', ..)] puts the owner's
    document in [order.user], or [null] when no user has that id, and
    [order.user._id] then throws. *)
Definition getOrder (req_user : ObjectId) (req_role : Role) (id : ObjectId)
    (st : Store) : response :=
  match findById id (orders st) with
  | None => OrderNotFound
  | Some order =>
      match users st !! user order with
      | None => ServerError
      | Some _ =>
          if negb (user order =? req_user)%N
             && negb (bool_decide (req_role = admin))
          then NotAuthorized
          else OrderFound order
      end
  end.

(** What a listing shows, and how many pages it announces. *)
Definition listed (r : response) : list Order :=
  match r with
  | OrderList l _ => l
  | _ => []
  end.

Definition announced_pages (r : response) : Z :=
  match r with
  | OrderList _ p => totalPages p
  | _ => 0
  end.

(** The virtual [orderAge] of [server/models/Order.js], lines 221-226,
    for a document created at [createdAt] and read at [now] (both in
    milliseconds). *)
Definition orderAge (now createdAt : Z) : Z :=
  let diffTime := Z.abs (now - createdAt) in
  Math_ceil_div diffTime (1000 * 60 * 60 * 24).

End OrderQueries.

(** ** The cart routes: [server/routes/cart.js] *)

Module Cart.
Import Js Orders.

Record Summary := mkSummary {
  totalItems : Z;
  summary_subtotal : Z;
  summary_total : Z
}.

Inductive response :=
| UserNotFound                                       (* 404 'User not found' *)
| ValidationFailed                                   (* 400 'Validation failed' *)
| ProductNotFound                                    (* 404 'Product not found' *)
| ProductUnavailable                                 (* 400 'Product is not available' *)
| OnlyInStock (available : Z)                        (* 400 'Only .. items available in stock' *)
| ProductsUnavailable                                (* 400 'Some products are not available' *)
| CartFetched (items : list (CartItem * Product)) (summary : Summary)
| ItemAdded (data : list CartItem)                   (* 200 'Item added to cart successfully' *)
| CartCleared                                        (* 200 'Cart cleared successfully' *)
| CartSynced (data : list CartItem).                 (* 200 'Cart synced successfully' *)

(** A cart line with its populated product, when the filter of lines
    25-27 keeps it: the product exists, is active and has stock. *)
Definition populated (db : gmap N Product) (item : CartItem)
    : option (CartItem * Product) :=
  match db !! cart_product item with
  | Some p => if isActive p && (0 <? stock p) then Some (item, p) else None
  | None => None
  end.

(** [GET /api/cart]. *)
Definition getCart (req_user : ObjectId) (st : Store) : response :=
  match users st !! req_user with
  | None => UserNotFound
  | Some user =>
      let activeCartItems := omap (populated (products st)) (cart user) in
      let cartTotal :=
        foldl (fun total item => total + price item.2 * cart_quantity item.1)
          0 activeCartItems in
      let totalItems :=
        foldl (fun total item => total + cart_quantity item.1) 0 activeCartItems in
      CartFetched activeCartItems (mkSummary totalItems cartTotal cartTotal)
  end.



Definition with_cart (uid : ObjectId) (user : User) (c : list CartItem)
    (st : Store) : Store :=
  mkStore (products st) (<[uid := set_cart c user]> (users st)) (orders st).

(** The test of lines 111-113 and 368-371: the same product and the
    same size ([undefined] being a size like another). *)
Definition same_line (pid : ObjectId) (size : option string)
    (item : CartItem) : Prop :=
  cart_product item = pid /\ cart_size item = size.

Global Instance same_line_dec pid size item : Decision (same_line pid size item).
Proof. unfold same_line. apply _. Defined.


(** [DELETE /api/cart/clear]. *)
Definition clearCart (req_user : ObjectId) (st : Store) : response * Store :=
  match users st !! req_user with
  | None => (UserNotFound, st)
  | Some user => (CartCleared, with_cart req_user user [] st)
  end.

Record SyncItem := mkSyncItem {
  sync_productId : ObjectId;
  sync_quantity : Z;
  sync_size : option string
}.




(** The items of an order request that asks for the lines of a cart. *)
Definition checkout (lines : list CartItem) : list Item :=
  map (fun l => mkItem (cart_product l) (cart_quantity l) (cart_size l)) lines.

(** The number of pieces in a cart. *)
Definition pieces (c : list CartItem) : Z :=
  foldr (fun l acc => cart_quantity l + acc) 0 c.



End Cart.

(** ** What the requests keep *)

Module Ledger.

(** No stock is below 0 (the schema's [min: 0]). *)
Definition stock_nonneg (db : gmap N Product) : Prop :=
  forall pid p, db !! pid = Some p -> 0 <= stock p.

(** Every line of every order has a quantity of at least 1 (the schema's
    [min: 1]). *)
Definition lines_positive (db : list Order) : Prop :=
  Forall (fun o => Forall (fun it => 1 <= quantity it) (items o)) db.

(** What an order records of the purchase: whose it is, its number, its
    lines with their captured names and prices, its pricing, its addresses
    and its coupon. *)
Definition same_purchase (x x' : Order) : Prop :=
  _id x' = _id x
  /\ (orderNumber x <> "" -> orderNumber x' = orderNumber x)
  /\ user x' = user x
  /\ items x' = items x
  /\ pricing x' = pricing x
  /\ shippingAddress x' = shippingAddress x
  /\ billingAddress x' = billingAddress x
  /\ coupon x' = coupon x.

(** The timeline of an order ends with the order's status. *)
Definition tracks_status (o : Order) : Prop :=
  entry_status <$> last (timeline o) = Some (status o).

End Ledger.


(** ** The saved addresses of a user: the hook of [server/models/User.js]
    and the address routes (mounted at [/api/users]) *)

Module Addresses.
Import Js Orders.

Inductive AddressType := home | office | other.

(** One entry of [user.addresses]. *)
Record SavedAddress := mkSavedAddress {
  address_id : ObjectId;
  address_type : AddressType;
  address_firstName : string;
  address_lastName : string;
  address_line1 : string;
  address_line2 : option string;
  address_city : string;
  address_state : string;
  address_pincode : string;
  address_country : string;
  address_phone : option string;
  isDefault : bool
}.

Definition set_isDefault (d : bool) (a : SavedAddress) : SavedAddress :=
  mkSavedAddress (address_id a) (address_type a) (address_firstName a)
    (address_lastName a) (address_line1 a) (address_line2 a) (address_city a)
    (address_state a) (address_pincode a) (address_country a) (address_phone a) d.

(** The hook 'Ensure only one default address', lines 403-416 of the
    models: when more than one address is marked, every address but the
    last of the list is unmarked. *)
Definition ensure_one_default (addresses : list SavedAddress)
    : list SavedAddress :=
  if (0 <? length addresses)%nat then
    let defaultAddresses := List.filter isDefault addresses in
    if (1 <? length defaultAddresses)%nat then
      imap (fun index addr =>
              if (index <? length addresses - 1)%nat
              then set_isDefault false addr else addr)
        addresses
    else addresses
  else addresses.

(** The addresses of each user, as [user.save ()] stores them: the hook
    runs on every save. (The other hook of the model hashes the password
    and leaves the addresses alone.) *)
Definition save (uid : ObjectId) (addresses : list SavedAddress)
    (db : gmap N (list SavedAddress)) : gmap N (list SavedAddress) :=
  <[uid := ensure_one_default addresses]> db.

Inductive response :=
| ValidationFailed                                   (* 400 'Validation failed' *)
| UserNotFound                                       (* 404 'User not found' *)
| AddressNotFound                                    (* 404 'Address not found' *)
| AddressAdded (data : list SavedAddress)            (* 201 'Address added successfully' *)
| AddressUpdated (data : list SavedAddress)          (* 200 'Address updated successfully' *)
| AddressDeleted.                                    (* 200 'Address deleted successfully' *)




(** [user.addresses.id (addressId)]. *)
Definition find_address (id : ObjectId) (addresses : list SavedAddress)
    : option SavedAddress :=
  List.find (fun a => (address_id a =? id)%N) addresses.

(** [addresses[0].isDefault = true]. *)
Definition mark_first (addresses : list SavedAddress) : list SavedAddress :=
  match addresses with
  | a :: rest => set_isDefault true a :: rest
  | [] => []
  end.

(** [DELETE /api/users/addresses/:addressId]; [address.remove ()] pulls
    the subdocument with that id out of the array. *)
Definition deleteAddress (req_user addressId : ObjectId)
    (db : gmap N (list SavedAddress)) : response * gmap N (list SavedAddress) :=
  match db !! req_user with
  | None => (UserNotFound, db)
  | Some addresses =>
      match find_address addressId addresses with
      | None => (AddressNotFound, db)
      | Some address =>
          let wasDefault := isDefault address in
          let removed :=
            List.filter (fun a => negb (address_id a =? addressId)%N) addresses in
          let remaining :=
            if wasDefault && (0 <? length removed)%nat
            then mark_first removed else removed in
          (AddressDeleted, save req_user remaining db)
      end
  end.





(** How many addresses are marked as the default. *)
Definition defaults (addresses : list SavedAddress) : nat :=
  length (List.filter isDefault addresses).

(** An address without its mark. *)
Definition unmarked (a : SavedAddress) : SavedAddress := set_isDefault false a.

End Addresses.

(** ** The product routes: tags and reviews *)

Module Catalog.
Import Js Orders.

(** The white space that [trim] removes, among the ASCII characters:
    tab, line feed, vertical tab, form feed, carriage return and space. *)
Definition is_space (c : ascii) : bool :=
  let k := N_of_ascii c in ((9 <=? k) && (k <=? 13) || (k =? 32))%N.

Fixpoint trimStart (s : string) : string :=
  match s with
  | String c s' => if is_space c then trimStart s' else s
  | EmptyString => EmptyString
  end.

Fixpoint trimEnd (s : string) : string :=
  match s with
  | String c s' =>
      let t := trimEnd s' in
      if is_space c && String.eqb t "" then EmptyString else String c t
  | EmptyString => EmptyString
  end.

(** [s.trim ()]. *)
Definition trim (s : string) : string := trimEnd (trimStart s).

(** [s.split (sep)] for a separator of one character. *)
Fixpoint split (sep : ascii) (s : string) : list string :=
  match s with
  | EmptyString => [EmptyString]
  | String c s' =>
      if Ascii.eqb c sep then EmptyString :: split sep s'
      else
        match split sep s' with
        | piece :: pieces => String c piece :: pieces
        | [] => [String c EmptyString]
        end
  end.

(** Lines 271-273 and 397-399 of the product routes:
    [tags.split (',').map (tag => tag.trim ()).filter (tag => tag)]. *)
Definition parseTags (tags : string) : list string :=
  List.filter truthy (map trim (split "," tags)).




(** One review of a product, and the review fields of a product. *)
Record Review := mkReview {
  review_user : ObjectId;
  review_name : string;
  rating : Z;
  comment : string;
  createdAt : N
}.

Record Rated := mkRated {
  reviews : list Review;
  ratings_average : spec_float;
  ratings_count : Z
}.

(** [calculateAverageRating] of [server/models/Product.js], lines
    135-144; the quotient is the double-precision one. *)
Definition calculateAverageRating (p : Rated) : Rated :=
  if (length (reviews p) =? 0)%nat then
    mkRated (reviews p) (Binary64.of_Z 0) 0
  else
    let totalRating := foldl (fun sum review => sum + rating review) 0 (reviews p) in
    mkRated (reviews p)
      (Binary64.div (Binary64.of_Z totalRating)
         (Binary64.of_Z (Z.of_nat (length (reviews p)))))
      (Z.of_nat (length (reviews p))).

(** [product.save ()], as far as the review fields go: the pre-save
    hook of lines 147-150 recomputes the ratings. *)
Definition save (id : ObjectId) (p : Rated) (db : gmap N Rated) : gmap N Rated :=
  <[id := calculateAverageRating p]> db.

Inductive response :=
| ValidationFailed                                   (* 400 'Validation failed' *)
| ProductNotFound                                    (* 404 'Product not found' *)
| AlreadyReviewed                                    (* 400 'You have already reviewed this product' *)
| ReviewAdded.                                       (* 201 'Review added successfully' *)

(** [POST /api/products/:id/reviews]; [req_fullName] is the virtual
    [fullName] of the requester and [now] the default of [createdAt]. *)
Definition addReview (now : N) (req_user : ObjectId) (req_fullName : string)
    (id : ObjectId) (body_rating : Z) (body_comment : string)
    (db : gmap N Rated) : response * gmap N Rated :=
  if negb ((1 <=? body_rating) && (body_rating <=? 5) && notEmpty body_comment)
  then (ValidationFailed, db)
  else
    match db !! id with
    | None => (ProductNotFound, db)
    | Some product =>
        match List.find (fun review => (review_user review =? req_user)%N)
                (reviews product) with
        | Some existingReview => (AlreadyReviewed, db)
        | None =>
            let review :=
              mkReview req_user req_fullName body_rating body_comment now in
            let pushed :=
              mkRated (reviews product ++ [review]) (ratings_average product)
                (ratings_count product) in
            (ReviewAdded, save id pushed db)
        end
    end.

End Catalog.

(** ** The error middleware *)

Module Middleware.
Import Js.

(** What the middleware reads of an error: [keyValue] (by its keys) and
    [errors] (by their messages) may be missing, and [code] counts when it
    is a number. *)
Record Error := mkError {
  error_name : string;
  error_message : string;
  error_code : option Z;
  keyValue : option (list string);
  errors : option (list string);
  stack : string
}.

Record Answer := mkAnswer {
  statusCode : Z;
  answer_message : string;
  answer_stack : option string
}.

(** [field.charAt (0).toUpperCase () + field.slice (1)]. *)
Definition capitalize (field : string) : string :=
  toUpperCase (String.substring 0 1 field)
  +:+ String.substring 1 (String.length field - 1) field.

(** [new Error (message)], with the stack trace that the runtime
    records. *)
Definition new_Error (message trace : string) : Error :=
  mkError "Error" message None None None trace.

(** [notFound]: the status of the response becomes 404 and the error
    goes to the next middleware. *)
Definition notFound (originalUrl trace : string) : Z * Error :=
  (404, new_Error ("Not Found - " +:+ originalUrl) trace).

(** [errorHandler]; [None] when the handler itself throws, on an error
    with code 11000 and no key, or a validation error without [errors]. *)
Definition errorHandler (NODE_ENV : option string) (err : Error)
    (res_statusCode : Z) : option Answer :=
  let statusCode := if res_statusCode =? 200 then 500 else res_statusCode in
  let message := error_message err in
  let '(statusCode, message) :=
    if String.eqb (error_name err) "CastError"
    then (404, "Resource not found") else (statusCode, message) in
  duplicate ←
    (if bool_decide (error_code err = Some 11000) then
       match keyValue err with
       | Some (field :: _) => Some (400, capitalize field +:+ " already exists")
       | _ => None
       end
     else Some (statusCode, message));
  let '(statusCode, message) := duplicate in
  validation ←
    (if String.eqb (error_name err) "ValidationError" then
       match errors err with
       | Some messages => Some (400, String.concat ", " messages)
       | None => None
       end
     else Some (statusCode, message));
  let '(statusCode, message) := validation in
  let '(statusCode, message) :=
    if String.eqb (error_name err) "JsonWebTokenError"
    then (401, "Invalid token") else (statusCode, message) in
  let '(statusCode, message) :=
    if String.eqb (error_name err) "TokenExpiredError"
    then (401, "Token expired") else (statusCode, message) in
  Some (mkAnswer statusCode message
          (if bool_decide (NODE_ENV = Some "production") then None
           else Some (stack err))).

End Middleware.

(** ** More of the small shop *)

Module Examples.
Import Orders Payment.

(** Asha again, paying cash on delivery. *)
Definition cash : PaymentInfo :=
  mkPaymentInfo cod None None None None pay_pending None None.

Definition one_silk_cash : Body :=
  mkBody [mkItem 1%N 1 None] Shop.address None cash None.

Definition placed_cash : Store :=
  (createOrder Shop.env (Some 10%N) one_silk_cash Shop.store).2.

(** The silk saree in two sizes, in one request. *)
Definition silk_twice : Body :=
  Shop.body_of [mkItem 1%N 1 (Some "S"); mkItem 1%N 1 (Some "M")] None.


Definition greedy_cart : list Cart.SyncItem :=
  [Cart.mkSyncItem 2%N 5 None].

(** Asha's saved addresses: home, the default, and the office. *)
Definition at_home : Addresses.SavedAddress :=
  Addresses.mkSavedAddress 1%N Addresses.home "Asha" "Rao" "12 MG Road" None
    "Pune" "Maharashtra" "411001" "India" (Some "9876543210") true.

Definition at_work : Addresses.SavedAddress :=
  Addresses.mkSavedAddress 2%N Addresses.office "Asha" "Rao" "4 Park Street" None
    "Pune" "Maharashtra" "411002" "India" None false.

Definition address_book : gmap N (list Addresses.SavedAddress) :=
  <[10%N := [at_home; at_work]]> ∅.



End Examples.

(** ** Properties *)

Section JsFacts.
Import Js.


Lemma rounds_to_unique (num den t t' : Z) :
  0 < den -> Spec.rounds_to num den t -> Spec.rounds_to num den t' -> t = t'.
Proof. unfold Spec.rounds_to. intros. nia. Qed.

Lemma truthy_true (s : string) : truthy s = true <-> s <> "".
Proof.
  unfold truthy. rewrite negb_true_iff. split.
  - intros H ->. by rewrite String.eqb_refl in H.
  - intros H. by apply String.eqb_neq.
Qed.

End JsFacts.

(** *** Double precision against exact rounding *)

Section Binary64Facts.

Lemma holds_from_spec (fuel : nat) (P : N -> bool) :
  forall k0,
    Spec.holds_from fuel k0 P = true ->
    forall k, (k0 <= k < k0 + N.of_nat fuel)%N -> P k = true.
Proof.
  induction fuel as [|fuel IH]; intros k0; cbn [Spec.holds_from]; [lia|].
  rewrite andb_true_iff. intros [Hk0 Hrest] k Hk.
  destruct (decide (k = k0)) as [->|Hne]; [exact Hk0|].
  apply (IH (N.succ k0)); [exact Hrest|lia].
Qed.

(** The literal 0.18 is the double 0x3FC70A3D70A3D70A. *)
Example double_0_18 :
  Binary64.div (Binary64.of_Z 18) (Binary64.of_Z 100)
  = S754_finite false 0x170A3D70A3D70A (-55).
Proof. by vm_compute. Qed.

Lemma tax_checked :
  Spec.holds_from (N.to_nat 10001) 0
    (Spec.rounds_exactly_at
       (Binary64.div (Binary64.of_Z 18) (Binary64.of_Z 100)) 18 100) = true.
Proof. vm_cast_no_check (eq_refl true). Qed.

(** For every whole subtotal up to 10000, [Math.round (subtotal * 0.18)]
    in double precision is the exact product rounded half up. *)
Lemma tax_in_binary64 (subtotal : Z) :
  0 <= subtotal <= 10000 ->
  Binary64.round_product subtotal 18 100 = Some (Js.Math_round (subtotal * 18) 100).
Proof.
  intros Hs.
  pose proof (holds_from_spec _ _ _ tax_checked (Z.to_N subtotal)) as Hk.
  assert (0 <= Z.to_N subtotal < 0 + N.of_nat (N.to_nat 10001))%N as Hin
    by (rewrite N2Nat.id; lia).
  specialize (Hk Hin).
  unfold Spec.rounds_exactly_at in Hk. rewrite Z2N.id in Hk by lia.
  unfold Binary64.round_product.
  destruct (Binary64.Math_round _) as [t|]; [|discriminate Hk].
  apply Z.eqb_eq in Hk. rewrite Hk. reflexivity.
Qed.

Lemma percentages_checked :
  Spec.holds_from (N.to_nat 101) 0
    (fun percent =>
       Spec.holds_from (N.to_nat 101) 0
         (Spec.rounds_nearest_at
            (Binary64.div (Binary64.of_Z (Z.of_N percent)) (Binary64.of_Z 100))
            (Z.of_N percent) 100)) = true.
Proof. vm_cast_no_check (eq_refl true). Qed.

(** For every whole percentage and whole subtotal up to 100,
    the double-precision discount is an integer nearest to the exact
    percentage. *)
Lemma percentage_in_binary64 (subtotal percent : Z) :
  0 <= percent <= 100 -> 0 <= subtotal <= 100 ->
  exists d,
    Binary64.round_product subtotal percent 100 = Some d
    /\ Spec.nearest_to (subtotal * percent) 100 d.
Proof.
  intros Hp Hs.
  pose proof (holds_from_spec _ _ _ percentages_checked (Z.to_N percent)) as H.
  assert (0 <= Z.to_N percent < 0 + N.of_nat (N.to_nat 101))%N as Hin1
    by (rewrite N2Nat.id; lia).
  specialize (H Hin1). cbv beta in H.
  pose proof (holds_from_spec _ _ _ H (Z.to_N subtotal)) as Hk.
  assert (0 <= Z.to_N subtotal < 0 + N.of_nat (N.to_nat 101))%N as Hin2
    by (rewrite N2Nat.id; lia).
  specialize (Hk Hin2).
  unfold Spec.rounds_nearest_at in Hk. rewrite !Z2N.id in Hk by lia.
  unfold Binary64.round_product.
  destruct (Binary64.Math_round _) as [t|]; [|discriminate Hk].
  exists t. split; [reflexivity|]. unfold Spec.nearest_to.
  apply andb_true_iff in Hk as [H1 H2]. apply Z.leb_le in H1, H2. lia.
Qed.

(** A tie that double precision breaks downwards: 29 per cent of 50 is
    14.5; 29 / 100 is a little under 0.29 as a double, and the product
    rounds to 14. *)
Example percentage_tie :
  Binary64.round_product 50 29 100 = Some 14
  /\ Js.Math_round (50 * 29) 100 = 15.
Proof. by vm_compute. Qed.

End Binary64Facts.

(** *** The save hook leaves every field but the number and the timeline *)

Section SaveFacts.
Import Js OrderModel.

Lemma generate_number_shape (e : Env) (db : list Order) (o : Order) :
  generate_number e db o
  = set_orderNumber (orderNumber (generate_number e db o)) o.
Proof.
  unfold generate_number. destruct (truthy (orderNumber o)); by destruct o.
Qed.

Lemma pre_save_shape (e : Env) (db : list Order) (stored : option Order)
    (o : Order) :
  pre_save e db stored o
  = set_timeline
      (timeline o ++
         (if isModified_status stored o
          then [mkTimelineEntry (status o) ("Order " +:+ status_string (status o))
                  (now e)]
          else []))
      (set_orderNumber (orderNumber (generate_number e db o)) o).
Proof.
  unfold pre_save, push_timeline.
  rewrite (generate_number_shape e db o).
  set (n := orderNumber (generate_number e db o)).
  assert (isModified_status stored (set_orderNumber n o)
          = isModified_status stored o) as -> by by destruct stored.
  destruct (isModified_status stored o); destruct o; simpl;
    unfold set_timeline, set_orderNumber; simpl; by rewrite ?app_nil_r.
Qed.

(** A new document is stored only under an id and a number that no
    stored order has. *)
Lemma save_new_fresh (e : Env) (o : Order) (db : list Order) (o' : Order)
    (db' : list Order) :
  save e None o db = Some (o', db') ->
  forall x, x ∈ db -> _id x <> _id o' /\ orderNumber x <> orderNumber o'.
Proof.
  unfold save. destruct (duplicate_key _ db) eqn:Hdup; [done|].
  destruct (existsb _ db) eqn:Hex; [done|]. intros [= <- _] x Hx.
  assert (_id x <> _id (pre_save e db None o)) as Hne.
  { intros Heq. apply not_true_iff_false in Hex. apply Hex.
    apply existsb_exists. exists x. split; [by apply list_elem_of_In|].
    by apply N.eqb_eq. }
  split; [done|]. intros Heq.
  apply not_true_iff_false in Hdup. apply Hdup.
  apply existsb_exists. exists x. split; [by apply list_elem_of_In|].
  apply andb_true_iff. split.
  - by apply negb_true_iff, N.eqb_neq.
  - by apply String.eqb_eq.
Qed.

Lemma save_Some (e : Env) (stored : option Order) (o : Order)
    (db : list Order) (o' : Order) (db' : list Order) :
  save e stored o db = Some (o', db') ->
  o' = pre_save e db stored o
  /\ db' = match stored with
           | None => db ++ [o']
           | Some _ => replace_order o' db
           end.
Proof.
  unfold save. destruct (duplicate_key _ db); [done|].
  destruct stored; [by intros [= <- <-]|].
  destruct (existsb _ db); [done|]. by intros [= <- <-].
Qed.

End SaveFacts.

(** *** Pricing *)

Section PricingFacts.
Import Js OrderModel Orders.

(** The loop pushes one line per requested item, with the requested
    quantity, and accumulates the sum of their totals. *)
Lemma order_loop_lines (its : list Item) :
  forall found db ois sub ois' sub' db',
    order_loop its found db ois sub = (inr (ois', sub'), db') ->
    exists new,
      ois' = ois ++ new
      /\ sub' = sub + Spec.lines_total (Spec.lines_of new)
      /\ map item_product new = map product its
      /\ map quantity new = map req_quantity its.
Proof.
  induction its as [|it its IH]; intros found db ois sub ois' sub' db'; simpl.
  - intros [= <- <- <-]. exists nil. rewrite app_nil_r. simpl. split_and!; [done|lia|done|done].
  - destruct (found !! product it) as [p|]; [|done].
    destruct (stock p <? req_quantity it); [done|].
    intros H. apply IH in H as (new & -> & -> & Hp & Hq).
    eexists (_ :: new). rewrite <- app_assoc. simpl.
    split_and!; [done|simpl; lia|by f_equal|by f_equal].
Qed.

(** Every line the loop pushes is a snapshot of the catalog the request
    found: the loop rewrites stock only. *)
Lemma order_loop_snapshot (catalog : gmap N Product) (its : list Item) :
  forall found db ois sub ois' sub' db',
    (forall k p', found !! k = Some p' ->
                  exists p, catalog !! k = Some p /\ isActive p = true
                            /\ name p' = name p /\ price p' = price p) ->
    Forall (Spec.snapshot_of catalog) ois ->
    order_loop its found db ois sub = (inr (ois', sub'), db') ->
    Forall (Spec.snapshot_of catalog) ois'.
Proof.
  induction its as [|it its IH]; intros found db ois sub ois' sub' db' Hfound Hois;
    simpl.
  - by intros [= <- _ _].
  - destruct (found !! product it) as [p'|] eqn:Hp; [|done].
    destruct (stock p' <? req_quantity it); [done|].
    apply IH.
    + intros k q. rewrite lookup_insert. case_decide as Hk.
      * intros [= <-]. subst k. destruct (Hfound _ _ Hp) as (p & ? & ? & ? & ?).
        exists p. by destruct p'.
      * apply Hfound.
    + apply Forall_app. split; [done|]. apply Forall_singleton.
      destruct (Hfound _ _ Hp) as (p & ? & ? & ? & ?). by exists p.
Qed.


End PricingFacts.

(** *** Worked examples of order creation *)

Section CreateOrderExamples.
Import Orders Shop.

Example one_silk_created :
  pricing <$> Spec.created (createOrder env (Some 10%N) one_silk store).1
  = Some (mkPricing 500 90 100 0 690).
Proof. vm_compute. reflexivity. Qed.

Example one_silk_number :
  orderNumber <$> Spec.created (createOrder env (Some 10%N) one_silk store).1
  = Some "ORD-MHGY2O00-K3X9Q".
Proof. vm_compute. reflexivity. Qed.

End CreateOrderExamples.

(** *** Order creation: what a created order records *)

Section CreateOrderFacts.
Import Js OrderModel Orders.

(** Everything a successful [createOrder] did, in one place. *)
Lemma createOrder_created (e : Env) (req_user : option ObjectId) (b : Body)
    (st st' : Store) (o : Order) :
  createOrder e req_user b st = (OrderCreated o, st') ->
  exists uid u ois sub db,
    req_user = Some uid
    /\ validate_create b = true
    /\ order_loop (body_items b)
         (findActive (map product (body_items b)) (products st))
         (products st) [] 0 = (inr (ois, sub), db)
    /\ users st !! uid = Some u
    /\ save e None
         (new_Order (new_id e) (generateOrderNumber e) uid ois
            (body_shippingAddress b) (finalBillingAddress b)
            (body_paymentInfo b) (price_order sub (body_coupon b))
            (body_coupon b)
            (if decide (method (body_paymentInfo b) = cod)
             then confirmed else pending))
         (orders st) = Some (o, orders st ++ [o])
    /\ st' = mkStore db (<[uid := set_cart [] u]> (users st)) (orders st ++ [o]).
Proof.
  unfold createOrder.
  destruct (validate_create b); simpl; [|done].
  destruct req_user as [uid|]; [|done].
  destruct (size _ =? _)%nat; simpl; [|done].
  destruct (order_loop _ _ _ _ _) as [[resp|[ois sub]] db] eqn:Hloop.
  { intros [= -> <-]. simpl in Hloop.
    clear -Hloop. exfalso.
    revert Hloop. generalize (findActive (map product (body_items b)) (products st)).
    generalize (products st) at 1. generalize (@nil OrderItem). generalize 0.
    induction (body_items b) as [|it its IH]; intros sub0 ois0 db0 found; simpl.
    - done.
    - destruct (found !! product it) as [p|]; [|done].
      destruct (stock p <? req_quantity it); [done|]. apply IH. }
  destruct (save _ _ _ _) as [[saved odb]|] eqn:Hsave; [|done].
  destruct (users st !! uid) as [u|] eqn:Hu; [|done].
  intros [= -> <-].
  pose proof (save_Some _ _ _ _ _ _ Hsave) as [_ ->].
  by exists uid, u, ois, sub, db.
Qed.

End CreateOrderFacts.

Section PricingClaims.
Import Js OrderModel Orders.




End PricingClaims.

(** *** Rejected order creation *)

Section RejectedCreation.
Import Js OrderModel Orders.

Lemma size_list_to_set_le (l : list N) :
  (size (list_to_set l : gset N) <= length l)%nat.
Proof.
  induction l as [|x l IH]; simpl; [done|].
  rewrite size_union_alt, size_singleton.
  assert (list_to_set l ∖ {[x]} ⊆ (list_to_set l : gset N)) as Hsub
    by (intros y Hy; by apply elem_of_difference in Hy as [Hy _]).
  apply subseteq_size in Hsub. lia.
Qed.

(** The batch check of lines 61-72: when as many active products are
    found as there are requested ids, every requested id names an active
    product. *)
Lemma findActive_all (ids : list ObjectId) (db : gmap N Product) :
  size (findActive ids db) = length ids ->
  forall id, id ∈ ids ->
    exists p, findActive ids db !! id = Some p
              /\ db !! id = Some p /\ isActive p = true.
Proof.
  intros Hsize id Hid.
  assert (dom (findActive ids db) = (list_to_set ids : gset N)) as Hdom.
  { apply set_subseteq_size_eq.
    - intros i [p Hp]%elem_of_dom. unfold findActive in Hp.
      apply map_lookup_filter_Some in Hp as [_ [Hi _]].
      by apply elem_of_list_to_set.
    - rewrite size_dom, Hsize. apply size_list_to_set_le. }
  assert (id ∈ dom (findActive ids db)) as [p Hp]%elem_of_dom.
  { rewrite Hdom. by apply elem_of_list_to_set. }
  exists p. split; [done|]. unfold findActive in Hp.
  by apply map_lookup_filter_Some in Hp as [Hdb [_ Hact]].
Qed.

(** The half of C1 that holds: a request that names a missing or an
    inactive product is refused before anything is written. *)
Lemma createOrder_unavailable (e : Env) (req_user : option ObjectId) (b : Body)
    (st : Store) (it : Item) :
  it ∈ body_items b ->
  (products st !! product it = None
   \/ exists p, products st !! product it = Some p /\ isActive p = false) ->
  let r := createOrder e req_user b st in
  r.2 = st /\ Spec.created r.1 = None /\ domain_error r.1 = true.
Proof.
  intros Hin Hbad. simpl. unfold createOrder.
  destruct (validate_create b); simpl; [|done].
  destruct req_user as [uid|]; [|done].
  destruct (size _ =? _)%nat eqn:Hsize; simpl; [|done].
  exfalso. apply Nat.eqb_eq in Hsize. rewrite length_map in Hsize.
  rewrite <- (length_map product) in Hsize.
  destruct (findActive_all _ _ Hsize (product it)) as (p & _ & Hp & Hact).
  { by apply list_elem_of_fmap_2. }
  destruct Hbad as [Hnone|(p' & Hp' & Hin')]; congruence.
Qed.

Lemma NoDup_of_size (l : list N) :
  size (list_to_set l : gset N) = length l -> NoDup l.
Proof.
  induction l as [|x l IH]; simpl; [intros _; apply NoDup_nil_2|].
  intros Hsize. pose proof (size_list_to_set_le l) as Hle.
  destruct (decide (x ∈ l)) as [Hin|Hnot].
  - exfalso.
    assert ({[x]} ∪ list_to_set l = (list_to_set l : gset N)) as Heq.
    { apply set_eq. intros y. rewrite elem_of_union, elem_of_singleton,
        elem_of_list_to_set. split; [intros [->|?]; done|by right]. }
    rewrite Heq in Hsize. lia.
  - apply NoDup_cons. split; [done|]. apply IH.
    rewrite size_union, size_singleton in Hsize; [lia|].
    intros y ->%elem_of_singleton Hy%elem_of_list_to_set. done.
Qed.

(** An order that [createOrder] creates has no two lines for one product:
    the batch check refuses a request that names a product twice. *)
Lemma createOrder_lines_distinct (e : Env) (req_user : option ObjectId) (b : Body)
    (st st' : Store) (o : Order) :
  createOrder e req_user b st = (OrderCreated o, st') ->
  NoDup (map item_product (items o)).
Proof.
  intros H.
  assert (map item_product (items o) = map product (body_items b)) as ->.
  { pose proof H as Hc. apply createOrder_created in Hc
      as (uid & u & ois & sub & db & _ & _ & Hloop & _ & Hsave & _).
    apply save_Some in Hsave as [-> _]. rewrite pre_save_shape. simpl.
    by apply order_loop_lines in Hloop as (new & -> & _ & Hp & _). }
  unfold createOrder in H.
  destruct (validate_create b); simpl in H; [|done].
  destruct req_user as [uid|]; [|done].
  destruct (size _ =? _)%nat eqn:Hsize; simpl in H; [|done]. clear H.
  apply Nat.eqb_eq in Hsize.
  set (ids := map product (body_items b)) in *.
  apply NoDup_of_size.
  assert (dom (findActive ids (products st)) ⊆ (list_to_set ids : gset N)) as Hsub.
  { intros i [p Hp]%elem_of_dom. unfold findActive in Hp.
    apply map_lookup_filter_Some in Hp as [_ [Hi _]].
    by apply elem_of_list_to_set. }
  apply subseteq_size in Hsub. rewrite size_dom, Hsize in Hsub.
  pose proof (size_list_to_set_le ids). lia.
Qed.

(** The loop, when it leaves early, has written the stock of the items it
    went through: [found] being part of the collection, the collection
    after the loop is the collection before it with the quantities of the
    items up to the failing one taken off. *)
Lemma order_loop_partial (its : list Item) :
  forall found db ois sub resp db',
    found ⊆ db ->
    order_loop its found db ois sub = (inl resp, db') ->
    exists done_ failing rest,
      its = done_ ++ failing :: rest
      /\ forall pid,
           db' !! pid
           = (fun p => set_stock (stock p - Spec.requested_quantity pid done_) p)
               <$> db !! pid.
Proof.
  induction its as [|it its IH]; intros found db ois sub resp db' Hsub; simpl.
  - done.
  - destruct (found !! product it) as [p|] eqn:Hp.
    + destruct (stock p <? req_quantity it).
      * intros [= _ <-]. exists nil, it, its. split; [done|]. intros pid. simpl.
        destruct (db !! pid) as [q|]; simpl; [|done].
        f_equal. destruct q. unfold set_stock. simpl. f_equal. lia.
      * intros H. apply IH in H as (done_ & failing & rest & -> & Hdb).
        2: by apply insert_mono.
        exists (it :: done_), failing, rest. split; [done|].
        intros pid. rewrite Hdb. simpl. rewrite lookup_insert.
        pose proof (lookup_weaken _ _ _ _ Hp Hsub) as Hdbp.
        case_decide as Heq.
        -- subst pid. rewrite Hdbp. simpl. f_equal.
           destruct p. unfold set_stock. simpl. f_equal. lia.
        -- destruct (db !! pid) as [q|]; simpl; [|done]. by rewrite Z.add_0_l.
    + intros [= _ <-]. exists nil, it, its. split; [done|]. intros pid. simpl.
      destruct (db !! pid) as [q|]; simpl; [|done].
      f_equal. destruct q. unfold set_stock. simpl. f_equal. lia.
Qed.

(** What a refusal for stock leaves behind: the stock of the items in
    front of the refused one is taken off, and no order is stored. *)
Lemma createOrder_insufficient (e : Env) (req_user : option ObjectId) (b : Body)
    (st st' : Store) (product_name : string) (available : Z) :
  createOrder e req_user b st = (InsufficientStock product_name available, st') ->
  exists done_ failing rest,
    body_items b = done_ ++ failing :: rest
    /\ orders st' = orders st
    /\ users st' = users st
    /\ forall pid,
         products st' !! pid
         = (fun p => set_stock (stock p - Spec.requested_quantity pid done_) p)
             <$> products st !! pid.
Proof.
  unfold createOrder.
  destruct (validate_create b); simpl; [|done].
  destruct req_user as [uid|]; [|done].
  destruct (size _ =? _)%nat; simpl; [|done].
  destruct (order_loop _ _ _ _ _) as [[resp|[ois sub]] db] eqn:Hloop.
  - intros [= -> <-].
    apply order_loop_partial in Hloop as (done_ & failing & rest & Hits & Hdb).
    + by exists done_, failing, rest.
    + apply map_filter_subseteq.
  - destruct (save _ _ _ _) as [[saved odb]|]; [|done].
    by destruct (users st !! uid).
Qed.

(** C1, at the two-item batch of the claim: the silk saree is in stock,
    the cotton saree is not. The request is refused for the cotton saree,
    no order is stored, and the silk saree's stock has gone from 5 to 4. *)
Theorem createOrder_rejection_keeps_first_decrement :
  let r := createOrder Shop.env (Some 10%N) Shop.silk_then_cotton Shop.store in
  r.1 = InsufficientStock "Cotton saree" 2
  /\ orders r.2 = []
  /\ stock <$> products Shop.store !! 1%N = Some 5
  /\ stock <$> products r.2 !! 1%N = Some 4
  /\ stock <$> products r.2 !! 2%N = Some 2.
Proof. vm_compute. by split_and!. Qed.

End RejectedCreation.

(** *** Cancellation *)

Section Cancellation.
Import Js OrderModel Orders.

Lemma findById_id (id : ObjectId) (db : list Order) (o : Order) :
  findById id db = Some o -> _id o = id /\ o ∈ db.
Proof.
  unfold findById. intros H. apply find_some in H as [Hin Heq].
  split; [by apply N.eqb_eq|by apply list_elem_of_In].
Qed.

Lemma findById_replace (id : ObjectId) (db : list Order) (o o' : Order) :
  findById id db = Some o -> _id o' = id ->
  findById id (replace_order o' db) = Some o'.
Proof.
  unfold findById, replace_order. intros H Hid. rewrite Hid.
  induction db as [|x db IH]; simpl in *; [done|].
  destruct (_id x =? id)%N eqn:Hx; simpl.
  - by rewrite Hid, N.eqb_refl.
  - rewrite Hx. by apply IH.
Qed.

(** The loop adds to each product the quantities of the lines that
    name it, and touches nothing else. *)
Lemma restore_stock_lookup (its : list OrderItem) :
  forall (db : gmap N Product) (pid : ObjectId),
    restore_stock its db !! pid
    = (fun p => set_stock (stock p + Spec.ordered_quantity pid its) p) <$> db !! pid.
Proof.
  unfold restore_stock.
  induction its as [|it its IH]; intros db pid; simpl.
  - destruct (db !! pid) as [p|]; simpl; [|done].
    f_equal. destruct p. unfold set_stock. simpl. f_equal. lia.
  - rewrite IH. unfold incStock. rewrite lookup_alter.
    case_decide as Heq.
    + subst pid. destruct (db !! item_product it) as [p|]; simpl; [|done].
      f_equal. destruct p. unfold set_stock. simpl. f_equal. lia.
    + destruct (db !! pid) as [p|]; simpl; [|done]. by rewrite Z.add_0_l.
Qed.

Lemma ordered_quantity_absent (pid : ObjectId) (its : list OrderItem) :
  pid ∉ map item_product its -> Spec.ordered_quantity pid its = 0.
Proof.
  induction its as [|it its IH]; simpl; [done|].
  rewrite not_elem_of_cons. intros [Hne Hnot].
  case_decide; [done|]. rewrite IH; [lia|done].
Qed.

Lemma ordered_quantity_once (its : list OrderItem) (it : OrderItem) :
  NoDup (map item_product its) -> it ∈ its ->
  Spec.ordered_quantity (item_product it) its = quantity it.
Proof.
  induction its as [|x its IH]; simpl.
  - by intros _ ?%elem_of_nil.
  - rewrite NoDup_cons. intros [Hx Hnd] [->|Hin]%elem_of_cons.
    + case_decide; [|done]. rewrite ordered_quantity_absent; [lia|done].
    + case_decide as Heq.
      * exfalso. apply Hx. rewrite Heq. by apply list_elem_of_fmap_2.
      * rewrite IH; [lia|done|done].
Qed.

(** What a successful [cancelOrder] did. *)
Lemma cancelOrder_cancelled (e : Env) (req_user id : ObjectId)
    (body_reason : option string) (st st' : Store) (o' : Order) :
  cancelOrder e req_user id body_reason st = (OrderCancelled o', st') ->
  exists order,
    findById id (orders st) = Some order
    /\ from_option notEmpty true body_reason = true
    /\ user order = req_user
    /\ cancellable (status order) = true
    /\ o' = pre_save e (orders st) (Some order)
              (set_cancellation
                 (mkCancellation
                    (Some (default "Cancelled by customer" body_reason))
                    (Some (now e))
                    (if bool_decide (pay_status (paymentInfo order) = pay_completed)
                     then refund_pending else refund_processed)
                    (Some (if bool_decide (pay_status (paymentInfo order) = pay_completed)
                           then total (pricing order) else 0)))
                 (set_status cancelled order))
    /\ st' = mkStore (restore_stock (items order) (products st)) (users st)
               (replace_order o' (orders st)).
Proof.
  unfold cancelOrder.
  destruct (from_option notEmpty true body_reason) eqn:Hv; simpl; [|done].
  destruct (findById id (orders st)) as [order|] eqn:Hfind; [|done].
  destruct (user order =? req_user)%N eqn:Hu; simpl; [|done].
  destruct (cancellable (status order)) eqn:Hc; simpl; [|done].
  destruct (save _ _ _ _) as [[saved odb]|] eqn:Hsave; [|done].
  intros [= -> <-]. apply save_Some in Hsave as [Ho ->].
  exists order. split_and!; try done.
  - by apply N.eqb_eq.
  - rewrite Ho. do 4 f_equal.
    destruct body_reason as [r|]; simpl in *; [|done].
    unfold notEmpty in Hv. unfold truthy. by rewrite Hv.
  - do 2 f_equal. rewrite Ho, pre_save_shape. done.
Qed.

End Cancellation.

Section CancellationClaims.
Import Js OrderModel Orders.

(** C5. [cancelOrder] succeeds only on an order that is pending,
    confirmed or processing. On an order that is shipped, delivered,
    cancelled or returned it answers with a domain error (a 4xx answer,
    not the 500 of a crash) and leaves the whole store as it was: the
    order's status and cancellation fields and every product's stock.
    When the request is well formed and comes from the order's owner the
    error is the refusal of the transition, 'Order cannot be cancelled at
    this stage'. *)
Theorem cancelOrder_guard (e : Env) (req_user id : ObjectId)
    (body_reason : option string) (st : Store) :
  (forall o' st',
      cancelOrder e req_user id body_reason st = (OrderCancelled o', st') ->
      exists order,
        findById id (orders st) = Some order
        /\ status order ∈ [pending; confirmed; processing])
  /\ (forall order,
        findById id (orders st) = Some order ->
        status order ∈ [shipped; delivered; cancelled; returned] ->
        let r := cancelOrder e req_user id body_reason st in
        r.2 = st
        /\ domain_error r.1 = true
        /\ (from_option notEmpty true body_reason = true ->
            user order = req_user -> r.1 = CannotCancel)).
Proof.
  split.
  - intros o' st' H.
    apply cancelOrder_cancelled in H as (order & Hf & _ & _ & Hc & _).
    exists order. split; [done|].
    destruct (status order); simpl in Hc; try done;
      repeat first [apply list_elem_of_here | apply list_elem_of_further].
  - intros order Hf Hs. unfold cancelOrder. rewrite Hf.
    assert (cancellable (status order) = false) as ->.
    { apply list_elem_of_In in Hs. simpl in Hs.
      by destruct Hs as [<-|[<-|[<-|[<-|[]]]]]. }
    destruct (from_option notEmpty true body_reason); simpl; [|done].
    destruct (user order =? req_user)%N eqn:Hu; simpl.
    + done.
    + split_and!; [done|done|]. intros _ Heq. apply N.eqb_neq in Hu. done.
Qed.

(** The shipped order of the shop: its owner is refused, and nothing
    moves. *)
Lemma cancelOrder_guard_witness :
  let r := cancelOrder Shop.later 10%N 100%N None Shop.dispatched in
  r.2 = Shop.dispatched /\ domain_error r.1 = true /\ r.1 = CannotCancel.
Proof.
  destruct (cancelOrder_guard Shop.later 10%N 100%N None Shop.dispatched)
    as [_ H].
  destruct (H _ eq_refl (list_elem_of_here _ _)) as (H1 & H2 & H3).
  split_and!; [exact H1|exact H2|exact (H3 eq_refl eq_refl)].
Defined.

(** C6. A successful [cancelOrder] stores the order as cancelled, with
    the supplied reason or 'Cancelled by customer', with refund pending
    for the order's total when the payment was completed and refund
    processed for 0 otherwise; and every product's stock grows by the
    quantities of the lines that name it, so that each line's product
    gains exactly the line's quantity (the lines of an order naming
    different products). *)
Theorem cancelOrder_effects (e : Env) (req_user id : ObjectId)
    (body_reason : option string) (st st' : Store) (o' : Order) :
  cancelOrder e req_user id body_reason st = (OrderCancelled o', st') ->
  exists order,
    findById id (orders st) = Some order
    /\ findById id (orders st') = Some o'
    /\ status o' = cancelled
    /\ reason (cancellation o') = Some (default "Cancelled by customer" body_reason)
    /\ (pay_status (paymentInfo order) = pay_completed ->
        refundStatus (cancellation o') = refund_pending
        /\ refundAmount (cancellation o') = Some (total (pricing o')))
    /\ (pay_status (paymentInfo order) <> pay_completed ->
        refundStatus (cancellation o') = refund_processed
        /\ refundAmount (cancellation o') = Some 0)
    /\ items o' = items order
    /\ pricing o' = pricing order
    /\ (forall pid,
          products st' !! pid
          = (fun p => set_stock (stock p + Spec.ordered_quantity pid (items o')) p)
              <$> products st !! pid)
    /\ (NoDup (map item_product (items o')) ->
        forall it p,
          it ∈ items o' ->
          products st !! item_product it = Some p ->
          products st' !! item_product it
          = Some (set_stock (stock p + quantity it) p)).
Proof.
  intros H.
  apply cancelOrder_cancelled in H as (order & Hf & Hv & Hu & Hc & Ho & ->).
  rewrite pre_save_shape in Ho. simpl in Ho.
  exists order. subst o'. simpl.
  split_and!; try done.
  - eapply findById_replace; [done|]. simpl. by apply findById_id in Hf as [-> _].
  - intros ->. done.
  - intros Hne. rewrite bool_decide_eq_false_2; done.
  - intros pid. apply restore_stock_lookup.
  - intros Hnd it p Hin Hp. rewrite restore_stock_lookup, Hp. simpl.
    by rewrite ordered_quantity_once.
Qed.

(** Asha cancels her order of one silk saree: the saree is back in
    stock. *)
Lemma cancelOrder_effects_witness :
  exists o' st',
    cancelOrder Shop.later 10%N 100%N None Shop.placed = (OrderCancelled o', st')
    /\ status o' = cancelled
    /\ stock <$> products Shop.placed !! 1%N = Some 4
    /\ stock <$> products st' !! 1%N = Some 5.
Proof.
  eexists _, _. split; [reflexivity|].
  destruct (cancelOrder_effects Shop.later 10%N 100%N None Shop.placed _ _ eq_refl)
    as (order & _ & _ & Hs & _ & _ & _ & _ & _ & Hstock & _).
  split; [exact Hs|]. split; [reflexivity|].
  rewrite (Hstock 1%N). reflexivity.
Defined.

End CancellationClaims.

(** *** The timeline *)

Section TimelineClaims.
Import Js OrderModel.

Lemma isModified_status_changed (stored : option Order) (o : Order) :
  isModified_status stored o = true <-> Spec.status_changed stored o.
Proof.
  unfold isModified_status, Spec.status_changed.
  destruct stored as [s|]; [|done]. by rewrite bool_decide_eq_true.
Qed.

Lemma replace_order_self (o' : Order) (db : list Order) :
  (exists x, x ∈ db /\ _id x = _id o') -> o' ∈ replace_order o' db.
Proof.
  intros (x & Hin & Hid). unfold replace_order.
  apply list_elem_of_fmap. exists x. by rewrite Hid, N.eqb_refl.
Qed.

Lemma replace_order_other (o' x : Order) (db : list Order) :
  x ∈ db -> _id x <> _id o' -> x ∈ replace_order o' db.
Proof.
  intros Hin Hne. unfold replace_order. apply list_elem_of_fmap.
  exists x. split; [|done]. by apply N.eqb_neq in Hne as ->.
Qed.

(** C8. A save appends exactly one entry -- the new status, its message
    and the time of the save -- when the status changed in that save, and
    appends nothing when it did not; the entries already in the timeline
    stay as they were, in their order, in front of it. The saved document
    is the one stored, and no other order is touched. *)
Theorem save_timeline (e : Env) (stored : option Order) (o : Order)
    (db : list Order) (o' : Order) (db' : list Order) :
  save e stored o db = Some (o', db') ->
  (Spec.status_changed stored o ->
   timeline o' = timeline o ++ [Spec.entry_for e (status o')])
  /\ (~ Spec.status_changed stored o -> timeline o' = timeline o)
  /\ timeline o `prefix_of` timeline o'
  /\ status o' = status o
  /\ ((stored = None \/ exists x, x ∈ db /\ _id x = _id o) -> o' ∈ db')
  /\ (forall x, x ∈ db -> _id x <> _id o -> x ∈ db').
Proof.
  intros H. apply save_Some in H as [Ho ->].
  rewrite pre_save_shape in Ho.
  assert (_id o' = _id o) as Hid by by subst o'.
  split_and!.
  - intros Hc. apply isModified_status_changed in Hc. subst o'. simpl.
    by rewrite Hc.
  - intros Hc. rewrite <- isModified_status_changed in Hc.
    apply not_true_is_false in Hc. subst o'. simpl. by rewrite Hc, app_nil_r.
  - subst o'. simpl. by eexists.
  - by subst o'.
  - intros [->|(x & Hin & Hx)].
    + apply elem_of_app. right. apply list_elem_of_here.
    + destruct stored.
      * apply replace_order_self. exists x. by rewrite Hid.
      * apply elem_of_app. right. apply list_elem_of_here.
  - intros x Hin Hne. destruct stored.
    + apply replace_order_other; [done|]. by rewrite Hid.
    + apply elem_of_app. by left.
Qed.

(** Shipping the order of the shop adds the entry 'Order shipped' behind
    'Order pending'. *)
Lemma save_timeline_witness :
  exists stored o' db',
    findById 100%N (orders Shop.placed) = Some stored
    /\ save Shop.later (Some stored) (set_status shipped stored)
         (orders Shop.placed) = Some (o', db')
    /\ timeline stored = [Spec.entry_for Shop.env pending]
    /\ timeline o'
       = [Spec.entry_for Shop.env pending; Spec.entry_for Shop.later shipped].
Proof.
  eexists _, _, _. split; [reflexivity|].
  lazymatch goal with
  | |- ?run = Some (?o', ?db') /\ _ =>
      assert (run = Some (o', db')) as Hsave by reflexivity
  end.
  split; [exact Hsave|]. split; [reflexivity|].
  apply (proj1 (save_timeline _ _ _ _ _ _ Hsave)).
  simpl. discriminate.
Defined.

End TimelineClaims.

(** *** The cart *)

Section CartClaims.
Import Js OrderModel Orders.

(** C9. After a successful [createOrder] the cart of the user who placed
    the order is empty; and whenever the call stores an order for a user
    who is in the users collection -- whatever it answers -- that user's
    cart is empty afterwards. *)
Theorem createOrder_clears_cart (e : Env) (uid : ObjectId) (b : Body)
    (st : Store) :
  let r := createOrder e (Some uid) b st in
  (forall o, r.1 = OrderCreated o ->
             o ∈ orders r.2 /\ cart <$> users r.2 !! uid = Some [])
  /\ (is_Some (users st !! uid) ->
      orders r.2 <> orders st ->
      cart <$> users r.2 !! uid = Some []).
Proof.
  simpl. split.
  - intros o Hr.
    destruct (createOrder e (Some uid) b st) as [r st'] eqn:Hc. simpl in *.
    subst r. apply createOrder_created in Hc
      as (uid' & u & ois & sub & db & [= <-] & _ & _ & Hu & _ & ->).
    simpl. split.
    + apply elem_of_app. right. apply list_elem_of_here.
    + by rewrite lookup_insert_eq.
  - intros [u Hu]. unfold createOrder.
    destruct (validate_create b); simpl; [|done].
    destruct (size _ =? _)%nat; simpl; [|done].
    destruct (order_loop _ _ _ _ _) as [[resp|[ois sub]] db]; [done|].
    destruct (save _ _ _ _) as [[saved odb]|]; [|done].
    rewrite Hu. simpl. intros _. by rewrite lookup_insert_eq.
Qed.

(** Asha's cart held one saree before her order and is empty after it. *)
Lemma createOrder_clears_cart_witness :
  cart <$> users Shop.store !! 10%N = Some [mkCartItem 1%N 1 None]
  /\ cart <$> users Shop.placed !! 10%N = Some [].
Proof.
  split; [reflexivity|].
  destruct (createOrder_clears_cart Shop.env 10%N Shop.one_silk Shop.store)
    as [H _].
  exact (proj2 (H _ eq_refl)).
Defined.

End CartClaims.

(** *** Payment verification *)

Section VerifyClaims.
Import Js OrderModel Payment.
Context (hmac_sha256_hex : string -> string -> string)
        (process_env : ProcessEnv).

(** C7. When the supplied signature differs from the HMAC-SHA256 of
    [orderId|paymentId] under the configured secret, the call is refused
    with a 400 answer -- 'Payment verification failed' for a request whose
    three gateway fields are present -- and the store is left as it was:
    no payment info, status or timeline of any order changes. The call is
    accepted only when the two signatures are equal. *)
Theorem verifyPayment_signature (e : Env) (req_user : ObjectId)
    (b : VerifyBody) (st : Store) (key : string) :
  RAZORPAY_KEY_SECRET process_env = Some key ->
  let expected :=
    hmac_sha256_hex key (razorpay_order_id b +:+ "|" +:+ razorpay_payment_id b) in
  let r := verifyPayment hmac_sha256_hex process_env e req_user b st in
  (razorpay_signature b <> expected ->
   r.2 = st
   /\ http_status r.1 = 400
   /\ (razorpay_order_id b <> "" -> razorpay_payment_id b <> "" ->
       razorpay_signature b <> "" -> r.1 = PaymentVerificationFailed))
  /\ (forall o, r.1 = PaymentVerified o -> razorpay_signature b = expected).
Proof.
  intros Hkey. simpl. unfold verifyPayment. rewrite Hkey.
  destruct (String.eqb _ (razorpay_signature b)) eqn:Hsig; simpl.
  - apply String.eqb_eq in Hsig. split; [by intros []|done].
  - split.
    + intros _.
      destruct (Orders.notEmpty (razorpay_order_id b)) eqn:H1;
        destruct (Orders.notEmpty (razorpay_payment_id b)) eqn:H2;
        destruct (Orders.notEmpty (razorpay_signature b)) eqn:H3; simpl;
        split_and!; try done; intros ? ? ?;
        unfold Orders.notEmpty in *;
        rewrite negb_false_iff, String.eqb_eq in *; done.
    + intros o. by destruct (_ && _).
Qed.

End VerifyClaims.

(** A confirmation of the shop with its signature replaced by "0000". *)
Lemma verifyPayment_signature_witness :
  let r := Payment.verifyPayment Shop.hmac Shop.secrets Shop.later 10%N
             Shop.tampered Shop.placed in
  r.2 = Shop.placed /\ r.1 = PaymentVerificationFailed.
Proof.
  destruct (verifyPayment_signature Shop.hmac Shop.secrets Shop.later 10%N
              Shop.tampered Shop.placed "key" eq_refl) as [H _].
  destruct (H ltac:(discriminate)) as (H1 & _ & H3).
  split; [exact H1|].
  apply H3; discriminate.
Defined.

(** *** What a request does to the orders collection *)

Section StoreFacts.
Import Js OrderModel Orders Payment Api.
Context (hmac_sha256_hex : string -> string -> string)
        (JSON_stringify : WebhookBody -> string)
        (process_env : ProcessEnv).

Lemma NoDup_map_eq {A B : Type} (f : A -> B) (l : list A) (x y : A) :
  NoDup (map f l) -> x ∈ l -> y ∈ l -> f x = f y -> x = y.
Proof.
  induction l as [|a l IH]; simpl; [by intros _ ?%elem_of_nil|].
  rewrite NoDup_cons. intros [Ha Hnd] [->|Hx]%elem_of_cons [->|Hy]%elem_of_cons Heq.
  - done.
  - exfalso. apply Ha. rewrite Heq. by apply list_elem_of_fmap_2.
  - exfalso. apply Ha. rewrite <- Heq. by apply list_elem_of_fmap_2.
  - by apply IH.
Qed.

Lemma generate_number_stored (e : Env) (db : list Order) (o : Order) :
  orderNumber o <> "" -> generate_number e db o = o.
Proof.
  intros H. unfold generate_number. by apply truthy_true in H as ->.
Qed.

Lemma generateOrderNumber_nonempty (e : Env) : generateOrderNumber e <> "".
Proof. unfold generateOrderNumber. simpl. discriminate. Qed.

(** Under the indexes, writing back a stored order under its own id and
    number is never refused. *)
Lemma save_stored (e : Env) (stored o1 : Order) (db : list Order) :
  Spec.indexes_hold db -> stored ∈ db ->
  _id o1 = _id stored -> orderNumber o1 = orderNumber stored ->
  save e (Some stored) o1 db
  = Some (pre_save e db (Some stored) o1,
          replace_order (pre_save e db (Some stored) o1) db).
Proof.
  intros (Hid & Hnum & Hne) Hin Hi Hn. unfold save.
  destruct (duplicate_key _ db) eqn:Hdup; [|done]. exfalso.
  unfold duplicate_key in Hdup. apply existsb_exists in Hdup as (x & Hx & Hb).
  apply andb_true_iff in Hb as [Hb1 Hb2].
  apply negb_true_iff, N.eqb_neq in Hb1. apply String.eqb_eq in Hb2.
  rewrite pre_save_shape in Hb1, Hb2. simpl in Hb1, Hb2.
  rewrite generate_number_stored in Hb2.
  - apply Hb1. rewrite Hi. f_equal.
    apply (NoDup_map_eq orderNumber db); [done|by apply list_elem_of_In|done|].
    by rewrite Hb2.
  - rewrite Hn. rewrite Forall_forall in Hne. by apply Hne.
Qed.

Lemma findByPaymentOrderId_Some (id : string) (db : list Order) (o : Order) :
  findByPaymentOrderId id db = Some o ->
  o ∈ db /\ orderId (paymentInfo o) = Some id.
Proof.
  unfold findByPaymentOrderId. intros H. apply find_some in H as [Hin Hb].
  split; [by apply list_elem_of_In|]. by apply bool_decide_eq_true in Hb.
Qed.

Local Ltac written_back order :=
  right; right; unfold with_orders; cbn [snd orders];
  lazymatch goal with
  | |- context [replace_order (pre_save _ _ (Some order) ?doc) _ = _] =>
      exists order, doc
  end;
  split_and!.

(** A request leaves the orders as they are, or appends one new order
    whose timeline is its first entry, or writes one stored order back
    under its id and number after the changes of [Spec.update_of]. *)
Lemma handle_orders (e : Env) (req : request) (st : Store) :
  let db := orders st in
  let db' := orders (handle hmac_sha256_hex JSON_stringify process_env e req st).2 in
  db' = db
  \/ (exists o,
        db' = db ++ [o]
        /\ (forall x, x ∈ db -> _id x <> _id o /\ orderNumber x <> orderNumber o)
        /\ orderNumber o = generateOrderNumber e
        /\ timeline o = [Spec.entry_for e (status o)])
  \/ (exists stored o1,
        stored ∈ db
        /\ _id o1 = _id stored
        /\ orderNumber o1 = orderNumber stored
        /\ timeline o1 = timeline stored
        /\ Spec.update_of req stored o1
        /\ db' = replace_order (pre_save e db (Some stored) o1) db).
Proof.
  destruct req; simpl.
  - (* createOrder *)
    unfold createOrder.
    destruct (validate_create b); simpl; [|by left].
    destruct req_user as [uid|]; [|by left].
    destruct (size _ =? _)%nat; simpl; [|by left].
    destruct (order_loop _ _ _ _ _) as [[resp|[ois sub]] db]; [by left|].
    destruct (save _ _ _ _) as [[saved odb]|] eqn:Hsave; [|by left].
    assert (odb = orders st ++ [saved]
            /\ (forall x, x ∈ orders st ->
                          _id x <> _id saved /\ orderNumber x <> orderNumber saved)
            /\ orderNumber saved = generateOrderNumber e
            /\ timeline saved = [Spec.entry_for e (status saved)])
      as (-> & Hfresh & Hnum & Htl).
    { pose proof (save_Some _ _ _ _ _ _ Hsave) as [Hs ->].
      split; [done|]. split; [|split].
      - by eapply save_new_fresh.
      - rewrite Hs, pre_save_shape.
        rewrite generate_number_stored by apply generateOrderNumber_nonempty.
        done.
      - rewrite Hs, pre_save_shape. done. }
    right; left. exists saved. by destruct (users st !! uid).
  - (* cancelOrder *)
    unfold cancelOrder.
    destruct (from_option notEmpty true body_reason); simpl; [|by left].
    destruct (findById id (orders st)) as [order|] eqn:Hf; [|by left].
    destruct (user order =? req_user)%N; simpl; [|by left].
    destruct (cancellable (status order)); simpl; [|by left].
    destruct (save _ _ _ _) as [[saved odb]|] eqn:Hsave; [|by left].
    apply save_Some in Hsave as [-> ->]. apply findById_id in Hf as [_ Hin].
    by written_back order.
  - (* updateOrderStatus *)
    unfold updateOrderStatus.
    destruct (_ && _); simpl; [|by left].
    destruct (findById id (orders st)) as [order|] eqn:Hf; [|by left].
    destruct (save _ _ _ _) as [[saved odb]|] eqn:Hsave; [|by left].
    apply save_Some in Hsave as [-> ->]. apply findById_id in Hf as [_ Hin].
    by written_back order.
  - (* verifyPayment *)
    unfold verifyPayment.
    destruct (_ && _); simpl; [|by left].
    destruct (RAZORPAY_KEY_SECRET process_env); [|by left].
    destruct (String.eqb _ _); simpl; [|by left].
    destruct (findById _ (orders st)) as [order|] eqn:Hf; [|by left].
    destruct (user order =? req_user)%N; simpl; [|by left].
    destruct (save _ _ _ _) as [[saved odb]|] eqn:Hsave; [|by left].
    apply save_Some in Hsave as [-> ->]. apply findById_id in Hf as [_ Hin].
    by written_back order.
  - (* handlePaymentWebhook *)
    unfold handlePaymentWebhook.
    destruct (webhook_rejected _ _ _ _ _); [by left|].
    destruct (String.eqb (event body) "payment.failed") eqn:Hev; [|by left].
    destruct (findByPaymentOrderId _ (orders st)) as [order|] eqn:Hf; [|by left].
    destruct (save _ _ _ _) as [[saved odb]|] eqn:Hsave; [|by left].
    apply save_Some in Hsave as [-> ->].
    apply findByPaymentOrderId_Some in Hf as [Hin Hoid].
    apply String.eqb_eq in Hev.
    by written_back order.
  - (* processCod *)
    unfold processCod.
    destruct (findById id (orders st)) as [order|] eqn:Hf; [|by left].
    destruct (user order =? req_user)%N; simpl; [|by left].
    destruct (bool_decide (method (paymentInfo order) = cod)) eqn:Hm;
      simpl; [|by left].
    destruct (save _ _ _ _) as [[saved odb]|] eqn:Hsave; [|by left].
    apply save_Some in Hsave as [-> ->]. apply findById_id in Hf as [_ Hin].
    apply bool_decide_eq_true in Hm.
    by written_back order.
Qed.

End StoreFacts.

(** *** The indexes and the timelines, request by request *)

Section Invariants.
Import Js OrderModel Orders Payment Api.
Context (hmac_sha256_hex : string -> string -> string)
        (JSON_stringify : WebhookBody -> string)
        (process_env : ProcessEnv).

Lemma replace_order_ids (o' : Order) (db : list Order) :
  map _id (replace_order o' db) = map _id db.
Proof.
  unfold replace_order. rewrite map_map. apply map_ext. intros x.
  destruct (_id x =? _id o')%N eqn:Heq; [|done]. by apply N.eqb_eq in Heq.
Qed.

(** With unique ids, the only element that a write under the id of
    [stored] replaces is [stored]. *)
Lemma replace_order_stored (o' stored x : Order) (db : list Order) :
  NoDup (map _id db) -> stored ∈ db -> x ∈ db -> _id o' = _id stored ->
  (_id x =? _id o')%N = true -> x = stored.
Proof.
  intros Hnd Hin Hx Hid Heq. apply N.eqb_eq in Heq.
  apply (NoDup_map_eq _id db); try done. by rewrite Heq.
Qed.

(** Every request keeps the unique indexes and the required number. *)
Lemma handle_keeps_indexes (e : Env) (req : request) (st : Store) :
  Spec.indexes_hold (orders st) ->
  Spec.indexes_hold
    (orders (handle hmac_sha256_hex JSON_stringify process_env e req st).2).
Proof.
  intros (Hid & Hnum & Hne).
  destruct (handle_orders hmac_sha256_hex JSON_stringify process_env e req st)
    as [->|[(o & -> & Hfresh & Hgen & _)|(stored & o1 & Hin & Hi & Hn & _ & _ & ->)]].
  - done.
  - unfold Spec.indexes_hold. rewrite !map_app. simpl. split_and!.
    + apply NoDup_app. split_and!; [done| |apply NoDup_singleton].
      intros i Hi ->%list_elem_of_singleton.
      apply list_elem_of_fmap in Hi as (x & Hx & Hin).
      destruct (Hfresh x Hin) as [H1 H2]. by apply H1.
    + apply NoDup_app. split_and!; [done| |apply NoDup_singleton].
      intros i Hi ->%list_elem_of_singleton.
      apply list_elem_of_fmap in Hi as (x & Hx & Hin).
      destruct (Hfresh x Hin) as [H1 H2]. by apply H2.
    + apply Forall_app. split; [done|]. apply Forall_singleton.
      rewrite Hgen. apply generateOrderNumber_nonempty.
  - set (o' := pre_save e (orders st) (Some stored) o1).
    assert (_id o' = _id stored) as Hi'
      by (unfold o'; by rewrite pre_save_shape).
    assert (orderNumber o' = orderNumber stored) as Hn'.
    { unfold o'. rewrite pre_save_shape. simpl.
      rewrite generate_number_stored; [done|].
      rewrite Hn. rewrite Forall_forall in Hne. by apply Hne. }
    assert (map orderNumber (replace_order o' (orders st))
            = map orderNumber (orders st)) as Hnums.
    { unfold replace_order. rewrite map_map. apply map_ext_in. intros x Hx.
      apply list_elem_of_In in Hx.
      destruct (_id x =? _id o')%N eqn:Heq; [|done].
      by rewrite (replace_order_stored o' stored x (orders st)). }
    unfold Spec.indexes_hold. rewrite replace_order_ids, Hnums.
    split_and!; [done|done|].
    apply Forall_forall. intros x Hx%list_elem_of_fmap.
    destruct Hx as (y & -> & Hy).
    rewrite Forall_forall in Hne.
    destruct (_id y =? _id o')%N; [|by apply Hne].
    rewrite Hn'. by apply Hne.
Qed.

(** Request by request, the timeline of every stored order keeps its
    entries, in order, and gains one entry -- for the new status -- exactly
    when the order's status is different afterwards. *)
Lemma handle_timelines (e : Env) (req : request) (st : Store) (x : Order) :
  NoDup (map _id (orders st)) -> x ∈ orders st ->
  exists x',
    x' ∈ orders (handle hmac_sha256_hex JSON_stringify process_env e req st).2
    /\ _id x' = _id x
    /\ timeline x'
       = timeline x ++
           (if decide (status x' = status x) then []
            else [Spec.entry_for e (status x')]).
Proof.
  intros Hnd Hx.
  destruct (handle_orders hmac_sha256_hex JSON_stringify process_env e req st)
    as [->|[(o & -> & _)|(stored & o1 & Hin & Hi & _ & Htl & _ & ->)]].
  - exists x. rewrite decide_True by done. by rewrite app_nil_r.
  - exists x. rewrite decide_True by done. rewrite app_nil_r.
    split_and!; [|done|done]. apply elem_of_app. by left.
  - set (o' := pre_save e (orders st) (Some stored) o1).
    assert (_id o' = _id stored) as Hi'
      by (unfold o'; by rewrite pre_save_shape).
    exists (if (_id x =? _id o')%N then o' else x).
    split_and!.
    + unfold replace_order.
      by apply (list_elem_of_fmap_2 (fun x => if (_id x =? _id o')%N then o' else x)).
    + destruct (_id x =? _id o')%N eqn:Heq; [|done]. by apply N.eqb_eq in Heq.
    + destruct (_id x =? _id o')%N eqn:Heq.
      * apply (replace_order_stored o' stored x (orders st)) in Heq; try done.
        subst x. unfold o'. rewrite pre_save_shape. simpl. rewrite Htl.
        f_equal. unfold isModified_status.
        case_decide as Hs.
        -- rewrite bool_decide_eq_false_2; [done|]. intros Hne. by apply Hne.
        -- rewrite bool_decide_eq_true_2; [done|]. intros Heq. by apply Hs.
      * rewrite decide_True by done. by rewrite app_nil_r.
Qed.

End Invariants.

(** *** Payment reconciliation *)

Section WebhookClaims.
Import Js OrderModel Orders Payment Api.
Context (hmac_sha256_hex : string -> string -> string)
        (JSON_stringify : WebhookBody -> string)
        (process_env : ProcessEnv).

Lemma findById_stored (o : Order) (db : list Order) :
  NoDup (map _id db) -> o ∈ db -> findById (_id o) db = Some o.
Proof.
  unfold findById. induction db as [|x db IH]; simpl.
  - by intros _ ?%elem_of_nil.
  - rewrite NoDup_cons. intros [Hx Hnd] [->|Hin]%elem_of_cons.
    + by rewrite N.eqb_refl.
    + destruct (_id x =? _id o)%N eqn:Heq; [|by apply IH].
      exfalso. apply Hx. apply N.eqb_eq in Heq. rewrite Heq.
      by apply list_elem_of_fmap_2.
Qed.



(** A [payment.failed] event that passes the guard marks the first order
    with its gateway order id as failed, whatever its payment status
    was. *)
Lemma webhook_marks_failed (e : Env) (webhookSignature : option string)
    (body : WebhookBody) (st : Store) (order : Order) :
  webhook_rejected hmac_sha256_hex JSON_stringify process_env webhookSignature body
  = false ->
  event body = "payment.failed" ->
  findByPaymentOrderId (order_id (entity body)) (orders st) = Some order ->
  Spec.indexes_hold (orders st) ->
  let r := handlePaymentWebhook hmac_sha256_hex JSON_stringify process_env e
             webhookSignature body st in
  r.1 = WebhookOk
  /\ exists o',
       findById (_id order) (orders r.2) = Some o'
       /\ pay_status (paymentInfo o') = pay_failed
       /\ failureReason (paymentInfo o') = error_description (entity body).
Proof.
  intros Hguard Hev Hfind Hidx. simpl. unfold handlePaymentWebhook.
  rewrite Hguard, Hev, Hfind. simpl.
  apply findByPaymentOrderId_Some in Hfind as [Hin _].
  rewrite (save_stored e order _ (orders st)) by done.
  simpl. split; [done|]. eexists. split.
  - apply findById_replace with (o := order).
    + apply findById_stored; [by destruct Hidx|done].
    + by rewrite pre_save_shape.
  - by rewrite pre_save_shape.
Qed.

(** C10. The webhook's signature is compared only when the webhook
    secret is configured. Without the secret no delivery is answered with
    'Webhook signature verification failed', whatever its signature
    header; and a [payment.failed] event -- signed or not -- is accepted
    and sets the payment status of the order with its gateway order id to
    'failed'. With the secret, a delivery whose header is not the HMAC of
    the body is refused and changes nothing. *)
Theorem webhook_signature_guard (e : Env) (webhookSignature : option string)
    (body : WebhookBody) (st : Store) :
  let r := handlePaymentWebhook hmac_sha256_hex JSON_stringify process_env e
             webhookSignature body st in
  (Spec.no_secret process_env ->
   r.1 <> WebhookSignatureFailed
   /\ (forall order,
         event body = "payment.failed" ->
         findByPaymentOrderId (order_id (entity body)) (orders st) = Some order ->
         Spec.indexes_hold (orders st) ->
         r.1 = WebhookOk
         /\ Spec.payment_status_of (_id order) r.2 = Some pay_failed))
  /\ (forall secret,
        RAZORPAY_WEBHOOK_SECRET process_env = Some secret -> secret <> "" ->
        webhookSignature <> Some (hmac_sha256_hex secret (JSON_stringify body)) ->
        r = (WebhookSignatureFailed, st)).
Proof.
  simpl. split.
  - intros Hno.
    assert (webhook_rejected hmac_sha256_hex JSON_stringify process_env
              webhookSignature body = false) as Hguard.
    { unfold webhook_rejected. by destruct Hno as [-> | ->]. }
    split.
    + unfold handlePaymentWebhook. rewrite Hguard.
      destruct (String.eqb _ _); [|done].
      destruct (findByPaymentOrderId _ _); [|done].
      by destruct (save _ _ _ _) as [[? ?]|].
    + intros order Hev Hfind Hidx.
      destruct (webhook_marks_failed e webhookSignature body st order
                  Hguard Hev Hfind Hidx) as (Hr & o' & Hf & Hp & _).
      split; [done|]. unfold Spec.payment_status_of. by rewrite Hf, <- Hp.
  - intros secret Hs Hne Hsig. unfold handlePaymentWebhook, webhook_rejected.
    rewrite Hs. apply truthy_true in Hne as ->. simpl.
    rewrite bool_decide_eq_false_2; [done|]. intros Heq. by apply Hsig.
Qed.


End WebhookClaims.

Section WebhookExamples.
Import Js OrderModel Orders Payment Api.

Lemma paid_indexes : Spec.indexes_hold (orders Shop.paid).
Proof.
  apply (handle_keeps_indexes Shop.hmac Shop.json Shop.secrets Shop.later
           (VerifyPayment 10%N Shop.confirmation) Shop.placed).
  apply (handle_keeps_indexes Shop.hmac Shop.json Shop.secrets Shop.env
           (CreateOrder (Some 10%N) Shop.one_silk) Shop.store).
  split_and!; [apply NoDup_nil_2|apply NoDup_nil_2|apply Forall_nil_2].
Qed.

(** With no webhook secret, an unsigned [payment.failed] event turns
    Asha's completed payment into a failed one. *)
Lemma webhook_signature_guard_witness :
  let r := handlePaymentWebhook Shop.hmac Shop.json Shop.no_webhook_secret
             Shop.later None Shop.failure Shop.paid in
  r.1 <> WebhookSignatureFailed
  /\ r.1 = WebhookOk
  /\ Spec.payment_status_of 100%N Shop.paid = Some pay_completed
  /\ Spec.payment_status_of 100%N r.2 = Some pay_failed.
Proof.
  destruct (webhook_signature_guard Shop.hmac Shop.json Shop.no_webhook_secret
              Shop.later None Shop.failure Shop.paid) as [H _].
  destruct (H (or_introl eq_refl)) as [H1 H2].
  destruct (H2 _ eq_refl eq_refl paid_indexes) as [H3 H4].
  split; [exact H1|]. split; [exact H3|]. split; [reflexivity|exact H4].
Defined.



End WebhookExamples.

(** *** Order numbers *)

Section OrderNumberFacts.
Import Js OrderModel Orders.

Lemma length_append (s t : string) :
  String.length (s +:+ t) = (String.length s + String.length t)%nat.
Proof. induction s as [|c s IH]; simpl; [done|]. by rewrite IH. Qed.

Lemma substring_all (s : string) : String.substring 0 (String.length s) s = s.
Proof. induction s as [|c s IH]; simpl; [done|]. by rewrite IH. Qed.

Lemma substring_skip (p s : string) (n : nat) :
  String.substring (String.length p) n (p +:+ s) = String.substring 0 n s.
Proof. induction p as [|c p IH]; simpl; [done|]. apply IH. Qed.

(** The last characters of a string that ends in [s] are [s]. *)
Lemma slice_last_app (p s : string) :
  slice_last (String.length s) (p +:+ s) = s.
Proof.
  unfold slice_last. rewrite length_append.
  replace (String.length p + String.length s - String.length s)%nat
    with (String.length p) by lia.
  rewrite substring_skip. apply substring_all.
Qed.

Lemma holds_below_spec (n : N) (P : N -> bool) :
  Spec.holds_below n P = true -> forall k, (k < n)%N -> P k = true.
Proof.
  intros H k Hk. apply (holds_from_spec _ _ _ H). rewrite N2Nat.id. lia.
Qed.

Lemma sequences_roundtrip :
  Spec.holds_below 10000 Spec.sequence_roundtrips = true.
Proof. vm_cast_no_check (eq_refl true). Qed.

Lemma sequence_roundtrip (k : N) :
  (k < 10000)%N ->
  String.length (padStart0 4 (toString 10 k)) = 4%nat
  /\ parseInt (padStart0 4 (toString 10 k)) = Some k.
Proof.
  intros Hk.
  pose proof (holds_below_spec _ _ sequences_roundtrip k Hk) as H.
  unfold Spec.sequence_roundtrips in H.
  by rewrite andb_true_iff, Nat.eqb_eq, bool_decide_eq_true in H.
Qed.

Lemma compare_trans_lt (a b c : string) :
  String.compare a b = Lt -> String.compare b c = Lt -> String.compare a c = Lt.
Proof.
  intros H1 H2. apply String_as_OT.cmp_lt.
  apply String_as_OT.cmp_lt in H1, H2. by eapply String_as_OT.lt_trans.
Qed.

Lemma leb_refl (a : string) : String.leb a a = true.
Proof.
  unfold String.leb.
  by replace (String.compare a a) with Eq by (symmetry; by apply String_as_OT.cmp_eq).
Qed.

Lemma leb_trans (a b c : string) :
  String.leb a b = true -> String.leb b c = true -> String.leb a c = true.
Proof.
  unfold String.leb. intros H1 H2.
  destruct (String.compare a b) eqn:Hab; [|clear H1|done].
  - apply String.compare_eq_iff in Hab. by subst.
  - destruct (String.compare b c) eqn:Hbc; [| |done].
    + apply String.compare_eq_iff in Hbc. subst. by rewrite Hab.
    + by rewrite (compare_trans_lt a b c).
Qed.

Lemma ltb_false_leb (a b : string) : String.ltb a b = false -> String.leb b a = true.
Proof.
  unfold String.ltb, String.leb. rewrite (String.compare_antisym b a).
  by destruct (String.compare a b).
Qed.

Lemma ltb_true_leb (a b : string) : String.ltb a b = true -> String.leb a b = true.
Proof. unfold String.ltb, String.leb. by destruct (String.compare a b). Qed.

(** Numbers stamped from the clock sort by the clock *)

Lemma append_assoc (s t u : string) : (s +:+ t) +:+ u = s +:+ (t +:+ u).
Proof.
  induction s as [|c s IH]; [done|].
  change (String c ((s +:+ t) +:+ u) = String c (s +:+ (t +:+ u))).
  by rewrite IH.
Qed.

Lemma toString_go_acc (radix : N) (fuel : nat) :
  forall n acc,
    toString_go radix fuel n acc = toString_go radix fuel n "" +:+ acc.
Proof.
  induction fuel as [|fuel IH]; intros n acc; simpl; [done|].
  destruct (n / radix =? 0)%N; [done|].
  rewrite (IH (n / radix)%N (String (digit_char (n mod radix)) acc)).
  rewrite (IH (n / radix)%N (String (digit_char (n mod radix)) "")).
  by rewrite append_assoc.
Qed.

Lemma ascii_compare_refl (c : ascii) : Ascii.compare c c = Eq.
Proof. unfold Ascii.compare. apply N.compare_refl. Qed.

Lemma digits_in_order :
  Spec.holds_below 36 Spec.digit_before = true.
Proof. by vm_compute. Qed.

Lemma digit_before (a b : N) :
  (a < b)%N -> (b < 36)%N ->
  Ascii.compare (upper_char (digit_char a)) (upper_char (digit_char b)) = Lt.
Proof.
  intros Hab Hb.
  pose proof (holds_below_spec _ _ digits_in_order a ltac:(lia)) as Ha.
  unfold Spec.digit_before in Ha.
  pose proof (holds_below_spec _ _ Ha b Hb) as H. cbv beta in H.
  apply N.ltb_lt in Hab. rewrite Hab in H. simpl in H.
  by destruct (Ascii.compare _ _).
Qed.

Lemma div36_facts (a b : N) :
  (a = 36 * (a / 36) + a mod 36)%N /\ (a mod 36 < 36)%N.
Proof. split; [by apply N.div_mod|by apply N.mod_lt]. Qed.

Lemma div36_bounds (p a : N) :
  (36 * p <= a < 36 * (36 * p))%N -> (p <= a / 36 < 36 * p)%N.
Proof.
  destruct (div36_facts a a) as [Hd Hm]. revert Hd Hm.
  generalize (a / 36)%N (a mod 36)%N. lia.
Qed.

Lemma div36_order (a b : N) :
  (a < b)%N ->
  (a / 36 < b / 36)%N \/ ((a / 36 = b / 36)%N /\ (a mod 36 < b mod 36)%N).
Proof.
  destruct (div36_facts a a) as [Hda Hma]. destruct (div36_facts b b) as [Hdb Hmb].
  revert Hda Hma Hdb Hmb.
  generalize (a / 36)%N (a mod 36)%N (b / 36)%N (b mod 36)%N. lia.
Qed.

(** Two numbers with the same count of base-36 digits compare, as
    upper-cased strings, the way they compare as numbers, whatever
    follows them. *)
Lemma toString_go_compare (k : nat) :
  forall a b acc1 acc2 f1 f2,
    (k < f1)%nat -> (k < f2)%nat ->
    (36 ^ N.of_nat k <= a < 36 ^ N.of_nat (S k))%N ->
    (36 ^ N.of_nat k <= b < 36 ^ N.of_nat (S k))%N ->
    ((a < b)%N ->
     String.compare (toUpperCase (toString_go 36 f1 a acc1))
       (toUpperCase (toString_go 36 f2 b acc2)) = Lt)
    /\ (a = b ->
        String.compare (toUpperCase (toString_go 36 f1 a acc1))
          (toUpperCase (toString_go 36 f2 b acc2))
        = String.compare (toUpperCase acc1) (toUpperCase acc2)).
Proof.
  induction k as [|k IH]; intros a b acc1 acc2 f1 f2 Hf1 Hf2 Ha Hb;
    destruct f1 as [|f1]; [lia| |lia|]; destruct f2 as [|f2]; try lia;
    cbn [toString_go].
  - change (36 ^ N.of_nat 0)%N with 1%N in *.
    change (36 ^ N.of_nat 1)%N with 36%N in *.
    rewrite !N.div_small, !N.mod_small by lia. simpl.
    split.
    + intros Hab. by rewrite digit_before by lia.
    + intros ->. by rewrite ascii_compare_refl.
  - rewrite !Nat2N.inj_succ, !N.pow_succ_r' in Ha, Hb.
    rewrite Nat2N.inj_succ in IH. rewrite N.pow_succ_r' in IH.
    pose proof (N.pow_nonzero 36 (N.of_nat k) ltac:(lia)) as Hpos.
    set (p := (36 ^ N.of_nat k)%N) in *. clearbody p.
    pose proof (div36_bounds p a Ha) as Ha'.
    pose proof (div36_bounds p b Hb) as Hb'.
    assert ((a / 36 =? 0)%N = false) as -> by (apply N.eqb_neq; lia).
    assert ((b / 36 =? 0)%N = false) as -> by (apply N.eqb_neq; lia).
    destruct (IH (a / 36) (b / 36)
                (String (digit_char (a mod 36)) acc1)
                (String (digit_char (b mod 36)) acc2) f1 f2)%N
      as [Hlt Heq]; [lia|lia|done|done|].
    split.
    + intros Hab. destruct (div36_order a b Hab) as [Hq|[Hq Hr]].
      * by apply Hlt.
      * rewrite Heq by done. simpl. rewrite digit_before; [done|done|].
        by destruct (div36_facts b b).
    + intros ->. rewrite Heq by done. simpl. by rewrite ascii_compare_refl.
Qed.

(** While the clock has eight base-36 digits -- from 1972 to 2059 -- the
    number stamped on the earlier order sorts in front. *)
Lemma generateOrderNumber_sorts (e1 e2 : Env) :
  (78364164096 <= now e1)%N -> (now e1 < now e2)%N -> (now e2 < 2821109907456)%N ->
  String.ltb (generateOrderNumber e1) (generateOrderNumber e2) = true.
Proof.
  intros H1 H12 H2. unfold generateOrderNumber, toString.
  rewrite <- !toString_go_acc. unfold String.ltb.
  assert (forall x, toUpperCase ("ORD-" +:+ x)
                    = String "O" (String "R" (String "D" (String "-" (toUpperCase x)))))
    as Hord by reflexivity.
  rewrite !Hord. cbn [String.compare]. rewrite !ascii_compare_refl.
  assert (36 <= N.log2 (now e1))%N as Hl1
    by (change 36%N with (N.log2 78364164096); by apply N.log2_le_mono).
  assert (36 <= N.log2 (now e2))%N as Hl2
    by (change 36%N with (N.log2 78364164096); apply N.log2_le_mono; lia).
  destruct (toString_go_compare 7 (now e1) (now e2) ("-" +:+ random e1)
              ("-" +:+ random e2) (S (N.to_nat (N.log2 (now e1))))
              (S (N.to_nat (N.log2 (now e2)))))
    as [Hlt _]; [lia|lia| | |].
  - change (36 ^ N.of_nat 7)%N with 78364164096%N.
    change (36 ^ N.of_nat 8)%N with 2821109907456%N. lia.
  - change (36 ^ N.of_nat 7)%N with 78364164096%N.
    change (36 ^ N.of_nat 8)%N with 2821109907456%N. lia.
  - by rewrite Hlt.
Qed.

(** The scan only ever moves to a later number. *)
Lemma scan_grows (pfx : string) (db : list Order) :
  forall b, exists l,
    foldl (day_step pfx) (Some b) db = Some l
    /\ String.leb (orderNumber b) (orderNumber l) = true
    /\ (l = b \/ (l ∈ db /\ String.prefix pfx (orderNumber l) = true)).
Proof.
  induction db as [|x db IH]; intros b; simpl.
  - exists b. split_and!; [done|apply leb_refl|by left].
  - unfold day_step at 2. destruct (String.prefix pfx (orderNumber x)) eqn:Hp.
    + simpl. destruct (String.ltb (orderNumber b) (orderNumber x)) eqn:Hlt.
      * destruct (IH x) as (l & -> & Hle & Hin). exists l.
        split_and!; [done| |].
        -- eapply leb_trans; [by apply ltb_true_leb|done].
        -- right. destruct Hin as [->|[Hin Hpl]].
           ++ split; [apply list_elem_of_here|done].
           ++ split; [by apply list_elem_of_further|done].
      * destruct (IH b) as (l & -> & Hle & Hin). exists l.
        split_and!; [done|done|].
        destruct Hin as [->|[Hin Hpl]]; [by left|right].
        split; [by apply list_elem_of_further|done].
    + destruct (IH b) as (l & -> & Hle & Hin). exists l.
      split_and!; [done|done|].
      destruct Hin as [->|[Hin Hpl]]; [by left|right].
      split; [by apply list_elem_of_further|done].
Qed.

Lemma scan_covers (pfx : string) (db : list Order) :
  forall b l,
    foldl (day_step pfx) (Some b) db = Some l ->
    forall x, x ∈ db -> String.prefix pfx (orderNumber x) = true ->
              String.leb (orderNumber x) (orderNumber l) = true.
Proof.
  induction db as [|y db IH]; intros b l Hl x; simpl in *.
  - by intros ?%elem_of_nil.
  - intros [->|Hin]%elem_of_cons Hp.
    + unfold day_step at 2 in Hl. rewrite Hp in Hl. simpl in Hl.
      destruct (String.ltb (orderNumber b) (orderNumber y)) eqn:Hlt.
      * destruct (scan_grows pfx db y) as (l' & Hl' & Hle & _).
        rewrite Hl in Hl'. by injection Hl' as <-.
      * destruct (scan_grows pfx db b) as (l' & Hl' & Hle & _).
        rewrite Hl in Hl'. injection Hl' as <-.
        eapply leb_trans; [by apply ltb_false_leb|done].
    + unfold day_step at 2 in Hl.
      destruct (String.prefix pfx (orderNumber y)); simpl in Hl.
      * destruct (String.ltb (orderNumber b) (orderNumber y)); by eapply IH.
      * by eapply IH.
Qed.

(** [findLastOfDay] finds nothing when no stored number has the prefix,
    and otherwise a stored order with the prefix whose number no other
    such order exceeds. *)
Lemma findLastOfDay_spec (pfx : string) (db : list Order) :
  match findLastOfDay pfx db with
  | None => forall x, x ∈ db -> String.prefix pfx (orderNumber x) = false
  | Some last =>
      last ∈ db
      /\ String.prefix pfx (orderNumber last) = true
      /\ forall x, x ∈ db -> String.prefix pfx (orderNumber x) = true ->
                   String.leb (orderNumber x) (orderNumber last) = true
  end.
Proof.
  unfold findLastOfDay.
  induction db as [|y db IH]; simpl.
  - by intros x ?%elem_of_nil.
  - unfold day_step at 2. destruct (String.prefix pfx (orderNumber y)) eqn:Hp; simpl.
    + destruct (scan_grows pfx db y) as (l & Hl & Hle & Hin). rewrite Hl.
      split_and!.
      * destruct Hin as [->|[Hin _]];
          [apply list_elem_of_here|by apply list_elem_of_further].
      * by destruct Hin as [->|[_ Hpl]].
      * intros x [->|Hx]%elem_of_cons Hpx; [done|]. by eapply scan_covers.
    + destruct (foldl (day_step pfx) None db) as [last|].
      * destruct IH as (Hin & Hpl & Hmax). split_and!; [by apply list_elem_of_further|done|].
        intros x [->|Hx]%elem_of_cons Hpx; [congruence|by apply Hmax].
      * intros x [->|Hx]%elem_of_cons; [done|by apply IH].
Qed.

End OrderNumberFacts.

Section OrderNumberClaims.
Import Js OrderModel Orders.

(** C3 (as amended). [createOrder] gives every order it creates the
    number 'ORD-' + the creation time in base 36 + '-' + the random
    suffix, in upper case; that number differs from the number of every
    order stored before, and -- while the clock has eight base-36 digits --
    the number of an order created at an earlier millisecond sorts in
    front of the number of one created later. The dated form is the work
    of the pre-save hook alone, when it runs on a document that has no
    number: the day's prefix followed by 0001 when no stored number starts
    with that prefix, and otherwise by the sequence of the day's greatest
    stored number plus 1, padded to four digits. *)
Theorem order_number_assignment :
  (forall e req_user b st o st',
      createOrder e req_user b st = (OrderCreated o, st') ->
      orderNumber o
      = toUpperCase ("ORD-" +:+ toString 36 (now e) +:+ "-" +:+ random e)
      /\ String.prefix "ORD-" (orderNumber o) = true
      /\ forall x, x ∈ orders st -> orderNumber x <> orderNumber o)
  /\ (forall e1 e2 u1 u2 b1 b2 st1 st2 o1 o2 st1' st2',
        createOrder e1 u1 b1 st1 = (OrderCreated o1, st1') ->
        createOrder e2 u2 b2 st2 = (OrderCreated o2, st2') ->
        (78364164096 <= now e1)%N -> (now e1 < now e2)%N ->
        (now e2 < 2821109907456)%N ->
        String.ltb (orderNumber o1) (orderNumber o2) = true)
  /\ (forall e db stored o,
        orderNumber o = "" ->
        let n := orderNumber (pre_save e db stored o) in
        match findLastOfDay (day_prefix e) db with
        | None => n = day_prefix e +:+ "0001"
        | Some last =>
            forall k,
              (k < 10000)%N ->
              orderNumber last = day_prefix e +:+ padStart0 4 (toString 10 k) ->
              n = day_prefix e +:+ padStart0 4 (toString 10 (k + 1))
        end)
  /\ (forall pfx db,
        match findLastOfDay pfx db with
        | None => forall x, x ∈ db -> String.prefix pfx (orderNumber x) = false
        | Some last =>
            last ∈ db
            /\ String.prefix pfx (orderNumber last) = true
            /\ forall x, x ∈ db -> String.prefix pfx (orderNumber x) = true ->
                         String.leb (orderNumber x) (orderNumber last) = true
        end).
Proof.
  assert (forall e req_user b st o st',
             createOrder e req_user b st = (OrderCreated o, st') ->
             orderNumber o = generateOrderNumber e) as Hnumber.
  { intros e req_user b st o st' H.
    apply createOrder_created in H
      as (uid & u & ois & sub & db & _ & _ & _ & _ & Hsave & _).
    apply save_Some in Hsave as [Ho _]. rewrite Ho, pre_save_shape.
    by rewrite generate_number_stored by apply generateOrderNumber_nonempty. }
  split_and!.
  - intros e req_user b st o st' H.
    pose proof (Hnumber _ _ _ _ _ _ H) as Hn.
    apply createOrder_created in H
      as (uid & u & ois & sub & db & _ & _ & _ & _ & Hsave & _).
    pose proof (save_new_fresh _ _ _ _ _ Hsave) as Hfresh.
    split_and!; [exact Hn| |].
    + rewrite Hn. unfold generateOrderNumber. simpl. by destruct (toUpperCase _).
    + intros x Hx. by apply Hfresh.
  - intros e1 e2 u1 u2 b1 b2 st1 st2 o1 o2 st1' st2' H1 H2 Hlo Hlt Hhi.
    rewrite (Hnumber _ _ _ _ _ _ H1), (Hnumber _ _ _ _ _ _ H2).
    by apply generateOrderNumber_sorts.
  - intros e db stored o Hblank. simpl.
    rewrite pre_save_shape. simpl. unfold generate_number.
    rewrite Hblank. simpl.
    destruct (findLastOfDay (day_prefix e) db) as [last|]; simpl; [|done].
    intros k Hk Hlast.
    destruct (sequence_roundtrip k Hk) as [Hlen Hparse].
    rewrite Hlast. rewrite <- Hlen at 1. rewrite slice_last_app, Hparse. done.
  - apply findLastOfDay_spec.
Qed.

(** Asha's order is numbered from the clock; an unnumbered document
    saved on a day whose last dated number is ...0007 becomes ...0008. *)
Lemma order_number_assignment_witness :
  (orderNumber <$> Spec.created
     (createOrder Shop.env (Some 10%N) Shop.one_silk Shop.store).1)
  = Some "ORD-MHGY2O00-K3X9Q"
  /\ orderNumber (pre_save Shop.env [Shop.seventh] None Shop.unnumbered)
     = "SS2511020008".
Proof.
  destruct order_number_assignment as (Hcreate & _ & Hhook & _).
  split; [reflexivity|].
  exact (Hhook Shop.env [Shop.seventh] None Shop.unnumbered eq_refl
           7%N eq_refl eq_refl).
Defined.

(** C3, as the specification words it, fails on the first order of the
    shop: its number is stamped from the clock and a random suffix, and
    does not end in a date and a four-digit sequence. *)
Lemma order_number_counterexample :
  (orderNumber <$> Spec.created
     (createOrder Shop.env (Some 10%N) Shop.one_silk Shop.store).1)
  = Some "ORD-MHGY2O00-K3X9Q"
  /\ Spec.dated_form "ORD-MHGY2O00-K3X9Q" = false
  /\ Js.slice_last 4 "ORD-MHGY2O00-K3X9Q" <> "0001".
Proof. by vm_compute. Qed.

End OrderNumberClaims.

(** *** Order creation, beyond the pricing *)

Section CreationFacts.
Import Js OrderModel Orders.



(** [Product.find] returns each product once: when it returns as many
    products as there are ids, no id comes twice. *)
Lemma findActive_size_NoDup (ids : list ObjectId) (db : gmap N Product) :
  size (findActive ids db) = length ids -> NoDup ids.
Proof.
  intros Hsize. apply NoDup_of_size.
  assert (dom (findActive ids db) ⊆ (list_to_set ids : gset N)) as Hsub.
  { intros i [p Hp]%elem_of_dom. unfold findActive in Hp.
    apply map_lookup_filter_Some in Hp as [_ [Hi _]].
    by apply elem_of_list_to_set. }
  apply subseteq_size in Hsub. rewrite size_dom, Hsize in Hsub.
  pose proof (size_list_to_set_le ids). lia.
Qed.

(** X1. A request that names one product twice -- in two sizes, say -- is
    never accepted: [Product.find] returns each product once, the batch
    check of lines 67-72 counts fewer products than ids, and the answer is
    400 'Some products are not available' with nothing written. *)
Theorem createOrder_repeated_product (e : Env) (uid : ObjectId) (b : Body)
    (st : Store) :
  validate_create b = true ->
  ~ NoDup (map product (body_items b)) ->
  createOrder e (Some uid) b st = (ProductsUnavailable, st).
Proof.
  intros Hv Hdup. unfold createOrder. rewrite Hv. simpl.
  destruct (size _ =? _)%nat eqn:Hsize; simpl; [|done].
  exfalso. apply Hdup. apply Nat.eqb_eq in Hsize.
  by apply findActive_size_NoDup in Hsize.
Qed.

(** The silk saree asked for in two sizes. *)
Lemma createOrder_repeated_product_witness :
  createOrder Shop.env (Some 10%N) Examples.silk_twice Shop.store
  = (ProductsUnavailable, Shop.store).
Proof.
  apply createOrder_repeated_product; [reflexivity|].
  intros H. apply NoDup_cons in H as [H _]. apply H. apply list_elem_of_here.
Defined.

(** The document that a successful [createOrder] stored. *)
Lemma createOrder_document (e : Env) (req_user : option ObjectId) (b : Body)
    (st st' : Store) (o : Order) :
  createOrder e req_user b st = (OrderCreated o, st') ->
  exists uid ois sub,
    req_user = Some uid
    /\ o = set_timeline
             [Spec.entry_for e (if decide (method (body_paymentInfo b) = cod)
                                then confirmed else pending)]
             (new_Order (new_id e) (generateOrderNumber e) uid ois
                (body_shippingAddress b) (finalBillingAddress b)
                (body_paymentInfo b) (price_order sub (body_coupon b))
                (body_coupon b)
                (if decide (method (body_paymentInfo b) = cod)
                 then confirmed else pending))
    /\ orders st' = orders st ++ [o].
Proof.
  intros H.
  apply createOrder_created in H
    as (uid & u & ois & sub & db & -> & _ & _ & _ & Hsave & ->).
  apply save_Some in Hsave as [-> _]. rewrite pre_save_shape.
  rewrite generate_number_stored by apply generateOrderNumber_nonempty.
  exists uid, ois, sub. split_and!; done.
Qed.

(** X2. What a created order starts as: confirmed when the payment method
    is cash on delivery and pending otherwise, with that status as the one
    entry of its timeline; it belongs to the requester, carries the number
    of [generateOrderNumber], an empty tracking and no cancellation, and is
    appended to the collection. The payment info and the coupon are stored
    as the request sent them -- the payment status included, which the
    route does not reset. *)
Theorem createOrder_initial_state (e : Env) (req_user : option ObjectId)
    (b : Body) (st st' : Store) (o : Order) :
  createOrder e req_user b st = (OrderCreated o, st') ->
  status o = (if decide (method (body_paymentInfo b) = cod)
              then confirmed else pending)
  /\ timeline o = [Spec.entry_for e (status o)]
  /\ req_user = Some (user o)
  /\ _id o = new_id e
  /\ orderNumber o = generateOrderNumber e
  /\ paymentInfo o = body_paymentInfo b
  /\ coupon o = body_coupon b
  /\ tracking o = mkTracking None None None
  /\ cancellation o = mkCancellation None None refund_pending None
  /\ orders st' = orders st ++ [o].
Proof.
  intros H.
  apply createOrder_document in H as (uid & ois & sub & -> & -> & Hdb).
  by split_and!.
Qed.

(** Asha's order of one silk saree, paid online: pending, one entry. *)
Lemma createOrder_initial_state_witness :
  exists o st',
    createOrder Shop.env (Some 10%N) Shop.one_silk Shop.store = (OrderCreated o, st')
    /\ status o = pending
    /\ timeline o = [Spec.entry_for Shop.env pending].
Proof.
  eexists _, _. split; [reflexivity|].
  destruct (createOrder_initial_state Shop.env (Some 10%N) Shop.one_silk Shop.store
              _ _ eq_refl) as (Hs & Ht & _).
  split; [exact Hs|exact Ht].
Defined.

(** X3. The addresses of a created order. The shipping address is the
    request's, with 'India' for a missing country. Without a billing
    address in the request the billing address is a copy of the shipping
    address -- name, lines, city, state, pincode and phone -- marked
    [sameAsShipping], with an empty second line and 'India' standing in
    for a missing or empty one; a billing address that is sent is stored
    as it is, [sameAsShipping] defaulting to true. *)
Theorem createOrder_addresses (e : Env) (req_user : option ObjectId)
    (b : Body) (st st' : Store) (o : Order) :
  createOrder e req_user b st = (OrderCreated o, st') ->
  let s := body_shippingAddress b in
  shippingAddress o
  = mkAddress (firstName s) (lastName s) (addressLine1 s) (addressLine2 s)
      (city s) (state s) (pincode s) (Some (default "India" (country s)))
      (phone s) None
  /\ match body_billingAddress b with
     | None =>
         billingAddress o
         = mkAddress (firstName s) (lastName s) (addressLine1 s)
             (Some (or_else (addressLine2 s) "")) (city s) (state s) (pincode s)
             (Some (or_else (country s) "India")) (phone s) (Some true)
     | Some a =>
         billingAddress o
         = mkAddress (firstName a) (lastName a) (addressLine1 a) (addressLine2 a)
             (city a) (state a) (pincode a) (country a) (phone a)
             (Some (default true (sameAsShipping a)))
     end.
Proof.
  intros H.
  apply createOrder_document in H as (uid & ois & sub & -> & -> & Hdb). simpl.
  split; [done|]. unfold finalBillingAddress. by destruct (body_billingAddress b).
Qed.

(** Asha sends no billing address: her order is billed where it ships. *)
Lemma createOrder_addresses_witness :
  exists o st',
    createOrder Shop.env (Some 10%N) Shop.one_silk Shop.store = (OrderCreated o, st')
    /\ city (billingAddress o) = "Pune"
    /\ sameAsShipping (billingAddress o) = Some true.
Proof.
  eexists _, _. split; [reflexivity|].
  destruct (createOrder_addresses Shop.env (Some 10%N) Shop.one_silk Shop.store
              _ _ eq_refl) as [_ Hb].
  split; [exact (f_equal city Hb)|exact (f_equal sameAsShipping Hb)].
Defined.

End CreationFacts.

(** *** Creation and cancellation together *)

Section RoundTrip.
Import Js OrderModel Orders.





(** X5. An order is cancelled once. After a successful [cancelOrder], a
    second [cancelOrder] of the same order -- by anyone, for any reason --
    is answered with a 4xx and changes nothing, so that the stock is not
    given back twice; the owner's well-formed request gets 'Order cannot be
    cancelled at this stage'. *)
Theorem cancelOrder_once (e e' : Env) (req_user req_user' id : ObjectId)
    (body_reason body_reason' : option string) (st st1 : Store) (o1 : Order) :
  cancelOrder e req_user id body_reason st = (OrderCancelled o1, st1) ->
  let r := cancelOrder e' req_user' id body_reason' st1 in
  r.2 = st1
  /\ domain_error r.1 = true
  /\ (req_user' = req_user -> from_option notEmpty true body_reason' = true ->
      r.1 = CannotCancel).
Proof.
  intros H. simpl.
  apply cancelOrder_cancelled in H as (order & Hf & _ & Hu & _ & Ho & ->).
  unfold cancelOrder. simpl.
  rewrite (findById_replace id (orders st) order o1 Hf).
  2: { rewrite Ho, pre_save_shape. simpl. by apply findById_id in Hf as [-> _]. }
  assert (status o1 = cancelled /\ user o1 = req_user) as [-> ->]
    by (rewrite Ho, pre_save_shape; done).
  destruct (from_option notEmpty true body_reason'); simpl; [|done].
  destruct (req_user =? req_user')%N eqn:Heq; simpl.
  - done.
  - split_and!; [done|done|]. intros ->. by rewrite N.eqb_refl in Heq.
Qed.

Lemma cancelOrder_once_witness :
  exists o1 st1,
    cancelOrder Shop.later 10%N 100%N None Shop.placed = (OrderCancelled o1, st1)
    /\ cancelOrder Shop.later 10%N 100%N None st1 = (CannotCancel, st1).
Proof.
  eexists _, _.
  lazymatch goal with
  | |- ?run = ?res /\ _ => assert (run = res) as Hrun by (vm_compute; reflexivity)
  end.
  split; [exact Hrun|].
  destruct (cancelOrder_once Shop.later Shop.later 10%N 10%N 100%N None None
              Shop.placed _ _ Hrun) as (H1 & _ & H3).
  apply injective_projections; [exact (H3 eq_refl eq_refl)|exact H1].
Defined.

End RoundTrip.

(** *** What every request keeps *)

Section Kept.
Import Js OrderModel Orders Payment Api.
Context (hmac_sha256_hex : string -> string -> string)
        (JSON_stringify : WebhookBody -> string)
        (process_env : ProcessEnv).

Lemma same_purchase_refl (x : Order) : Ledger.same_purchase x x.
Proof. by split_and!. Qed.

Lemma pre_save_same_purchase (e : Env) (db : list Order) (stored doc : Order) :
  Ledger.same_purchase stored doc ->
  Ledger.same_purchase stored (pre_save e db (Some stored) doc).
Proof.
  intros (H1 & H2 & H3 & H4 & H5 & H6 & H7 & H8).
  rewrite pre_save_shape. split_and!; simpl; try done.
  intros Hne. rewrite generate_number_stored; [by apply H2|].
  rewrite (H2 Hne). done.
Qed.

Lemma validate_create_quantities (b : Body) :
  validate_create b = true ->
  forall it, it ∈ body_items b -> 1 <= req_quantity it.
Proof.
  unfold validate_create. rewrite !andb_true_iff.
  intros [[[[[[[[_ Hq] _] _] _] _] _] _] _] it Hit.
  rewrite forallb_forall in Hq. apply Z.leb_le, Hq. by apply list_elem_of_In.
Qed.

Local Ltac kept order :=
  right; right; unfold with_orders; cbn [snd orders];
  lazymatch goal with
  | |- context [replace_order (pre_save ?e ?db (Some order) ?doc) _] =>
      exists order, (pre_save e db (Some order) doc)
  end;
  split_and!; [done| apply pre_save_same_purchase; by split_and! |done].

(** A request leaves the orders as they are, or appends one order whose
    lines have the requested quantities, or writes one stored order back
    with what it records of the purchase untouched. *)
Lemma handle_writes (e : Env) (req : request) (st : Store) :
  let db := orders st in
  let db' := orders (handle hmac_sha256_hex JSON_stringify process_env e req st).2 in
  db' = db
  \/ (exists o,
        db' = db ++ [o] /\ Forall (fun it => 1 <= quantity it) (items o))
  \/ (exists stored o',
        stored ∈ db /\ Ledger.same_purchase stored o'
        /\ db' = replace_order o' db).
Proof.
  destruct req; simpl.
  - (* createOrder *)
    unfold createOrder.
    destruct (validate_create b) eqn:Hv; simpl; [|by left].
    destruct req_user as [uid|]; [|by left].
    destruct (size _ =? _)%nat; simpl; [|by left].
    destruct (order_loop _ _ _ _ _) as [[resp|[ois sub]] db] eqn:Hloop; [by left|].
    destruct (save _ _ _ _) as [[saved odb]|] eqn:Hsave; [|by left].
    right; left. exists saved.
    apply save_Some in Hsave as [Hs ->].
    split; [by destruct (users st !! uid)|].
    rewrite Hs, pre_save_shape. simpl.
    apply order_loop_lines in Hloop as (new & -> & _ & _ & Hq). simpl.
    apply Forall_forall. intros it Hit.
    assert (quantity it ∈ map req_quantity (body_items b)) as Hin
      by (rewrite <- Hq; by apply list_elem_of_fmap_2).
    apply list_elem_of_fmap in Hin as (r & -> & Hr).
    by apply (validate_create_quantities b).
  - (* cancelOrder *)
    unfold cancelOrder.
    destruct (from_option notEmpty true body_reason); simpl; [|by left].
    destruct (findById id (orders st)) as [order|] eqn:Hf; [|by left].
    destruct (user order =? req_user)%N; simpl; [|by left].
    destruct (cancellable (status order)); simpl; [|by left].
    destruct (save _ _ _ _) as [[saved odb]|] eqn:Hsave; [|by left].
    apply save_Some in Hsave as [-> ->]. apply findById_id in Hf as [_ Hin].
    kept order.
  - (* updateOrderStatus *)
    unfold updateOrderStatus.
    destruct (_ && _); simpl; [|by left].
    destruct (findById id (orders st)) as [order|] eqn:Hf; [|by left].
    destruct (save _ _ _ _) as [[saved odb]|] eqn:Hsave; [|by left].
    apply save_Some in Hsave as [-> ->]. apply findById_id in Hf as [_ Hin].
    kept order.
  - (* verifyPayment *)
    unfold verifyPayment.
    destruct (_ && _); simpl; [|by left].
    destruct (RAZORPAY_KEY_SECRET process_env); [|by left].
    destruct (String.eqb _ _); simpl; [|by left].
    destruct (findById _ (orders st)) as [order|] eqn:Hf; [|by left].
    destruct (user order =? req_user)%N; simpl; [|by left].
    destruct (save _ _ _ _) as [[saved odb]|] eqn:Hsave; [|by left].
    apply save_Some in Hsave as [-> ->]. apply findById_id in Hf as [_ Hin].
    kept order.
  - (* handlePaymentWebhook *)
    unfold handlePaymentWebhook.
    destruct (webhook_rejected _ _ _ _ _); [by left|].
    destruct (String.eqb (event body) "payment.failed"); [|by left].
    destruct (findByPaymentOrderId _ (orders st)) as [order|] eqn:Hf; [|by left].
    destruct (save _ _ _ _) as [[saved odb]|] eqn:Hsave; [|by left].
    apply save_Some in Hsave as [-> ->].
    apply findByPaymentOrderId_Some in Hf as [Hin _].
    kept order.
  - (* processCod *)
    unfold processCod.
    destruct (findById id (orders st)) as [order|] eqn:Hf; [|by left].
    destruct (user order =? req_user)%N; simpl; [|by left].
    destruct (bool_decide (method (paymentInfo order) = cod)); simpl; [|by left].
    destruct (save _ _ _ _) as [[saved odb]|] eqn:Hsave; [|by left].
    apply save_Some in Hsave as [-> ->]. apply findById_id in Hf as [_ Hin].
    kept order.
Qed.

(** The loop of [createOrder] takes stock only where there is enough of
    it, whether it runs to its end or leaves early. *)
Lemma order_loop_nonneg (its : list Item) :
  forall found db ois sub,
    found ⊆ db -> Ledger.stock_nonneg db ->
    Ledger.stock_nonneg (order_loop its found db ois sub).2.
Proof.
  induction its as [|it its IH]; intros found db ois sub Hsub Hdb; simpl; [done|].
  destruct (found !! product it) as [p|] eqn:Hp; [|done].
  destruct (stock p <? req_quantity it) eqn:Hlt; [done|].
  apply IH; [by apply insert_mono|].
  intros pid q. rewrite lookup_insert. case_decide.
  - intros [= <-]. simpl. apply Z.ltb_ge in Hlt. lia.
  - apply Hdb.
Qed.

Lemma ordered_quantity_nonneg (pid : ObjectId) (its : list OrderItem) :
  Forall (fun it => 1 <= quantity it) its -> 0 <= Spec.ordered_quantity pid its.
Proof.
  induction 1 as [|it its Hit _ IH]; simpl; [done|]. case_decide; lia.
Qed.

(** X6. No request makes a stock negative. In a store where no stock is
    below 0 and every order line has a quantity of at least 1, each
    request -- accepted, refused or failed -- leaves a store of the same
    kind: [createOrder] takes a quantity only from a stock that covers it,
    [cancelOrder] only adds, and the other handlers leave the products
    alone. *)
Theorem stock_never_negative (e : Env) (req : request) (st : Store) :
  Ledger.stock_nonneg (products st) ->
  Ledger.lines_positive (orders st) ->
  let st' := (handle hmac_sha256_hex JSON_stringify process_env e req st).2 in
  Ledger.stock_nonneg (products st') /\ Ledger.lines_positive (orders st').
Proof.
  intros Hstock Hlines. simpl. split.
  - destruct req; simpl.
    + unfold createOrder.
      destruct (validate_create b); simpl; [|done].
      destruct req_user as [uid|]; [|done].
      destruct (size _ =? _)%nat; simpl; [|done].
      pose proof (order_loop_nonneg (body_items b)
                    (findActive (map product (body_items b)) (products st))
                    (products st) [] 0 (map_filter_subseteq _ _) Hstock) as Hloop.
      destruct (order_loop _ _ _ _ _) as [[resp|[ois sub]] db]; [done|].
      destruct (save _ _ _ _) as [[saved odb]|]; [|done].
      by destruct (users st !! uid).
    + unfold cancelOrder.
      destruct (from_option notEmpty true body_reason); simpl; [|done].
      destruct (findById id (orders st)) as [order|] eqn:Hf; [|done].
      destruct (user order =? req_user)%N; simpl; [|done].
      destruct (cancellable (status order)); simpl; [|done].
      destruct (save _ _ _ _) as [[saved odb]|] eqn:Hsave; [|done].
      simpl. apply save_Some in Hsave as [-> _]. rewrite pre_save_shape. simpl.
      intros pid p. rewrite restore_stock_lookup.
      destruct (products st !! pid) as [q|] eqn:Hq; [|done].
      intros [= <-]. simpl.
      apply findById_id in Hf as [_ Hin].
      unfold Ledger.lines_positive in Hlines. rewrite Forall_forall in Hlines.
      pose proof (ordered_quantity_nonneg pid _ (Hlines _ Hin)).
      pose proof (Hstock _ _ Hq). lia.
    + unfold updateOrderStatus.
      destruct (_ && _); simpl; [|done].
      destruct (findById id (orders st)); [|done].
      by destruct (save _ _ _ _) as [[saved odb]|].
    + unfold verifyPayment.
      destruct (_ && _); simpl; [|done].
      destruct (RAZORPAY_KEY_SECRET process_env); [|done].
      destruct (String.eqb _ _); simpl; [|done].
      destruct (findById _ (orders st)) as [order|]; [|done].
      destruct (user order =? req_user)%N; simpl; [|done].
      by destruct (save _ _ _ _) as [[saved odb]|].
    + unfold handlePaymentWebhook.
      destruct (webhook_rejected _ _ _ _ _); [done|].
      destruct (String.eqb (event body) "payment.failed"); [|done].
      destruct (findByPaymentOrderId _ (orders st)) as [order|]; [|done].
      by destruct (save _ _ _ _) as [[saved odb]|].
    + unfold processCod.
      destruct (findById id (orders st)) as [order|]; [|done].
      destruct (user order =? req_user)%N; simpl; [|done].
      destruct (bool_decide _); simpl; [|done].
      by destruct (save _ _ _ _) as [[saved odb]|].
  - unfold Ledger.lines_positive in *.
    destruct (handle_writes e req st)
      as [->|[(o & -> & Ho)|(stored & o' & Hin & Hsame & ->)]].
    + done.
    + apply Forall_app. split; [done|]. by apply Forall_singleton.
    + unfold replace_order. apply Forall_fmap.
      rewrite Forall_forall in Hlines. apply Forall_forall. intros x Hx. simpl.
      destruct (_id x =? _id o')%N; [|by apply Hlines].
      destruct Hsame as (_ & _ & _ & -> & _). by apply Hlines.
Qed.

(** X7. Orders are never deleted or moved, and what an order records of
    the purchase never changes: through every request, the order at each
    place of the collection keeps its id, its number, its owner, its lines
    with their captured names and prices, its pricing, its addresses and
    its coupon. *)
Theorem orders_are_kept (e : Env) (req : request) (st : Store) :
  NoDup (map _id (orders st)) ->
  let st' := (handle hmac_sha256_hex JSON_stringify process_env e req st).2 in
  forall i x,
    orders st !! i = Some x ->
    exists x', orders st' !! i = Some x' /\ Ledger.same_purchase x x'.
Proof.
  intros Hnd. simpl. intros i x Hx.
  destruct (handle_writes e req st)
    as [->|[(o & -> & Ho)|(stored & o' & Hin & Hsame & ->)]].
  - exists x. split; [done|apply same_purchase_refl].
  - exists x. split; [|apply same_purchase_refl].
    by apply lookup_app_l_Some.
  - unfold replace_order. rewrite list_lookup_fmap, Hx. simpl.
    destruct (_id x =? _id o')%N eqn:Heq.
    + exists o'. split; [done|].
      assert (x = stored) as ->; [|done].
      apply (replace_order_stored o' stored x (orders st)); try done.
      * by apply list_elem_of_lookup_2 in Hx.
      * by destruct Hsame as (-> & _).
    + exists x. split; [done|apply same_purchase_refl].
Qed.

End Kept.

(** Asha's order of one silk saree, in the shop where every stock is
    at least 0: the same holds afterwards. *)
Lemma stock_never_negative_witness :
  Ledger.stock_nonneg (products Shop.placed)
  /\ Ledger.lines_positive (orders Shop.placed).
Proof.
  apply (stock_never_negative Shop.hmac Shop.json Shop.secrets Shop.env
           (Api.CreateOrder (Some 10%N) Shop.one_silk) Shop.store).
  - intros pid p H. unfold Shop.store, Shop.catalog in H. simpl in H.
    repeat (rewrite lookup_insert in H; case_decide;
            [injection H as <-; simpl; lia|]).
    by rewrite lookup_empty in H.
  - apply Forall_nil_2.
Defined.

(** Shipping Asha's order leaves its lines and its pricing alone. *)
Lemma orders_are_kept_witness :
  exists x,
    orders Shop.placed !! 0%nat = Some x
    /\ exists x',
         orders Shop.dispatched !! 0%nat = Some x' /\ Ledger.same_purchase x x'.
Proof.
  assert (NoDup (map _id (orders Shop.placed))) as Hnd.
  { apply NoDup_cons. split; [apply not_elem_of_nil|apply NoDup_nil_2]. }
  eexists.
  lazymatch goal with
  | |- ?l = Some ?x /\ _ => assert (l = Some x) as Hx by (vm_compute; reflexivity)
  end.
  split; [exact Hx|].
  exact (orders_are_kept Shop.hmac Shop.json Shop.secrets Shop.later
           (Api.UpdateOrderStatus 100%N shipped (Some "TRK1") None None)
           Shop.placed Hnd 0%nat _ Hx).
Defined.

(** *** A failed order creation *)

Section FailedCreation.
Import Js OrderModel Orders.




End FailedCreation.

(** *** Status updates and payment confirmations *)

Section Transitions.
Import Js OrderModel Orders Payment.
Context (hmac_sha256_hex : string -> string -> string)
        (JSON_stringify : WebhookBody -> string)
        (process_env : ProcessEnv).

Lemma notEmpty_truthy (x : option string) (s : string) :
  from_option notEmpty true x = true -> x = Some s ->
  from_option truthy false x = true.
Proof. intros H ->. exact H. Qed.

(** What writing a stored order back gives, under the indexes. *)
Lemma save_back (e : Env) (id : ObjectId) (order doc : Order) (db : list Order) :
  Spec.indexes_hold db -> findById id db = Some order ->
  _id doc = _id order -> orderNumber doc = orderNumber order ->
  exists saved,
    save e (Some order) doc db = Some (saved, replace_order saved db)
    /\ saved = set_timeline
                 (timeline doc ++
                    (if decide (status order = status doc) then []
                     else [Spec.entry_for e (status doc)]))
                 doc
    /\ findById id (replace_order saved db) = Some saved.
Proof.
  intros Hidx Hf Hid Hnum. pose proof Hf as [Hid' Hin]%findById_id.
  eexists. split; [by apply save_stored|].
  assert (pre_save e db (Some order) doc
          = set_timeline
              (timeline doc ++
                 (if decide (status order = status doc) then []
                  else [Spec.entry_for e (status doc)]))
              doc) as Hshape.
  { rewrite pre_save_shape. rewrite generate_number_stored.
    - unfold isModified_status. destruct doc. simpl.
      case_decide as Hs.
      + rewrite bool_decide_eq_false_2; [done|]. intros Hne. by apply Hne.
      + rewrite bool_decide_eq_true_2; done.
    - rewrite Hnum. destruct Hidx as (_ & _ & Hne). rewrite Forall_forall in Hne.
      by apply Hne. }
  split; [done|].
  apply findById_replace with (o := order); [done|].
  rewrite Hshape. simpl. congruence.
Qed.


(** X10. What an accepted [verifyPayment] writes. With the right signature
    and from the order's owner, the order is stored as confirmed with its
    payment completed, the gateway's ids, the signature and the time of the
    call recorded, and the payment method kept. The status before the call
    is not looked at -- a cancelled or a shipped order is set back to
    confirmed -- and the timeline gains an entry exactly when the status
    was not confirmed already. No stock moves. *)
Theorem verifyPayment_confirms (e : Env) (req_user : ObjectId) (b : VerifyBody)
    (st : Store) (key : string) (order : Order) :
  RAZORPAY_KEY_SECRET process_env = Some key ->
  razorpay_order_id b <> "" -> razorpay_payment_id b <> "" ->
  razorpay_signature b <> "" ->
  razorpay_signature b
  = hmac_sha256_hex key (razorpay_order_id b +:+ "|" +:+ razorpay_payment_id b) ->
  Spec.indexes_hold (orders st) ->
  findById (verify_orderId b) (orders st) = Some order ->
  user order = req_user ->
  exists saved st',
    verifyPayment hmac_sha256_hex process_env e req_user b st
    = (PaymentVerified saved, st')
    /\ findById (verify_orderId b) (orders st') = Some saved
    /\ status saved = confirmed
    /\ paymentInfo saved
       = mkPaymentInfo (method (paymentInfo order)) (transactionId (paymentInfo order))
           (Some (razorpay_payment_id b)) (Some (razorpay_order_id b))
           (Some (razorpay_signature b)) pay_completed (Some (now e))
           (failureReason (paymentInfo order))
    /\ timeline saved
       = timeline order ++
           (if decide (status order = confirmed) then []
            else [Spec.entry_for e confirmed])
    /\ products st' = products st
    /\ users st' = users st.
Proof.
  intros Hkey H1 H2 H3 Hsig Hidx Hf Hu. unfold verifyPayment.
  apply truthy_true in H1, H2, H3. unfold truthy in H1, H2, H3.
  unfold notEmpty. rewrite H1, H2, H3, Hkey. simpl.
  rewrite <- Hsig, String.eqb_refl, Hf, Hu, N.eqb_refl. simpl.
  set (doc := set_status _ _).
  destruct (save_back e (verify_orderId b) order doc (orders st) Hidx Hf eq_refl eq_refl)
    as (saved & -> & Hsaved & Hfind).
  eexists _, _. split; [reflexivity|]. simpl.
  split; [done|]. rewrite Hsaved. by split_and!.
Qed.

(** X11. [POST /cod/process] confirms a cash-on-delivery order of the
    requester whatever its status and payment status were: the order is
    stored as confirmed with its payment pending, and no stock moves. On
    an order that is not the requester's, or not cash on delivery, it
    answers with a 4xx and writes nothing. *)
Theorem processCod_effect (e : Env) (req_user id : ObjectId) (st : Store)
    (order : Order) :
  Spec.indexes_hold (orders st) ->
  findById id (orders st) = Some order ->
  let r := processCod e req_user id st in
  (user order = req_user -> method (paymentInfo order) = cod ->
   exists saved,
     r.1 = CodProcessed saved
     /\ findById id (orders r.2) = Some saved
     /\ status saved = confirmed
     /\ pay_status (paymentInfo saved) = pay_pending
     /\ method (paymentInfo saved) = cod
     /\ products r.2 = products st)
  /\ (user order <> req_user \/ method (paymentInfo order) <> cod ->
      r.2 = st /\ domain_error r.1 = true).
Proof.
  intros Hidx Hf. simpl. unfold processCod. rewrite Hf. split.
  - intros -> Hm. rewrite N.eqb_refl. simpl.
    rewrite bool_decide_eq_true_2 by done. simpl.
    set (doc := set_paymentInfo _ _).
    destruct (save_back e id order doc (orders st) Hidx Hf eq_refl eq_refl)
      as (saved & -> & Hsaved & Hfind).
    exists saved. simpl. split_and!; try done; by rewrite Hsaved.
  - intros [Hu|Hm].
    + apply N.eqb_neq in Hu. by rewrite Hu.
    + destruct (user order =? req_user)%N; simpl; [|done].
      by rewrite bool_decide_eq_false_2.
Qed.

Lemma findByPaymentOrderId_replace (oid : string) (db : list Order) (f f' : Order) :
  findByPaymentOrderId oid db = Some f ->
  _id f' = _id f -> orderId (paymentInfo f') = Some oid ->
  findByPaymentOrderId oid (replace_order f' db) = Some f'.
Proof.
  intros Hf Hid Hoid. unfold findByPaymentOrderId, replace_order in *.
  induction db as [|x db IH]; simpl in *; [done|].
  destruct (_id x =? _id f')%N eqn:Hx; simpl.
  - by rewrite bool_decide_eq_true_2.
  - destruct (bool_decide (orderId (paymentInfo x) = Some oid)) eqn:Hm.
    + injection Hf as ->. rewrite Hid, N.eqb_refl in Hx. done.
    + by apply IH.
Qed.

Lemma replace_order_again (o : Order) (db : list Order) :
  replace_order o (replace_order o db) = replace_order o db.
Proof.
  unfold replace_order. rewrite map_map. apply map_ext. intros x.
  destruct (_id x =? _id o)%N eqn:Hx; [by rewrite N.eqb_refl|by rewrite Hx].
Qed.

(** X12. A webhook delivery can be repeated: under the indexes, handling
    the same delivery a second time -- at any later moment -- leaves the
    store exactly as the first handling left it. A [payment.failed] event
    writes the same status and reason again, and no timeline entry is
    added since the order's status does not change. *)
Theorem webhook_redelivery (e e' : Env) (webhookSignature : option string)
    (body : WebhookBody) (st : Store) :
  Spec.indexes_hold (orders st) ->
  let handled :=
    handlePaymentWebhook hmac_sha256_hex JSON_stringify process_env e
      webhookSignature body st in
  handlePaymentWebhook hmac_sha256_hex JSON_stringify process_env e'
    webhookSignature body handled.2
  = (handled.1, handled.2).
Proof.
  intros Hidx. simpl. unfold handlePaymentWebhook.
  destruct (webhook_rejected _ _ _ _ _) eqn:Hrej; cbn [fst snd]; [done|].
  destruct (String.eqb (event body) "payment.failed") eqn:Hev; cbn [fst snd];
    [|done].
  destruct (findByPaymentOrderId _ (orders st)) as [f|] eqn:Hf; cbn [fst snd].
  2: by rewrite Hf.
  pose proof Hf as [Hin Hoid]%findByPaymentOrderId_Some.
  set (doc := set_paymentInfo _ f).
  rewrite (save_stored e f doc (orders st)) by done. cbn [fst snd].
  unfold with_orders at 1. cbn [orders].
  set (f' := pre_save e (orders st) (Some f) doc).
  assert (f' = doc) as Hf'.
  { unfold f'. rewrite pre_save_shape. rewrite generate_number_stored.
    - unfold isModified_status. rewrite bool_decide_eq_false_2.
      + destruct f. unfold doc. simpl. unfold set_timeline, set_orderNumber. simpl.
        by rewrite app_nil_r.
      + intros Hne. by apply Hne.
    - destruct Hidx as (_ & _ & Hne). rewrite Forall_forall in Hne.
      by apply (Hne f). }
  rewrite (findByPaymentOrderId_replace _ _ f f' Hf).
  2: by rewrite Hf'.
  2: by rewrite Hf'.
  assert (Spec.indexes_hold (replace_order f' (orders st))) as Hidx'.
  { pose proof (handle_keeps_indexes hmac_sha256_hex JSON_stringify process_env e
                  (Api.PaymentWebhook webhookSignature body) st Hidx) as H.
    simpl in H. unfold handlePaymentWebhook in H.
    rewrite Hrej, Hev, Hf in H. fold doc in H.
    rewrite (save_stored e f doc (orders st)) in H by done. exact H. }
  assert (set_paymentInfo
            (set_failureReason (error_description (entity body))
               (set_pay_status pay_failed (paymentInfo f'))) f' = f') as ->.
  { rewrite Hf'. unfold doc. by destruct f. }
  change (orders (with_orders (replace_order f' (orders st)) st))
    with (replace_order f' (orders st)).
  rewrite (save_stored e' f' f' (replace_order f' (orders st))); try done.
  - assert (pre_save e' (replace_order f' (orders st)) (Some f') f' = f') as ->.
    { rewrite pre_save_shape. rewrite generate_number_stored.
      - unfold isModified_status. rewrite bool_decide_eq_false_2.
        + destruct f'. unfold set_timeline, set_orderNumber. simpl.
          by rewrite app_nil_r.
        + intros Hne. by apply Hne.
      - destruct Hidx' as (_ & _ & Hne). rewrite Forall_forall in Hne.
        apply (Hne f'). apply replace_order_self. exists f.
        split; [done|by rewrite Hf']. }
    unfold with_orders. simpl. by rewrite replace_order_again.
  - apply replace_order_self. exists f. split; [done|by rewrite Hf'].
Qed.

End Transitions.

Section TransitionExamples.
Import Js OrderModel Orders Payment.

Lemma placed_indexes : Spec.indexes_hold (orders Shop.placed).
Proof.
  apply (handle_keeps_indexes Shop.hmac Shop.json Shop.secrets Shop.env
           (Api.CreateOrder (Some 10%N) Shop.one_silk) Shop.store).
  split_and!; [apply NoDup_nil_2|apply NoDup_nil_2|apply Forall_nil_2].
Qed.

Lemma placed_cash_indexes : Spec.indexes_hold (orders Examples.placed_cash).
Proof.
  apply (handle_keeps_indexes Shop.hmac Shop.json Shop.secrets Shop.env
           (Api.CreateOrder (Some 10%N) Examples.one_silk_cash) Shop.store).
  split_and!; [apply NoDup_nil_2|apply NoDup_nil_2|apply Forall_nil_2].
Qed.


(** The gateway's confirmation of Asha's payment. *)
Lemma verifyPayment_confirms_witness :
  exists saved st',
    verifyPayment Shop.hmac Shop.secrets Shop.later 10%N Shop.confirmation
      Shop.placed = (PaymentVerified saved, st')
    /\ status saved = confirmed
    /\ pay_status (paymentInfo saved) = pay_completed
    /\ products st' = products Shop.placed.
Proof.
  destruct (verifyPayment_confirms Shop.hmac Shop.secrets Shop.later 10%N
              Shop.confirmation Shop.placed "key" _ eq_refl
              ltac:(discriminate) ltac:(discriminate) ltac:(discriminate)
              eq_refl placed_indexes eq_refl eq_refl)
    as (saved & st' & Hrun & _ & Hs & Hp & _ & Hprod & _).
  exists saved, st'. split_and!; [exact Hrun|exact Hs| |exact Hprod].
  by rewrite Hp.
Defined.

(** Asha's cash-on-delivery order is processed. *)
Lemma processCod_effect_witness :
  exists saved,
    (processCod Shop.later 10%N 100%N Examples.placed_cash).1 = CodProcessed saved
    /\ status saved = confirmed
    /\ pay_status (paymentInfo saved) = pay_pending.
Proof.
  destruct (processCod_effect Shop.later 10%N 100%N Examples.placed_cash _
              placed_cash_indexes eq_refl) as [H _].
  destruct (H eq_refl eq_refl) as (saved & Hrun & _ & Hs & Hp & _).
  exists saved. split_and!; [exact Hrun|exact Hs|exact Hp].
Defined.

(** The [payment.failed] event of the shop, delivered twice. *)
Lemma webhook_redelivery_witness :
  let handled :=
    handlePaymentWebhook Shop.hmac Shop.json Shop.no_webhook_secret Shop.later
      None Shop.failure Shop.paid in
  handlePaymentWebhook Shop.hmac Shop.json Shop.no_webhook_secret Shop.later
    None Shop.failure handled.2
  = (handled.1, handled.2).
Proof.
  exact (webhook_redelivery Shop.hmac Shop.json Shop.no_webhook_secret Shop.later
           Shop.later None Shop.failure Shop.paid paid_indexes).
Defined.

End TransitionExamples.

(** *** Reading orders *)

Section Reading.
Import Js OrderModel OrderQueries.

(** X13. Who may read an order. [getOrder] answers with the order exactly
    when the order exists, its owner is still a user, and the requester is
    the owner or an admin; a requester who is neither gets 403 'Not
    authorized to view this order', and an order whose owner has been
    deleted cannot be read by anyone (the answer is 500). *)
Theorem getOrder_access (req_user : ObjectId) (req_role : Role) (id : ObjectId)
    (st : Store) :
  (forall o,
      getOrder req_user req_role id st = OrderFound o
      <-> findById id (orders st) = Some o
          /\ is_Some (users st !! user o)
          /\ (user o = req_user \/ req_role = admin))
  /\ (forall o,
        findById id (orders st) = Some o ->
        is_Some (users st !! user o) ->
        user o <> req_user -> req_role <> admin ->
        getOrder req_user req_role id st = NotAuthorized)
  /\ (forall o,
        findById id (orders st) = Some o -> users st !! user o = None ->
        getOrder req_user req_role id st = ServerError).
Proof.
  unfold getOrder. split_and!.
  - intros o. destruct (findById id (orders st)) as [order|]; [|split; [done|by intros [? _]]].
    destruct (users st !! user order) as [u|] eqn:Hu.
    + destruct (user order =? req_user)%N eqn:Heq; simpl.
      * apply N.eqb_eq in Heq. split.
        -- intros [= <-]. rewrite Hu. split_and!; [done|by eexists|by left].
        -- by intros ([= <-] & _).
      * apply N.eqb_neq in Heq.
        destruct (decide (req_role = admin)) as [->|Hr]; simpl.
        -- split.
           ++ intros [= <-]. rewrite Hu. split_and!; [done|by eexists|by right].
           ++ by intros ([= <-] & _).
        -- rewrite bool_decide_eq_false_2 by done. simpl. split; [done|].
           intros ([= <-] & _ & [?|?]); done.
    + split; [done|]. intros ([= <-] & [? Hs] & _). congruence.
  - intros o -> [u ->] Hu Hr.
    apply N.eqb_neq in Hu. rewrite Hu. by rewrite bool_decide_eq_false_2.
  - by intros o -> ->.
Qed.

Lemma Math_ceil_div_spec (a b : Z) :
  0 < b -> (Math_ceil_div a b - 1) * b < a <= Math_ceil_div a b * b.
Proof.
  intros Hb. unfold Math_ceil_div.
  pose proof (Z.div_mod (a + b - 1) b ltac:(lia)) as Hdm.
  pose proof (Z.mod_pos_bound (a + b - 1) b Hb) as Hm.
  generalize dependent ((a + b - 1) / b). generalize dependent ((a + b - 1) mod b).
  intros r Hr q Hq. nia.
Qed.

(** The age of an order in days is the least number of whole days that
    covers the time between its creation and now, whichever of the two
    comes first. *)
Lemma orderAge_spec (now createdAt : Z) :
  let day := 86400000 in
  let age := orderAge now createdAt in
  (age - 1) * day < Z.abs (now - createdAt) <= age * day.
Proof.
  cbv zeta. unfold orderAge. change (1000 * 60 * 60 * 24) with 86400000.
  apply Math_ceil_div_spec. lia.
Qed.

(** X14. The virtual [orderAge]: the least number of whole days that
    covers the time between the creation of the order and the moment of
    reading -- 0 only at the very millisecond of creation, 1 up to 24 hours
    later, 2 from the next millisecond on -- and the same for a clock that
    runs behind the creation time as for one that runs ahead of it. *)
Theorem orderAge_days (now createdAt : Z) :
  let day := 86400000 in
  let age := orderAge now createdAt in
  (age - 1) * day < Z.abs (now - createdAt) <= age * day
  /\ (age = 0 <-> now = createdAt)
  /\ orderAge createdAt now = age.
Proof.
  cbv zeta. pose proof (orderAge_spec now createdAt) as H. cbv zeta in H.
  split; [exact H|]. split; [lia|].
  unfold orderAge. f_equal. lia.
Qed.

Lemma pages_tile {A : Type} (k : nat) (n : nat) :
  forall l : list A,
    (0 < k)%nat -> (length l <= n * k)%nat ->
    concat (map (fun i => take k (drop (i * k) l)) (seq 0 n)) = l.
Proof.
  induction n as [|n IH]; intros l Hk Hlen; simpl.
  - destruct l; [done|simpl in Hlen; lia].
  - rewrite <- seq_shift, map_map.
    rewrite (map_ext _ (fun i => take k (drop (i * k) (drop k l)))).
    + assert (length (drop k l) <= n * k)%nat as Hlen'
        by (rewrite length_drop; lia).
      rewrite (IH (drop k l) Hk Hlen'). apply take_drop.
    + intros i. by rewrite drop_drop.
Qed.

Lemma in_filter_user (req_user : ObjectId) (query_status : option string)
    (o : Order) :
  in_filter req_user query_status o = true -> user o = req_user.
Proof. unfold in_filter. intros [H _]%andb_true_iff. by apply N.eqb_eq. Qed.

(** X15. The pages of [GET /api/orders] tile the result: for a page size
    that passes validation (1 to 50, 10 when none is sent), the pages 1 to
    [totalPages], read one after the other, give every order of the
    requester that matches the status filter, each once, newest first --
    none is skipped and none is repeated. *)
Theorem listOrders_pages_tile (req_user : ObjectId) (query_limit : QueryInt)
    (query_status : option string) (st : Store) :
  optional_isInt 1 (Some 50) query_limit = true ->
  let pages :=
    Z.to_nat (announced_pages (listOrders req_user Absent query_limit query_status st)) in
  concat
    (map (fun p =>
            listed (listOrders req_user (Numeral (Z.of_nat p)) query_limit
                      query_status st))
       (seq 1 pages))
  = find_sorted req_user query_status (orders st).
Proof.
  intros Hv. simpl. unfold listOrders. rewrite Hv. simpl.
  set (limit := parseInt_or query_limit 10).
  assert (1 <= limit) as Hlimit.
  { unfold limit. destruct query_limit as [|n|]; simpl in *; [lia| |done].
    apply andb_true_iff in Hv as [Hv _]. apply Z.leb_le in Hv.
    destruct (n =? 0) eqn:Hn; [apply Z.eqb_eq in Hn|]; lia. }
  set (found := find_sorted req_user query_status (orders st)).
  pose proof (Math_ceil_div_spec (Z.of_nat (length found)) limit ltac:(lia)) as Hc.
  set (n := Math_ceil_div (Z.of_nat (length found)) limit) in *.
  transitivity
    (concat (map (fun i => take (Z.to_nat limit) (drop (i * Z.to_nat limit) found))
               (seq 0 (Z.to_nat n)))); [|apply pages_tile; [lia|nia]].
  rewrite <- seq_shift, map_map. f_equal. apply map_ext_in. intros i Hi.
  assert ((1 <=? Z.of_nat (S i)) = true) as -> by (apply Z.leb_le; lia).
  assert ((Z.of_nat (S i) =? 0) = false) as -> by (apply Z.eqb_neq; lia).
  simpl. f_equal. f_equal. nia.
Qed.

(** Asha's one order, listed ten to a page: one page, with the order. *)
Lemma listOrders_pages_tile_witness :
  concat
    (map (fun p =>
            listed (listOrders 10%N (Numeral (Z.of_nat p)) Absent None Shop.placed))
       (seq 1 (Z.to_nat (announced_pages
                           (listOrders 10%N Absent Absent None Shop.placed)))))
  = find_sorted 10%N None (orders Shop.placed).
Proof.
  exact (listOrders_pages_tile 10%N Absent None Shop.placed eq_refl).
Defined.

(** X16. What a listing announces. A listing holds at most [limit] orders,
    with [limit] between 1 and 50, all of them the requester's and of the
    status asked for; [totalOrders] counts the orders that match,
    [totalPages] is the least number of pages of that size that hold them,
    [hasNextPage] says that matching orders remain behind this page, and
    [hasPrevPage] that the page is not the first. *)
Theorem listOrders_pagination (req_user : ObjectId)
    (query_page query_limit : QueryInt) (query_status : option string)
    (st : Store) (l : list Order) (p : Pagination) :
  listOrders req_user query_page query_limit query_status st = OrderList l p ->
  let found := find_sorted req_user query_status (orders st) in
  1 <= currentPage p /\ 1 <= limit p <= 50
  /\ (length l <= Z.to_nat (limit p))%nat
  /\ l `sublist_of` found
  /\ Forall (fun o => user o = req_user) l
  /\ (forall s, query_status = Some s -> s <> "" ->
        Forall (fun o => status_string (status o) = s) l)
  /\ totalOrders p = Z.of_nat (length found)
  /\ (totalPages p - 1) * limit p < totalOrders p <= totalPages p * limit p
  /\ (hasNextPage p = true <-> currentPage p * limit p < totalOrders p)
  /\ (hasPrevPage p = true <-> 1 < currentPage p).
Proof.
  unfold listOrders.
  destruct (optional_isInt 1 None query_page) eqn:Hp; simpl; [|done].
  destruct (optional_isInt 1 (Some 50) query_limit) eqn:Hl; simpl; [|done].
  intros [= <- <-]. simpl.
  set (limit := parseInt_or query_limit 10).
  set (page := parseInt_or query_page 1).
  assert (1 <= limit <= 50) as Hlimit.
  { unfold limit. destruct query_limit as [|n|]; simpl in *; [lia| |done].
    apply andb_true_iff in Hl as [H1 H2]. apply Z.leb_le in H1, H2.
    destruct (n =? 0) eqn:Hn; [apply Z.eqb_eq in Hn|]; lia. }
  assert (1 <= page) as Hpage.
  { unfold page. destruct query_page as [|n|]; simpl in *; [lia| |done].
    apply andb_true_iff in Hp as [H1 _]. apply Z.leb_le in H1.
    destruct (n =? 0) eqn:Hn; [apply Z.eqb_eq in Hn|]; lia. }
  set (found := find_sorted req_user query_status (orders st)).
  pose proof (Math_ceil_div_spec (Z.of_nat (length found)) limit ltac:(lia)) as Hc.
  assert (take (Z.to_nat limit) (drop (Z.to_nat ((page - 1) * limit)) found)
          `sublist_of` found) as Hsub.
  { etrans; [apply sublist_take|apply sublist_drop]. }
  assert (Forall (fun o => in_filter req_user query_status o = true) found) as Hall.
  { apply Forall_forall. intros o Ho. unfold found, find_sorted in Ho.
    apply list_elem_of_In, filter_In in Ho as [_ Ho]. done. }
  split; [exact Hpage|]. split; [exact Hlimit|].
  split; [rewrite length_take; lia|]. split; [exact Hsub|].
  split.
  { apply Forall_forall. intros o Ho.
    apply (elem_of_sublist _ _ _ Ho) in Hsub.
    rewrite Forall_forall in Hall. by apply (in_filter_user _ query_status), Hall. }
  split.
  { intros s -> Hs. apply Forall_forall. intros o Ho.
    apply (elem_of_sublist _ _ _ Ho) in Hsub.
    rewrite Forall_forall in Hall. apply Hall in Hsub. unfold in_filter in Hsub.
    apply andb_true_iff in Hsub as [_ H]. apply truthy_true in Hs.
    rewrite Hs in H. by apply String.eqb_eq. }
  split; [reflexivity|]. split; [exact Hc|].
  split; [rewrite Z.ltb_lt; nia|by rewrite Z.ltb_lt].
Qed.

(** The first page of Asha's orders: one order, no other page. *)
Lemma listOrders_pagination_witness :
  exists l p,
    listOrders 10%N Absent Absent None Shop.placed = OrderList l p
    /\ Forall (fun o => user o = 10%N) l
    /\ totalOrders p = 1 /\ hasNextPage p = false.
Proof.
  eexists _, _.
  lazymatch goal with
  | |- ?run = ?res /\ _ => assert (run = res) as Hrun by (vm_compute; reflexivity)
  end.
  split; [exact Hrun|].
  destruct (listOrders_pagination _ _ _ _ _ _ _ Hrun)
    as (_ & _ & _ & _ & Hu & _).
  split; [exact Hu|]. split; reflexivity.
Defined.

End Reading.

(** *** The cart *)

Section CartFacts.
Import Js Orders Cart.





Lemma populated_Some (db : gmap N Product) (item : CartItem)
    (ip : CartItem * Product) :
  populated db item = Some ip ->
  ip.1 = item /\ db !! cart_product item = Some ip.2
  /\ isActive ip.2 = true /\ 0 < stock ip.2.
Proof.
  unfold populated. destruct (db !! cart_product item) as [p|]; [|done].
  destruct (isActive p) eqn:Ha; simpl; [|done].
  destruct (0 <? stock p) eqn:Hs; [|done]. intros [= <-].
  apply Z.ltb_lt in Hs. done.
Qed.

(** What the cart shows and what an order of the same lines records. *)
Lemma cart_lines_total (db : gmap N Product) (items : list (CartItem * Product)) :
  forall (new : list OrderItem) (a n : Z),
    map item_product new = map (fun ip => cart_product ip.1) items ->
    map quantity new = map (fun ip => cart_quantity ip.1) items ->
    Forall (Spec.snapshot_of db) new ->
    Forall (fun ip => db !! cart_product ip.1 = Some ip.2) items ->
    foldl (fun total item => total + price item.2 * cart_quantity item.1) a items
    = a + Spec.lines_total (Spec.lines_of new)
    /\ foldl (fun total item => total + cart_quantity item.1) n items
       = n + foldr (fun it acc => quantity it + acc) 0 new.
Proof.
  induction items as [|[l p] items IH]; intros [|it new] a n; simpl; try done.
  - intros _ _ _ _. lia.
  - intros [= Hp Hps] [= Hq Hqs] [Hit Hnew]%Forall_cons [Hl Hitems]%Forall_cons.
    simpl in *.
    destruct (IH new (a + price p * cart_quantity l) (n + cart_quantity l)
                Hps Hqs Hnew Hitems) as [-> ->].
    destruct Hit as (p' & Hp' & _ & _ & Hprice).
    rewrite Hp, Hl in Hp'. injection Hp' as <-. rewrite Hprice, Hq. lia.
Qed.

(** X18. The cart shows what the order will charge. When the requester
    orders the lines that [GET /api/cart] shows -- those whose product
    exists, is active and has stock -- and the order is accepted, the
    subtotal of the order is the subtotal of the cart's summary, and the
    order holds as many pieces as the summary counts. *)
Theorem cart_checkout_subtotal (e : Env) (uid : ObjectId) (b : Body)
    (st st' : Store) (shown : list (CartItem * Product)) (summary : Summary)
    (o : Order) :
  getCart uid st = CartFetched shown summary ->
  body_items b = checkout (map fst shown) ->
  createOrder e (Some uid) b st = (OrderCreated o, st') ->
  subtotal (pricing o) = summary_subtotal summary
  /\ summary_total summary = summary_subtotal summary
  /\ foldr (fun it acc => quantity it + acc) 0 (items o) = totalItems summary.
Proof.
  unfold getCart. intros Hcart Hitems Hc.
  destruct (users st !! uid) as [user|]; [|done].
  injection Hcart as <- <-. simpl.
  pose proof Hc as Hdoc.
  apply createOrder_document in Hdoc as (uid' & ois & sub & _ & Ho & _).
  apply createOrder_created in Hc
    as (uid'' & u & ois' & sub' & db & _ & _ & Hloop & _ & Hsave & _).
  apply save_Some in Hsave as [Ho' _]. rewrite pre_save_shape in Ho'.
  assert (items o = ois' /\ pricing o = price_order sub' (body_coupon b))
    as [-> ->] by (by rewrite Ho').
  pose proof Hloop as Hsnap.
  apply (order_loop_snapshot (products st)) in Hsnap; [| |by apply Forall_nil].
  2: { intros k p' Hk. unfold findActive in Hk.
       apply map_lookup_filter_Some in Hk as [Hk [_ Hact]]. by exists p'. }
  apply order_loop_lines in Hloop as (new & -> & -> & Hp & Hq). simpl in *.
  set (shown := omap (populated (products st)) (cart user)) in *.
  assert (Forall (fun ip => products st !! cart_product ip.1 = Some ip.2) shown)
    as Hshown.
  { apply Forall_forall. intros ip Hip. unfold shown in Hip.
    apply list_elem_of_omap in Hip as (l & _ & Hl).
    apply populated_Some in Hl as (<- & Hl & _). done. }
  rewrite Hitems in Hp, Hq. unfold checkout in Hp, Hq.
  rewrite !map_map in Hp, Hq. simpl in Hp, Hq.
  destruct (cart_lines_total (products st) shown new 0 0 Hp Hq Hsnap Hshown)
    as [-> ->].
  split_and!; [lia|done|lia].
Qed.

(** Asha orders the one silk saree that her cart shows: 500. *)
Lemma cart_checkout_subtotal_witness :
  exists shown summary o st',
    getCart 10%N Shop.store = CartFetched shown summary
    /\ createOrder Shop.env (Some 10%N) Shop.one_silk Shop.store
       = (OrderCreated o, st')
    /\ summary_subtotal summary = 500
    /\ subtotal (pricing o) = summary_subtotal summary.
Proof.
  eexists _, _, _, _.
  lazymatch goal with
  | |- ?run = ?res /\ ?run' = ?res' /\ _ =>
      assert (run = res) as Hcart by (vm_compute; reflexivity);
      assert (run' = res') as Hrun by (vm_compute; reflexivity)
  end.
  split; [exact Hcart|]. split; [exact Hrun|]. split; [reflexivity|].
  exact (proj1 (cart_checkout_subtotal Shop.env 10%N Shop.one_silk Shop.store
                  _ _ _ _ Hcart eq_refl Hrun)).
Defined.

(** *** Merging a local cart *)













End CartFacts.

(** *** The default address *)

Section DefaultAddress.
Import Js Orders Addresses.

Lemma defaults_app (l1 l2 : list SavedAddress) :
  defaults (l1 ++ l2) = (defaults l1 + defaults l2)%nat.
Proof. unfold defaults. by rewrite List.filter_app, length_app. Qed.

Lemma defaults_cons (a : SavedAddress) (l : list SavedAddress) :
  defaults (a :: l) = ((if isDefault a then 1 else 0) + defaults l)%nat.
Proof. unfold defaults. simpl. by destruct (isDefault a). Qed.

Lemma defaults_unmarked (l : list SavedAddress) : defaults (map unmarked l) = 0%nat.
Proof. induction l as [|a l IH]; [done|]. simpl. by rewrite defaults_cons, IH. Qed.

Lemma defaults_le_length (l : list SavedAddress) : (defaults l <= length l)%nat.
Proof.
  induction l as [|a l IH]; [done|]. rewrite defaults_cons. simpl.
  destruct (isDefault a); lia.
Qed.

Lemma unmark_before (k : nat) :
  forall l : list SavedAddress,
    imap (fun index addr =>
            if (index <? k)%nat then set_isDefault false addr else addr) l
    = map unmarked (take k l) ++ drop k l.
Proof.
  induction k as [|k IH]; intros l.
  - simpl. rewrite drop_0.
    rewrite (imap_ext _ (const id) l) by done.
    rewrite imap_const. apply list_fmap_id.
  - destruct l as [|a l]; [done|]. rewrite imap_cons. simpl. f_equal.
    rewrite <- IH. apply imap_ext. intros i x _. simpl. done.
Qed.

Lemma ensure_one_default_many (l : list SavedAddress) :
  (1 < defaults l)%nat ->
  ensure_one_default l
  = map unmarked (take (length l - 1) l) ++ drop (length l - 1) l.
Proof.
  intros H. unfold ensure_one_default.
  pose proof (defaults_le_length l).
  assert ((0 <? length l)%nat = true) as -> by (apply Nat.ltb_lt; lia).
  fold (defaults l).
  assert ((1 <? defaults l)%nat = true) as -> by by apply Nat.ltb_lt.
  apply unmark_before.
Qed.

Lemma ensure_one_default_few (l : list SavedAddress) :
  (defaults l <= 1)%nat -> ensure_one_default l = l.
Proof.
  intros H. unfold ensure_one_default. fold (defaults l).
  assert ((1 <? defaults l)%nat = false) as -> by (apply Nat.ltb_ge; lia).
  by destruct (0 <? length l)%nat.
Qed.

Lemma ensure_one_default_le (l : list SavedAddress) :
  (defaults (ensure_one_default l) <= 1)%nat.
Proof.
  destruct (decide (defaults l <= 1)%nat) as [H|H].
  - by rewrite ensure_one_default_few.
  - rewrite ensure_one_default_many by lia.
    rewrite defaults_app, defaults_unmarked.
    pose proof (defaults_le_length (drop (length l - 1) l)) as Hd.
    rewrite length_drop in Hd. lia.
Qed.

(** X21. The hook 'Ensure only one default address' of the user model:
    after it -- that is, after every save of a user -- at most one address
    is marked as the default. It changes nothing but marks, and nothing at
    all when at most one address was marked. When several were marked it
    unmarks every address but the last of the list, so that the one address
    that can still be the default is the last one -- and only if it was
    marked: the default is lost when it was not. *)
Theorem ensure_one_default_spec (l : list SavedAddress) :
  let l' := ensure_one_default l in
  (defaults l' <= 1)%nat
  /\ map unmarked l' = map unmarked l
  /\ ((defaults l <= 1)%nat -> l' = l)
  /\ ((1 < defaults l)%nat ->
      forall i a,
        l' !! i = Some a -> isDefault a = true ->
        S i = length l /\ l !! i = Some a).
Proof.
  simpl. split_and!.
  - apply ensure_one_default_le.
  - destruct (decide (defaults l <= 1)%nat) as [H|H].
    + by rewrite ensure_one_default_few.
    + rewrite ensure_one_default_many by lia.
      rewrite map_app, map_map.
      rewrite (map_ext (fun x => unmarked (unmarked x)) unmarked) by done.
      rewrite <- map_app. by rewrite take_drop.
  - apply ensure_one_default_few.
  - intros H i a Hi Ha. rewrite ensure_one_default_many in Hi by done.
    destruct (decide (i < length l - 1)%nat) as [Hlt|Hge].
    + rewrite lookup_app_l in Hi by (rewrite length_map, length_take; lia).
      apply list_lookup_fmap_Some in Hi as (x & -> & _). done.
    + rewrite lookup_app_r in Hi by (rewrite length_map, length_take; lia).
      rewrite length_map, length_take in Hi.
      rewrite lookup_drop in Hi.
      pose proof (lookup_lt_Some _ _ _ Hi) as Hlen.
      assert (i = length l - 1)%nat as -> by lia.
      replace (length l - 1 + (length l - 1 - (length l - 1) `min` length l))%nat
        with (length l - 1)%nat in Hi by lia.
      split; [lia|done].
Qed.

Lemma ensure_one_default_ids (l : list SavedAddress) :
  map address_id (ensure_one_default l) = map address_id l.
Proof.
  destruct (decide (defaults l <= 1)%nat) as [H|H].
  - by rewrite ensure_one_default_few.
  - rewrite ensure_one_default_many by lia.
    rewrite map_app, map_map. simpl. rewrite <- map_app. by rewrite take_drop.
Qed.

Lemma ensure_one_default_length (l : list SavedAddress) :
  length (ensure_one_default l) = length l.
Proof.
  rewrite <- (length_map address_id), ensure_one_default_ids. apply length_map.
Qed.


Lemma find_address_defaults (id : ObjectId) (l : list SavedAddress)
    (a : SavedAddress) :
  NoDup (map address_id l) -> find_address id l = Some a ->
  (defaults (List.filter (fun x => negb (address_id x =? id)%N) l)
   + (if isDefault a then 1 else 0))%nat
  = defaults l.
Proof.
  unfold find_address. induction l as [|x l IH]; simpl; [done|].
  rewrite NoDup_cons. intros [Hx Hnd].
  destruct (address_id x =? id)%N eqn:Hid; simpl.
  - intros [= ->]. apply N.eqb_eq in Hid. rewrite defaults_cons.
    assert (List.filter (fun x => negb (address_id x =? id)%N) l = l) as ->; [|lia].
    clear -Hx Hid. induction l as [|y l IH]; simpl; [done|].
    simpl in Hx. apply not_elem_of_cons in Hx as [Hy Hx].
    assert ((address_id y =? id)%N = false) as -> by (apply N.eqb_neq; congruence).
    simpl. f_equal. by apply IH.
  - intros H. rewrite !defaults_cons. rewrite <- (IH Hnd H). lia.
Qed.

Lemma mark_first_ids (l : list SavedAddress) :
  map address_id (mark_first l) = map address_id l.
Proof. by destruct l. Qed.

Lemma filter_ids (id : ObjectId) (l : list SavedAddress) :
  map address_id (List.filter (fun x => negb (address_id x =? id)%N) l)
  = List.filter (fun i => negb (i =? id)%N) (map address_id l).
Proof.
  induction l as [|x l IH]; simpl; [done|].
  destruct (address_id x =? id)%N; simpl; [done|]. by f_equal.
Qed.

(** X23. Deleting an address keeps the default in order. An accepted
    [DELETE /api/users/addresses/:addressId] stores the addresses without
    those of that id, with at most one marked as the default; when the
    ids are distinct and exactly one address was marked, exactly one is
    marked afterwards unless none is left: if the default itself was
    deleted, the first of the remaining addresses takes over. *)
Theorem deleteAddress_default (req_user addressId : ObjectId)
    (db db' : gmap N (list SavedAddress)) :
  deleteAddress req_user addressId db = (AddressDeleted, db') ->
  exists l l',
    db !! req_user = Some l
    /\ db' = <[req_user := l']> db
    /\ map address_id l'
       = List.filter (fun i => negb (i =? addressId)%N) (map address_id l)
    /\ (defaults l' <= 1)%nat
    /\ (NoDup (map address_id l) -> defaults l = 1%nat -> l' <> [] ->
        defaults l' = 1%nat).
Proof.
  unfold deleteAddress.
  destruct (db !! req_user) as [l|] eqn:Hl; [|done].
  destruct (find_address addressId l) as [a|] eqn:Hfind; [|done].
  set (removed := List.filter _ l).
  set (remaining := if isDefault a && (0 <? length removed)%nat
                    then mark_first removed else removed).
  intros [= <-]. exists l, (ensure_one_default remaining).
  assert (map address_id remaining = map address_id removed) as Hids.
  { unfold remaining. destruct (_ && _); [apply mark_first_ids|done]. }
  split_and!; try done.
  - rewrite ensure_one_default_ids, Hids. apply filter_ids.
  - apply ensure_one_default_le.
  - intros Hnd Hone Hne.
    pose proof (find_address_defaults addressId l a Hnd Hfind) as Hd.
    fold removed in Hd.
    assert (defaults remaining = 1%nat) as Hr.
    { unfold remaining. destruct (isDefault a); simpl.
      - destruct removed as [|x r] eqn:Hrem.
        + exfalso. apply Hne. unfold remaining.
          by rewrite ensure_one_default_few.
        + simpl. rewrite defaults_cons in Hd |- *. simpl.
          destruct (isDefault x); lia.
      - lia. }
    rewrite ensure_one_default_few; lia.
Qed.






(** Asha deletes her home address, the default: the office takes over. *)
Lemma deleteAddress_default_witness :
  exists db' l',
    deleteAddress 10%N 1%N Examples.address_book = (AddressDeleted, db')
    /\ db' !! 10%N = Some l'
    /\ map address_id l' = [2%N]
    /\ defaults l' = 1%nat.
Proof.
  assert (deleteAddress 10%N 1%N Examples.address_book
          = (AddressDeleted, (deleteAddress 10%N 1%N Examples.address_book).2))
    as Hrun by (vm_compute; reflexivity).
  destruct (deleteAddress_default _ _ _ _ Hrun)
    as (l & l' & Hl & Hdb & Hids & _ & Hone).
  injection Hl as <-.
  exists (deleteAddress 10%N 1%N Examples.address_book).2, l'.
  split; [exact Hrun|]. split; [rewrite Hdb; apply lookup_insert_eq|].
  split; [exact Hids|]. apply Hone.
  - apply NoDup_cons. split; [|apply NoDup_singleton].
    intros [=]%list_elem_of_singleton.
  - reflexivity.
  - intros ->. discriminate Hids.
Defined.


End DefaultAddress.

(** *** Tags *)

Section Tags.
Import Js Catalog.


















(** ' silk , wedding,,zari ' is read as three tags. *)
Example parseTags_example :
  parseTags " silk , wedding,,zari " = ["silk"; "wedding"; "zari"].
Proof. reflexivity. Qed.

End Tags.

(** *** Reviews *)

Section Reviews.
Import Js Orders Catalog.

Lemma find_review_None (uid : ObjectId) (l : list Review) :
  List.find (fun review => (review_user review =? uid)%N) l = None
  <-> uid ∉ map review_user l.
Proof.
  induction l as [|x l IH]; simpl.
  - split; [intros _; apply not_elem_of_nil|done].
  - destruct (review_user x =? uid)%N eqn:Hx.
    + apply N.eqb_eq in Hx. split; [done|]. intros H. exfalso. apply H.
      rewrite Hx. apply list_elem_of_here.
    + apply N.eqb_neq in Hx. rewrite IH, not_elem_of_cons.
      split; [intros H; split; [congruence|done]|by intros [_ H]].
Qed.

(** X26. One review per user. An accepted review is appended to the
    product's reviews with the requester's name, a rating from 1 to 5 and
    the time of the call, and the save recounts: [ratings.count] is the
    number of reviews. The requester had no review of the product before,
    so that reviewers stay distinct; and once the review is stored, no
    further review of that product by the same user is accepted -- whatever
    it says, it changes nothing. A request that is not accepted writes
    nothing. *)
Theorem addReview_once (now : N) (req_user : ObjectId) (req_fullName : string)
    (id : ObjectId) (body_rating : Z) (body_comment : string)
    (db : gmap N Rated) :
  let r := addReview now req_user req_fullName id body_rating body_comment db in
  (r.1 = ReviewAdded ->
   exists p p',
     db !! id = Some p
     /\ r.2 = <[id := p']> db
     /\ reviews p'
        = reviews p ++ [mkReview req_user req_fullName body_rating body_comment now]
     /\ ratings_count p' = Z.of_nat (length (reviews p'))
     /\ 1 <= body_rating <= 5
     /\ (req_user ∉ map review_user (reviews p))
     /\ (NoDup (map review_user (reviews p)) ->
         NoDup (map review_user (reviews p')))
     /\ forall now' name' rating' comment',
          let again := addReview now' req_user name' id rating' comment' r.2 in
          again.1 <> ReviewAdded /\ again.2 = r.2)
  /\ (r.1 <> ReviewAdded -> r.2 = db).
Proof.
  simpl. unfold addReview.
  destruct (1 <=? body_rating) eqn:H1; simpl; [|done].
  destruct (body_rating <=? 5) eqn:H5; simpl; [|done].
  destruct (notEmpty body_comment); simpl; [|done].
  destruct (db !! id) as [p|] eqn:Hp; [|done].
  destruct (List.find _ (reviews p)) as [existing|] eqn:Hfind; [done|].
  simpl. split; [|done]. intros _.
  apply find_review_None in Hfind.
  eexists p, _. unfold save. split_and!; try done.
  - unfold calculateAverageRating. simpl. rewrite length_app. simpl.
    assert ((length (reviews p) + 1 =? 0)%nat = false) as ->
      by (apply Nat.eqb_neq; lia).
    done.
  - unfold calculateAverageRating. simpl. rewrite length_app. simpl.
    assert ((length (reviews p) + 1 =? 0)%nat = false) as ->
      by (apply Nat.eqb_neq; lia).
    simpl. by rewrite length_app.
  - by apply Z.leb_le.
  - by apply Z.leb_le.
  - intros Hnd.
    assert (reviews (calculateAverageRating
                       (mkRated (reviews p ++
                                   [mkReview req_user req_fullName body_rating
                                      body_comment now])
                          (ratings_average p) (ratings_count p)))
            = reviews p ++ [mkReview req_user req_fullName body_rating
                              body_comment now]) as ->.
    { unfold calculateAverageRating. by destruct (_ =? _)%nat. }
    rewrite map_app. simpl. apply NoDup_app. split_and!; [done| |apply NoDup_singleton].
    by intros x Hx ->%list_elem_of_singleton.
  - intros now' name' rating' comment'. rewrite lookup_insert_eq.
    destruct (_ && notEmpty comment'); simpl; [|done].
    assert (reviews (calculateAverageRating
                       (mkRated (reviews p ++
                                   [mkReview req_user req_fullName body_rating
                                      body_comment now])
                          (ratings_average p) (ratings_count p)))
            = reviews p ++ [mkReview req_user req_fullName body_rating
                              body_comment now]) as ->.
    { unfold calculateAverageRating. by destruct (_ =? _)%nat. }
    destruct (List.find _ _) as [x|] eqn:Hagain; [done|].
    exfalso. apply find_review_None in Hagain. apply Hagain.
    rewrite map_app. apply elem_of_app. right. apply list_elem_of_here.
Qed.

End Reviews.

(** *** The error middleware *)

Section ErrorMiddleware.
Import Js Middleware.

(** X27. What the error middleware answers. Whatever the error, the
    status it sends is never 200, and it is an error status (400 or more)
    whenever the response was still at 200 or already at an error status;
    in production the stack is never sent. A request that no route
    matches, passed on by [notFound], is answered with 404 and
    'Not Found - ' followed by its URL. *)
Theorem errorHandler_answers :
  (forall NODE_ENV err res_statusCode a,
      errorHandler NODE_ENV err res_statusCode = Some a ->
      statusCode a <> 200
      /\ (res_statusCode = 200 \/ 400 <= res_statusCode -> 400 <= statusCode a)
      /\ (NODE_ENV = Some "production" -> answer_stack a = None))
  /\ (forall NODE_ENV originalUrl trace,
        errorHandler NODE_ENV (notFound originalUrl trace).2
          (notFound originalUrl trace).1
        = Some (mkAnswer 404 ("Not Found - " +:+ originalUrl)
                  (if bool_decide (NODE_ENV = Some "production") then None
                   else Some trace))).
Proof.
  split.
  - intros NODE_ENV err code a. unfold errorHandler.
    destruct (code =? 200) eqn:Hc;
      destruct (String.eqb (error_name err) "CastError");
      destruct (bool_decide (error_code err = Some 11000));
      destruct (keyValue err) as [[|field fields]|];
      destruct (String.eqb (error_name err) "ValidationError");
      destruct (errors err) as [messages|];
      destruct (String.eqb (error_name err) "JsonWebTokenError");
      destruct (String.eqb (error_name err) "TokenExpiredError");
      simpl; try done; intros [= <-]; simpl;
      (split_and!;
       [try lia; apply Z.eqb_neq in Hc; lia
       |intros; try lia; apply Z.eqb_neq in Hc; lia
       |intros ->; done]).
  - intros NODE_ENV originalUrl trace. done.
Qed.

End ErrorMiddleware.

(** *** More of what every request keeps *)

Section KeptMore.
Import Js OrderModel Orders Payment Api.
Context (hmac_sha256_hex : string -> string -> string)
        (JSON_stringify : WebhookBody -> string)
        (process_env : ProcessEnv).

(** X28. The timeline follows the status. In a store where the timeline
    of every order ends with the order's status, every request leaves a
    store of the same kind: a created order starts with its status as its
    one entry, and each write of a stored order appends the new status
    when it differs from the stored one. *)
Theorem timeline_tracks_status (e : Env) (req : request) (st : Store) :
  Forall Ledger.tracks_status (orders st) ->
  Forall Ledger.tracks_status
    (orders (handle hmac_sha256_hex JSON_stringify process_env e req st).2).
Proof.
  intros Hall.
  destruct (handle_orders hmac_sha256_hex JSON_stringify process_env e req st)
    as [->|[(o & -> & _ & _ & Htl)|(stored & o1 & Hin & _ & _ & Htl & _ & ->)]].
  - done.
  - apply Forall_app. split; [done|]. apply Forall_singleton.
    unfold Ledger.tracks_status. by rewrite Htl.
  - unfold replace_order. apply Forall_fmap. rewrite Forall_forall in Hall.
    apply Forall_forall. intros x Hx. simpl.
    destruct (_id x =? _)%N; [|by apply Hall].
    unfold Ledger.tracks_status. rewrite pre_save_shape. simpl.
    destruct (bool_decide (status stored ≠ status o1)) eqn:Hm.
    + by rewrite last_snoc.
    + rewrite app_nil_r, Htl.
      apply bool_decide_eq_false in Hm.
      assert (status stored = status o1) as <-
        by (destruct (decide (status stored = status o1)); [done|by destruct Hm]).
      by apply Hall.
Qed.

(** X29. Who can mark a payment as completed. The payment of a stored
    order goes from not completed to completed in one request only: a
    payment verification for that order, sent by the order's owner, whose
    signature is the HMAC of the gateway's order and payment ids under the
    configured key secret. No other request -- no webhook, no status
    update, no cash-on-delivery call, no other user's verification -- does
    it. *)
Theorem completed_only_by_verification (e : Env) (req : request) (st : Store)
    (o o' : Order) :
  NoDup (map _id (orders st)) ->
  o ∈ orders st ->
  pay_status (paymentInfo o) <> pay_completed ->
  o' ∈ orders (handle hmac_sha256_hex JSON_stringify process_env e req st).2 ->
  _id o' = _id o ->
  pay_status (paymentInfo o') = pay_completed ->
  exists req_user b key,
    req = VerifyPayment req_user b
    /\ RAZORPAY_KEY_SECRET process_env = Some key
    /\ razorpay_signature b
       = hmac_sha256_hex key
           (razorpay_order_id b +:+ "|" +:+ razorpay_payment_id b)
    /\ verify_orderId b = _id o
    /\ user o = req_user.
Proof.
  intros Hnd Hin Hnot Hin' Hid Hpaid.
  assert (forall x, x ∈ orders st -> _id x = _id o -> x = o) as Huniq.
  { intros x Hx Hxid. by apply (NoDup_map_eq _id (orders st)). }
  pose proof (handle_orders hmac_sha256_hex JSON_stringify process_env e req st)
    as Hcases. cbv zeta in Hcases.
  destruct req as [req_user b|req_user id body_reason|id s tn c ed|req_user b
                  |sig body|req_user id].
  4: { (* verifyPayment *)
    clear Hcases. simpl in Hin'. unfold verifyPayment in Hin'.
    destruct (_ && _); simpl in Hin'; [|by rewrite (Huniq o' Hin' Hid) in Hpaid].
    destruct (RAZORPAY_KEY_SECRET process_env) as [key|] eqn:Hkey;
      [|by rewrite (Huniq o' Hin' Hid) in Hpaid].
    destruct (String.eqb _ _) eqn:Hsig; simpl in Hin';
      [|by rewrite (Huniq o' Hin' Hid) in Hpaid].
    destruct (findById _ (orders st)) as [order|] eqn:Hf;
      [|by rewrite (Huniq o' Hin' Hid) in Hpaid].
    destruct (user order =? req_user)%N eqn:Hu; simpl in Hin';
      [|by rewrite (Huniq o' Hin' Hid) in Hpaid].
    destruct (save _ _ _ _) as [[saved odb]|] eqn:Hsave;
      [|by rewrite (Huniq o' Hin' Hid) in Hpaid].
    simpl in Hin'. apply save_Some in Hsave as [Hsaved ->].
    apply findById_id in Hf as [Hfid Hfin].
    assert (_id saved = _id order) as Hsid by (by rewrite Hsaved, pre_save_shape).
    unfold replace_order in Hin'. apply list_elem_of_fmap in Hin' as (x & -> & Hx).
    destruct (_id x =? _id saved)%N eqn:Hxs.
    - apply N.eqb_eq in Hxs.
      assert (order = o) as -> by (apply Huniq; [done|congruence]).
      exists req_user, b, key. split_and!; try done.
      + apply String.eqb_eq in Hsig. by symmetry.
      + by apply N.eqb_eq.
    - by rewrite (Huniq x Hx Hid) in Hpaid. }
  all: destruct Hcases
         as [Hsame|[(new & Hnew & Hfresh & _)
                   |(stored & o1 & Hs & Hi & _ & _ & Hup & Hrep)]];
    [ rewrite Hsame in Hin'; by rewrite (Huniq o' Hin' Hid) in Hpaid
    | rewrite Hnew in Hin';
      apply elem_of_app in Hin' as [Hin'|Hlast];
      [ by rewrite (Huniq o' Hin' Hid) in Hpaid
      | apply list_elem_of_singleton in Hlast; subst o';
        by destruct (Hfresh o Hin) as [Hne _] ]
    | rewrite Hrep in Hin'; unfold replace_order in Hin';
      apply list_elem_of_fmap in Hin' as (x & -> & Hx);
      destruct (_id x =? _)%N eqn:Hxs;
      [ rewrite pre_save_shape in Hpaid; simpl in Hpaid;
        apply N.eqb_eq in Hxs; rewrite pre_save_shape in Hxs; simpl in Hxs;
        assert (stored = o) as -> by
          (apply Huniq; [done|rewrite pre_save_shape in Hid; simpl in Hid; congruence]);
        simpl in Hup
      | by rewrite (Huniq x Hx Hid) in Hpaid ] ].
  - done.
  - destruct Hup as [Hp _]. by rewrite Hp in Hpaid.
  - destruct Hup as [Hp _]. by rewrite Hp in Hpaid.
  - destruct Hup as (_ & _ & Hp & _). by rewrite Hp in Hpaid.
  - destruct Hup as (_ & Hp & _). by rewrite Hp in Hpaid.
Qed.



End KeptMore.

(** Asha's order has its first entry; shipping it keeps the timeline in
    step. *)
Lemma timeline_tracks_status_witness :
  Forall Ledger.tracks_status (orders Shop.dispatched).
Proof.
  apply (timeline_tracks_status Shop.hmac Shop.json Shop.secrets Shop.later
           (Api.UpdateOrderStatus 100%N shipped (Some "TRK1") None None)
           Shop.placed).
  apply Forall_singleton. reflexivity.
Defined.

(** Asha's payment became completed through her verified confirmation. *)
Lemma completed_only_by_verification_witness :
  exists o o',
    o ∈ orders Shop.placed /\ o' ∈ orders Shop.paid
    /\ pay_status (paymentInfo o) = pay_pending
    /\ pay_status (paymentInfo o') = pay_completed
    /\ Payment.razorpay_signature Shop.confirmation
       = Shop.hmac "key" "order_1|pay_1".
Proof.
  eexists _, _.
  assert (NoDup (map _id (orders Shop.placed))) as Hnd.
  { apply NoDup_cons. split; [apply not_elem_of_nil|apply NoDup_nil_2]. }
  lazymatch goal with
  | |- ?o ∈ ?db /\ ?o' ∈ ?db' /\ _ =>
      assert (o ∈ db) as Hin by apply list_elem_of_here;
      assert (o' ∈ db') as Hin' by apply list_elem_of_here
  end.
  split; [exact Hin|]. split; [exact Hin'|]. split; [reflexivity|].
  split; [reflexivity|].
  destruct (completed_only_by_verification Shop.hmac Shop.json Shop.secrets
              Shop.later (Api.VerifyPayment 10%N Shop.confirmation) Shop.placed
              _ _ Hnd Hin ltac:(discriminate) Hin' eq_refl eq_refl)
    as (req_user & b & key & [= <- <-] & [= <-] & Hsig & _).
  exact Hsig.
Defined.
